(** * dynsec: the stall engine, its configuration ioctl and the LSM hook adapters

    A shallow embedding of
      - [do_stall_interruptible], [dynsec_wait_event_timeout] and
        [handle_stall_ioc] (second document of src/dynsec/src/hooks.h),
      - the hook adapters of src/dynsec/src/hooks.c and of the later
        revision of that file, src/unnamed/part_000.

    Kernel [int]s, [unsigned long]s and bit masks are [Z]; a NULL-able
    pointer is an [option]; the calls a function makes on the stall table
    and on the event allocator are recorded, in program order, in a trace
    of [action]s.  What other threads and the configuration do while a task
    sleeps is an explicit argument (one [round] per pass of the retry
    loop). *)

From Stdlib Require Import ZArith List Lia Bool.
Import ListNotations.
Local Open Scope Z_scope.

(** ** Kernel constants (include/uapi/asm-generic/errno-base.h, linux/err.h) *)

Definition EPERM : Z := 1.
Definition ECHILD : Z := 10.
Definition EINVAL : Z := 22.
Definition MAX_ERRNO : Z := 4095.

(** [unsigned int] and [uint16_t] stores. *)
Definition u32 (z : Z) : Z := z mod 2 ^ 32.
Definition u16 (z : Z) : Z := z mod 2 ^ 16.

(** [IS_ERR] and [PTR_ERR] of linux/err.h on a 64-bit pointer value. *)
Definition IS_ERR (p : Z) : bool := 2 ^ 64 - MAX_ERRNO <=? p.
Definition PTR_ERR (p : Z) : Z := p - 2 ^ 64.

(** ** Constants of headers that are not among the sources

    dynsec.h, stall_tbl.h and config.h are included by the code but are not
    under src/: their macros are taken as parameters, under the names the
    code uses. *)

Class dynsec_h : Type := {
  DYNSEC_RESPONSE_ALLOW : Z;
  DYNSEC_RESPONSE_EPERM : Z;
  DYNSEC_RESPONSE_CONTINUE : Z;
  DYNSEC_STALL_MODE_STALL : Z;
  DYNSEC_REPORT_STALL : Z;
  DYNSEC_REPORT_AUDIT : Z;
  DYNSEC_REPORT_SELF : Z;
  DYNSEC_REPORT_IGNORE : Z;
  DYNSEC_STALL_MODE_SET : Z;
  DYNSEC_STALL_DEFAULT_TIMEOUT : Z;
  DYNSEC_STALL_CONTINUE_TIMEOUT : Z;
  DYNSEC_STALL_DEFAULT_DENY : Z
}.

Class config_h : Type := {
  MIN_WAIT_TIMEOUT_MS : Z;
  MAX_WAIT_TIMEOUT_MS : Z;
  MAX_EXTENDED_TIMEOUT_MS : Z;
  DEFAULT_DISABLED : Z;
  DEFAULT_ENABLED : Z
}.

(** ** The stall engine *)

Definition MAX_CONTINUE_RESPONSES : Z := 256.

(** The fields of [struct stall_entry] the engine reads and writes. *)
Record stall_entry : Type := {
  response : Z;
  stall_timeout : Z;
  mode : Z
}.

(** The conversion from [long] to [int]: the low 32 bits, read as a signed
    number.  [wait_ret] is an [int] and [wait_event_interruptible_timeout]
    returns a [long]. *)
Definition int_of_long (x : Z) : Z := (x + 2 ^ 31) mod 2 ^ 32 - 2 ^ 31.
Arguments int_of_long : simpl never.

(** What one pass of the [retry:] loop observes: the three gates, the
    [long] that [wait_event_interruptible_timeout] returns (field
    [wait_ret], before the store into the [int] of that name), the entry as
    the response path left it (read under [entry->lock]) and
    [get_continue_timeout()]. *)
Record round : Type := {
  tbl_enabled : bool;
  stall_mode_on : bool;
  bypass_mode_on : bool;
  wait_ret : Z;
  entry_now : stall_entry;
  continue_timeout : Z
}.

(** Calls with an effect outside the function, in program order. *)
Inductive action : Type :=
| Wait (timeout : Z)
| Rearm
| RemoveEntry
| Insert
| KfreeEntry
| FreeEvent (is_null : bool).

(** The [return] statement through which [do_stall_interruptible] left. *)
Inductive exit_path : Type :=
| ExitDisabled
| ExitInterrupted
| ExitTimedOut
| ExitResponse
| ExitContinueCap.

Record stall_result : Type := {
  ret : Z;
  out_response : Z;
  local_response : Z;
  path : exit_path;
  trace : list action
}.

Definition prepend (pre : list action) (r : stall_result) : stall_result :=
  {| ret := ret r; out_response := out_response r;
     local_response := local_response r; path := path r;
     trace := pre ++ trace r |}.

Section Engine.
Context {K : dynsec_h}.
Variable msecs_to_jiffies : Z -> Z.

(** The three early [return -ECHILD] of the gates. *)
Definition gate_closed (local_response resp : Z) : stall_result :=
  {| ret := - ECHILD; out_response := resp;
     local_response := local_response; path := ExitDisabled; trace := [] |}.

(** The code after the [if]/[else if]/[else] on [wait_ret]: the store to
    [*response], [stall_tbl_remove_entry] and [return ret]. *)
Definition leave (ret0 local_response0 resp : Z) (p : exit_path)
           (tr : list action) : stall_result :=
  {| ret := ret0;
     out_response :=
       if local_response0 =? DYNSEC_RESPONSE_EPERM then - EPERM else resp;
     local_response := local_response0;
     path := p;
     trace := tr ++ [RemoveEntry] |}.

(** The body from [retry:] on.  [fuel] only bounds the unfolding; the C
    loop is bounded by [continue_count]. *)
Fixpoint retry (fuel : nat) (env : nat -> round) (i : nat)
         (default_reponse local_response0 timeout continue_count resp : Z)
  : option stall_result :=
  match fuel with
  | O => None
  | S fuel' =>
    let r := env i in
    if negb (tbl_enabled r) then Some (gate_closed local_response0 resp)
    else if negb (stall_mode_on r) then Some (gate_closed local_response0 resp)
    else if bypass_mode_on r then Some (gate_closed local_response0 resp)
    else
      let wait_ret := int_of_long (wait_ret r) in
      if wait_ret <? 0 then
        Some (leave 0 default_reponse resp ExitInterrupted [Wait timeout])
      else if wait_ret =? 0 then
        Some (leave 0 default_reponse resp ExitTimedOut [Wait timeout])
      else
        let local_response1 := response (entry_now r) in
        let local_timeout := stall_timeout (entry_now r) in
        if local_response1 =? DYNSEC_RESPONSE_CONTINUE then
          let timeout' :=
            if negb (local_timeout =? 0) then msecs_to_jiffies local_timeout
            else msecs_to_jiffies (continue_timeout r) in
          let continue_count' := u32 (continue_count + 1) in
          if continue_count' <? MAX_CONTINUE_RESPONSES then
            option_map (prepend [Wait timeout; Rearm])
              (retry fuel' env (S i) default_reponse local_response1
                     timeout' continue_count' resp)
          else
            Some (leave (- ECHILD) local_response1 resp ExitContinueCap
                        [Wait timeout; Rearm])
        else
          Some (leave 0 local_response1 resp ExitResponse
                      [Wait timeout; Rearm])
  end.

(** [do_stall_interruptible(entry, response)]; [wait_timeout] is what
    [get_wait_timeout()] returns and [resp] the value of [*response] on
    entry. *)
Definition do_stall_interruptible (entry : stall_entry) (wait_timeout : Z)
           (env : nat -> round) (resp : Z) : option stall_result :=
  retry (Z.to_nat MAX_CONTINUE_RESPONSES) env 0%nat
        (response entry) (response entry)
        (msecs_to_jiffies wait_timeout) 0 resp.

(** The part of [struct dynsec_event] the engine looks at. *)
Record dynsec_event : Type := { report_flags : Z }.

Record wait_result : Type := {
  w_ret : Z;
  w_response : option Z;
  w_trace : list action
}.

(** [(dynsec_event->report_flags & DYNSEC_REPORT_IGNORE) &&
     ignore_mode_enabled()] *)
Definition ignorable (ev : dynsec_event) (ignore_mode : bool) : bool :=
  negb (Z.land (report_flags ev) DYNSEC_REPORT_IGNORE =? 0) && ignore_mode.

(** [dynsec_wait_event_timeout(dynsec_event, response, mode)].
    [response] is [None] for a NULL pointer, else the [int] it points to;
    [tbl_on] and [ignore_mode] are [stall_tbl_enabled(stall_tbl)] and
    [ignore_mode_enabled()] at the call; [entry_ptr] is the pointer
    [stall_tbl_insert] returns and [entry] what it points to when it is
    neither NULL nor an error. *)
Definition dynsec_wait_event_timeout (event : option dynsec_event)
           (response : option Z) (tbl_on ignore_mode : bool)
           (entry_ptr : Z) (entry : stall_entry) (wait_timeout : Z)
           (env : nat -> round) : option wait_result :=
  match response with
  | None => Some {| w_ret := - EINVAL; w_response := None; w_trace := [] |}
  | Some _ =>
    let resp := 0 in
    match event with
    | None =>
      Some {| w_ret := - EINVAL; w_response := Some resp;
              w_trace := [FreeEvent true] |}
    | Some ev =>
      if negb tbl_on then
        Some {| w_ret := - EINVAL; w_response := Some resp;
                w_trace := [FreeEvent false] |}
      else if ignorable ev ignore_mode then
        Some {| w_ret := - ECHILD; w_response := Some resp;
                w_trace := [FreeEvent false] |}
      else if IS_ERR entry_ptr then
        Some {| w_ret := PTR_ERR entry_ptr; w_response := Some resp;
                w_trace := [Insert; FreeEvent false] |}
      else if negb (entry_ptr =? 0) then
        option_map
          (fun r => {| w_ret := 0; w_response := Some (out_response r);
                       w_trace := Insert :: trace r ++ [KfreeEntry] |})
          (do_stall_interruptible entry wait_timeout env resp)
      else
        Some {| w_ret := 0; w_response := Some resp; w_trace := [Insert] |}
    end
  end.

End Engine.

(** ** The configuration request *)

(** [struct dynsec_stall_ioc_hdr]: the fields [handle_stall_ioc] reads. *)
Module Hdr.
Record t : Type := {
  flags : Z;
  stall_mode : Z;
  stall_timeout : Z;
  stall_timeout_continue : Z;
  stall_timeout_deny : Z
}.
End Hdr.

(** [global_config]: the fields [handle_stall_ioc] writes. *)
Module Cfg.
Record t : Type := {
  stall_mode : Z;
  stall_timeout : Z;
  stall_timeout_continue : Z;
  stall_timeout_deny : Z
}.

Definition set_stall_mode (v : Z) (c : t) : t :=
  {| stall_mode := v; stall_timeout := stall_timeout c;
     stall_timeout_continue := stall_timeout_continue c;
     stall_timeout_deny := stall_timeout_deny c |}.
Definition set_stall_timeout (v : Z) (c : t) : t :=
  {| stall_mode := stall_mode c; stall_timeout := v;
     stall_timeout_continue := stall_timeout_continue c;
     stall_timeout_deny := stall_timeout_deny c |}.
Definition set_stall_timeout_continue (v : Z) (c : t) : t :=
  {| stall_mode := stall_mode c; stall_timeout := stall_timeout c;
     stall_timeout_continue := v;
     stall_timeout_deny := stall_timeout_deny c |}.
Definition set_stall_timeout_deny (v : Z) (c : t) : t :=
  {| stall_mode := stall_mode c; stall_timeout := stall_timeout c;
     stall_timeout_continue := stall_timeout_continue c;
     stall_timeout_deny := v |}.
End Cfg.

Inductive cfg_action : Type :=
| LockConfig
| UnlockConfig
| TaskCacheClear
| InodeCacheClear.

Record ioc_result : Type := {
  ioc_ret : Z;
  ioc_config : Cfg.t;
  ioc_trace : list cfg_action
}.

Section Ioctl.
Context {K : dynsec_h} {C : config_h}.

(** [stall_mode_enabled()] and [deny_on_timeout_enabled()] are inline
    readers of [global_config] declared in config.h. *)
Variable stall_mode_enabled : Cfg.t -> bool.
Variable deny_on_timeout_enabled : Cfg.t -> bool.

Definition recognized_flags : Z :=
  Z.lor (Z.lor (Z.lor DYNSEC_STALL_MODE_SET DYNSEC_STALL_DEFAULT_TIMEOUT)
               DYNSEC_STALL_CONTINUE_TIMEOUT)
        DYNSEC_STALL_DEFAULT_DENY.

Definition selected (flags bit : Z) : bool := negb (Z.land flags bit =? 0).

(** [if (flags & DYNSEC_STALL_MODE_SET) { ... }] *)
Definition apply_mode_set (hdr : Hdr.t) (st : Cfg.t * list cfg_action)
  : Cfg.t * list cfg_action :=
  let (cfg, tr) := st in
  if stall_mode_enabled cfg then
    if Hdr.stall_mode hdr =? DEFAULT_DISABLED then
      (Cfg.set_stall_mode DEFAULT_DISABLED cfg,
       tr ++ [TaskCacheClear; InodeCacheClear])
    else (cfg, tr)
  else
    if negb (Hdr.stall_mode hdr =? DEFAULT_DISABLED) then
      (Cfg.set_stall_mode DEFAULT_ENABLED cfg,
       tr ++ [TaskCacheClear; InodeCacheClear])
    else (cfg, tr).

(** [if (flags & DYNSEC_STALL_DEFAULT_TIMEOUT) { ... }] *)
Definition apply_default_timeout (hdr : Hdr.t) (cfg : Cfg.t) : Cfg.t :=
  let timeout_ms := MAX_WAIT_TIMEOUT_MS in
  let timeout_ms :=
    if Hdr.stall_timeout hdr <? MAX_WAIT_TIMEOUT_MS
    then Hdr.stall_timeout hdr else timeout_ms in
  let timeout_ms :=
    if timeout_ms <? MIN_WAIT_TIMEOUT_MS
    then MIN_WAIT_TIMEOUT_MS else timeout_ms in
  Cfg.set_stall_timeout timeout_ms cfg.

(** [if (flags & DYNSEC_STALL_CONTINUE_TIMEOUT) { ... }] *)
Definition apply_continue_timeout (hdr : Hdr.t) (cfg : Cfg.t) : Cfg.t :=
  let timeout_ms :=
    if Hdr.stall_timeout_continue hdr >? Cfg.stall_timeout cfg
    then Hdr.stall_timeout_continue hdr else Cfg.stall_timeout cfg in
  let timeout_ms :=
    if timeout_ms >? MAX_EXTENDED_TIMEOUT_MS
    then MAX_EXTENDED_TIMEOUT_MS else timeout_ms in
  Cfg.set_stall_timeout_continue timeout_ms cfg.

(** [if (flags & DYNSEC_STALL_DEFAULT_DENY) { ... }] *)
Definition apply_default_deny (hdr : Hdr.t) (cfg : Cfg.t) : Cfg.t :=
  if deny_on_timeout_enabled cfg then
    if Hdr.stall_timeout_deny hdr =? DEFAULT_DISABLED
    then Cfg.set_stall_timeout_deny DEFAULT_DISABLED cfg else cfg
  else
    if negb (Hdr.stall_timeout_deny hdr =? DEFAULT_DISABLED)
    then Cfg.set_stall_timeout_deny DEFAULT_ENABLED cfg else cfg.

(** [handle_stall_ioc(hdr)]: [capable] is [capable(CAP_SYS_ADMIN)] and
    [cfg] is [global_config] before the call. *)
Definition handle_stall_ioc (hdr : option Hdr.t) (capable : bool)
           (cfg : Cfg.t) : ioc_result :=
  match hdr with
  | None => {| ioc_ret := - EINVAL; ioc_config := cfg; ioc_trace := [] |}
  | Some hdr =>
    let flags := Z.land (Hdr.flags hdr) recognized_flags in
    if flags =? 0 then
      {| ioc_ret := - EINVAL; ioc_config := cfg; ioc_trace := [] |}
    else if negb capable then
      {| ioc_ret := - EPERM; ioc_config := cfg; ioc_trace := [] |}
    else
      let st := (cfg, [LockConfig]) in
      let st := if selected flags DYNSEC_STALL_MODE_SET
                then apply_mode_set hdr st else st in
      let (cfg1, tr) := st in
      let cfg2 := if selected flags DYNSEC_STALL_DEFAULT_TIMEOUT
                  then apply_default_timeout hdr cfg1 else cfg1 in
      let cfg3 := if selected flags DYNSEC_STALL_CONTINUE_TIMEOUT
                  then apply_continue_timeout hdr cfg2 else cfg2 in
      let cfg4 := if selected flags DYNSEC_STALL_DEFAULT_DENY
                  then apply_default_deny hdr cfg3 else cfg3 in
      {| ioc_ret := 0; ioc_config := cfg4;
         ioc_trace := tr ++ [UnlockConfig] |}
  end.

(** The invariant the spec states for every configuration. *)
Definition timeouts_in_range (cfg : Cfg.t) : Prop :=
  MIN_WAIT_TIMEOUT_MS <= Cfg.stall_timeout cfg <= MAX_WAIT_TIMEOUT_MS /\
  Cfg.stall_timeout cfg <= Cfg.stall_timeout_continue cfg
    <= MAX_EXTENDED_TIMEOUT_MS.

End Ioctl.

(** ** The hook adapters *)

(** Linux constants the adapters test (linux/fs.h, uapi/linux/stat.h,
    uapi/asm-generic/mman-common.h, linux/ptrace.h). *)
Definition ATTR_MODE : Z := 1.
Definition ATTR_UID : Z := 2.
Definition ATTR_GID : Z := 4.
Definition ATTR_SIZE : Z := 8.
Definition S_IFMT : Z := 61440.
Definition S_IFREG : Z := 32768.
Definition S_IFDIR : Z := 16384.
Definition S_IFLNK : Z := 40960.
Definition S_ISREG (m : Z) : bool := Z.land m S_IFMT =? S_IFREG.
Definition S_ISDIR (m : Z) : bool := Z.land m S_IFMT =? S_IFDIR.
Definition S_ISLNK (m : Z) : bool := Z.land m S_IFMT =? S_IFLNK.
Definition FMODE_WRITE : Z := 2.
Definition FMODE_EXEC : Z := 32.
Definition FMODE_STREAM : Z := 2097152.
Definition FMODE_NONOTIFY : Z := 67108864.
Definition PROT_EXEC : Z := 4.
Definition MAP_DENYWRITE : Z := 2048.
Definition MAP_EXECUTABLE : Z := 4096.
Definition PTRACE_MODE_ATTACH : Z := 2.

(** [enum dynsec_event_type], as far as the adapters name it. *)
Inductive dynsec_event_type : Type :=
| DYNSEC_EVENT_TYPE_EXEC
| DYNSEC_EVENT_TYPE_UNLINK
| DYNSEC_EVENT_TYPE_RMDIR
| DYNSEC_EVENT_TYPE_RENAME
| DYNSEC_EVENT_TYPE_SETATTR
| DYNSEC_EVENT_TYPE_MKDIR
| DYNSEC_EVENT_TYPE_CREATE
| DYNSEC_EVENT_TYPE_LINK
| DYNSEC_EVENT_TYPE_SYMLINK
| DYNSEC_EVENT_TYPE_OPEN
| DYNSEC_EVENT_TYPE_CLOSE
| DYNSEC_EVENT_TYPE_PTRACE
| DYNSEC_EVENT_TYPE_SIGNAL
| DYNSEC_EVENT_TYPE_CLONE
| DYNSEC_EVENT_TYPE_EXIT
| DYNSEC_EVENT_TYPE_MMAP.

(** The hook-type masks of dynsec.h (not among the sources). *)
Class dynsec_hook_h : Type := {
  DYNSEC_HOOK_TYPE_EXEC : Z;
  DYNSEC_HOOK_TYPE_UNLINK : Z;
  DYNSEC_HOOK_TYPE_RMDIR : Z;
  DYNSEC_HOOK_TYPE_RENAME : Z;
  DYNSEC_HOOK_TYPE_SETATTR : Z;
  DYNSEC_HOOK_TYPE_MKDIR : Z;
  DYNSEC_HOOK_TYPE_CREATE : Z;
  DYNSEC_HOOK_TYPE_LINK : Z;
  DYNSEC_HOOK_TYPE_SYMLINK : Z;
  DYNSEC_HOOK_TYPE_OPEN : Z;
  DYNSEC_HOOK_TYPE_CLOSE : Z;
  DYNSEC_HOOK_TYPE_PTRACE : Z;
  DYNSEC_HOOK_TYPE_SIGNAL : Z;
  DYNSEC_HOOK_TYPE_MMAP : Z;
  DYNSEC_HOOK_TYPE_TASK_FREE : Z;
  DYNSEC_TP_HOOK_TYPE_CLONE : Z;
  DYNSEC_TP_HOOK_TYPE_EXIT : Z;
  DYNSEC_TP_HOOK_TYPE_TASK_FREE : Z
}.

(** Calls an adapter makes on the factory, the engine and the queues. *)
Inductive hook_action : Type :=
| AllocEvent (event_type : dynsec_event_type) (hook_type flags : Z)
| FillIn
| FreeEv
| WaitEvent
| Enqueue
| EnqueueLowPri.

(** An adapter returns [ret] to the kernel; [NullDeref] is the read of
    [event->report_flags] through the NULL pointer of a failed allocation,
    in the adapters that do not test what [alloc_dynsec_event] returns. *)
Inductive hook_outcome : Type :=
| Done (ret : Z) (tr : list hook_action)
| NullDeref (tr : list hook_action).

Definition outcome_trace (o : hook_outcome) : list hook_action :=
  match o with Done _ tr => tr | NullDeref tr => tr end.

(** What an adapter reads from its surroundings.  [orig_ret] is what the
    previously installed hook ([g_original_ops_ptr], kernels before 4.0)
    returned, 0 when there is none; [wait_rc] and [wait_response] are the
    return value and the [*response] of [dynsec_wait_event_timeout];
    [enqueue_size] is what the enqueue function returns. *)
Record hook_env : Type := {
  orig_ret : Z;
  lsm_hooks_enabled : Z;
  stall_tbl_on : bool;
  in_connected_tgid : bool;
  alloc_ok : bool;
  fill_ok : bool;
  wait_rc : Z;
  wait_response : Z;
  enqueue_size : Z
}.

Record inode : Type := { i_mode : Z; i_uid : Z; i_gid : Z; i_size : Z }.

Record iattr : Type := {
  ia_valid : Z; ia_mode : Z; ia_uid : Z; ia_gid : Z; ia_size : Z
}.

(** [tgid] and [pid] of a [struct task_struct]. *)
Record task_struct : Type := { tgid : Z; pid : Z }.

(** Modelled from the spec: [alloc_dynsec_event] (the event factory) is
    declared in factory.h but its body is not among the sources.  The spec
    has the factory allocate and populate the event, so the event carries
    the report flags the adapter passed. *)
Definition alloc_dynsec_event (flags : Z) : dynsec_event :=
  {| report_flags := flags |}.

(** *** src/unnamed/part_000 *)
Module Part_000.
Section Adapters.
Context {K : dynsec_h} {T : dynsec_hook_h}.

(** [if (task_in_connected_tgid(current)) report_flags |= SELF;
     else report_flags |= STALL;] *)
Definition self_or_stall (e : hook_env) (flags : Z) : Z :=
  if in_connected_tgid e then u16 (Z.lor flags DYNSEC_REPORT_SELF)
  else u16 (Z.lor flags DYNSEC_REPORT_STALL).

(** [if (task_in_connected_tgid(...)) report_flags |= SELF;] *)
Definition self_only (connected : bool) (flags : Z) : Z :=
  if connected then u16 (Z.lor flags DYNSEC_REPORT_SELF) else flags.

(** [if (task_in_connected_tgid(current)) { report_flags |= SELF;
     report_flags &= ~(STALL); }] *)
Definition self_clears_stall (e : hook_env) (flags : Z) : Z :=
  if in_connected_tgid e then
    u16 (Z.land (u16 (Z.lor flags DYNSEC_REPORT_SELF))
                (Z.lnot DYNSEC_REPORT_STALL))
  else flags.

(** [if (event->report_flags & STALL) { rc = dynsec_wait_event_timeout(..);
     if (!rc) ret = response; } else { (void)enqueue...; }] *)
Definition stall_or_enqueue (e : hook_env) (ret0 : Z) (event : dynsec_event)
           (enq : hook_action) (tr : list hook_action) : hook_outcome :=
  if negb (Z.land (report_flags event) DYNSEC_REPORT_STALL =? 0) then
    Done (if wait_rc e =? 0 then wait_response e else ret0)
         (tr ++ [WaitEvent])
  else Done ret0 (tr ++ [enq]).

(** Allocation with [if (!event) goto out;], then fill, then stall or
    enqueue. *)
Definition build_checked (e : hook_env) (ret0 : Z)
           (et : dynsec_event_type) (ht flags : Z) : hook_outcome :=
  if negb (alloc_ok e) then Done ret0 [AllocEvent et ht flags]
  else if negb (fill_ok e) then
    Done ret0 [AllocEvent et ht flags; FillIn; FreeEv]
  else
    stall_or_enqueue e ret0 (alloc_dynsec_event flags) Enqueue
                     [AllocEvent et ht flags; FillIn].

(** Allocation handed to the filler without a test, then stall or
    enqueue. *)
Definition build_unchecked (e : hook_env) (ret0 : Z)
           (et : dynsec_event_type) (ht flags : Z) (enq : hook_action)
  : hook_outcome :=
  if negb (fill_ok e) then
    Done ret0 [AllocEvent et ht flags; FillIn; FreeEv]
  else if negb (alloc_ok e) then
    NullDeref [AllocEvent et ht flags; FillIn]
  else
    stall_or_enqueue e ret0 (alloc_dynsec_event flags) enq
                     [AllocEvent et ht flags; FillIn].

(** Allocation, fill and unconditional enqueue (the adapters that never
    stall); the value returned is [ret0] on every path. *)
Definition build_enqueue (e : hook_env)
           (et : dynsec_event_type) (ht flags : Z) (enq : hook_action)
  : list hook_action :=
  if negb (fill_ok e) then [AllocEvent et ht flags; FillIn; FreeEv]
  else [AllocEvent et ht flags; FillIn; enq].

Definition hook_off (e : hook_env) (ht : Z) : bool :=
  Z.land (lsm_hooks_enabled e) ht =? 0.

Definition dynsec_bprm_set_creds (e : hook_env) (bprm_has_file : bool)
  : hook_outcome :=
  let ret0 := orig_ret e in
  if negb (ret0 =? 0) then Done ret0 []
  else if hook_off e DYNSEC_HOOK_TYPE_EXEC then Done ret0 []
  else if negb bprm_has_file then Done ret0 []
  else if negb (stall_tbl_on e) then Done ret0 []
  else
    let flags := self_or_stall e (u16 DYNSEC_REPORT_AUDIT) in
    build_checked e ret0 DYNSEC_EVENT_TYPE_EXEC DYNSEC_HOOK_TYPE_EXEC flags.

(** Shared shape of [dynsec_inode_unlink], [dynsec_inode_rmdir] and
    [dynsec_inode_rename]; [d_inode] is the inode of the (old) dentry. *)
Definition unlink_like (e : hook_env) (et : dynsec_event_type) (ht : Z)
           (d_inode : option inode) : hook_outcome :=
  let ret0 := orig_ret e in
  if negb (ret0 =? 0) then Done ret0 []
  else if hook_off e ht then Done ret0 []
  else if negb (stall_tbl_on e) then Done ret0 []
  else
    let flags := self_or_stall e (u16 DYNSEC_REPORT_AUDIT) in
    match d_inode with
    | None => Done ret0 []
    | Some ino =>
      let mode := i_mode ino in
      if negb (S_ISLNK mode || S_ISREG mode || S_ISDIR mode) then Done ret0 []
      else build_checked e ret0 et ht flags
    end.

Definition dynsec_inode_unlink (e : hook_env) (d_inode : option inode) :=
  unlink_like e DYNSEC_EVENT_TYPE_UNLINK DYNSEC_HOOK_TYPE_UNLINK d_inode.
Definition dynsec_inode_rmdir (e : hook_env) (d_inode : option inode) :=
  unlink_like e DYNSEC_EVENT_TYPE_RMDIR DYNSEC_HOOK_TYPE_RMDIR d_inode.
Definition dynsec_inode_rename (e : hook_env) (old_d_inode : option inode) :=
  unlink_like e DYNSEC_EVENT_TYPE_RENAME DYNSEC_HOOK_TYPE_RENAME old_d_inode.

(** The "redundant fields" part of [dynsec_inode_setattr]: [attr_mask]
    after the four tests. *)
Definition setattr_mask (ino : inode) (attr : iattr) : Z :=
  let attr_mask := u32 (ia_valid attr) in
  let attr_mask :=
    Z.land attr_mask
           (Z.lor (Z.lor (Z.lor ATTR_MODE ATTR_UID) ATTR_GID) ATTR_SIZE) in
  if attr_mask =? 0 then 0
  else
    let attr_mask :=
      if negb (Z.land attr_mask ATTR_MODE =? 0) && (ia_mode attr =? i_mode ino)
      then u32 (Z.land attr_mask (Z.lnot ATTR_MODE)) else attr_mask in
    let attr_mask :=
      if negb (Z.land attr_mask ATTR_UID =? 0) && (ia_uid attr =? i_uid ino)
      then u32 (Z.land attr_mask (Z.lnot ATTR_UID)) else attr_mask in
    let attr_mask :=
      if negb (Z.land attr_mask ATTR_GID =? 0) && (ia_gid attr =? i_gid ino)
      then u32 (Z.land attr_mask (Z.lnot ATTR_GID)) else attr_mask in
    let attr_mask :=
      if negb (Z.land attr_mask ATTR_SIZE =? 0) then
        if negb (ia_size attr =? 0)
        then u32 (Z.land attr_mask (Z.lnot ATTR_SIZE))
        else if ia_size attr =? i_size ino
             then u32 (Z.land attr_mask (Z.lnot ATTR_SIZE))
             else attr_mask
      else attr_mask in
    attr_mask.

(** [dentry] is [None] for a NULL dentry, [Some None] for a dentry
    without inode. *)
Definition dynsec_inode_setattr (e : hook_env)
           (dentry : option (option inode)) (attr : option iattr)
  : hook_outcome :=
  let ret0 := orig_ret e in
  if negb (ret0 =? 0) then Done ret0 []
  else if hook_off e DYNSEC_HOOK_TYPE_SETATTR then Done ret0 []
  else
    match dentry, attr with
    | Some (Some ino), Some attr =>
      let attr_mask := setattr_mask ino attr in
      if attr_mask =? 0 then Done ret0 []
      else if negb (stall_tbl_on e) then Done ret0 []
      else
        let flags := self_or_stall e (u16 DYNSEC_REPORT_AUDIT) in
        build_unchecked e ret0 DYNSEC_EVENT_TYPE_SETATTR
                        DYNSEC_HOOK_TYPE_SETATTR flags Enqueue
    | _, _ => Done ret0 []
    end.

(** Shared shape of [dynsec_inode_mkdir], [dynsec_inode_create],
    [dynsec_inode_link] and [dynsec_inode_symlink]. *)
Definition create_like (e : hook_env) (et : dynsec_event_type) (ht : Z)
  : hook_outcome :=
  let ret0 := orig_ret e in
  if negb (ret0 =? 0) then Done ret0 []
  else if hook_off e ht then Done ret0 []
  else if negb (stall_tbl_on e) then Done ret0 []
  else
    let flags := self_or_stall e (u16 DYNSEC_REPORT_AUDIT) in
    build_unchecked e ret0 et ht flags Enqueue.

Definition dynsec_inode_mkdir (e : hook_env) :=
  create_like e DYNSEC_EVENT_TYPE_MKDIR DYNSEC_HOOK_TYPE_MKDIR.
Definition dynsec_inode_create (e : hook_env) :=
  create_like e DYNSEC_EVENT_TYPE_CREATE DYNSEC_HOOK_TYPE_CREATE.
Definition dynsec_inode_link (e : hook_env) :=
  create_like e DYNSEC_EVENT_TYPE_LINK DYNSEC_HOOK_TYPE_LINK.
Definition dynsec_inode_symlink (e : hook_env) :=
  create_like e DYNSEC_EVENT_TYPE_SYMLINK DYNSEC_HOOK_TYPE_SYMLINK.

(** [report_flags] of [dynsec_file_open] at the call of
    [alloc_dynsec_event], for a regular file: the two [&= ~STALL] under
    [FMODE_STREAM] and [FMODE_NONOTIFY], the assignment
    [report_flags = DYNSEC_REPORT_STALL], then the SELF test. *)
Definition file_open_flags (e : hook_env) (f_mode : Z) : Z :=
  let flags := u16 DYNSEC_REPORT_AUDIT in
  let flags :=
    if negb (Z.land f_mode FMODE_STREAM =? 0)
    then u16 (Z.land flags (Z.lnot DYNSEC_REPORT_STALL)) else flags in
  let flags :=
    if negb (Z.land f_mode FMODE_NONOTIFY =? 0)
       && (Z.land f_mode FMODE_WRITE =? 0)
    then u16 (Z.land flags (Z.lnot DYNSEC_REPORT_STALL)) else flags in
  let flags := u16 DYNSEC_REPORT_STALL in
  self_clears_stall e flags.

(** [d_inode] is the inode behind [file->f_path.dentry], if any. *)
Definition dynsec_file_open (e : hook_env) (f_mode : Z)
           (d_inode : option inode) : hook_outcome :=
  let ret0 := orig_ret e in
  if negb (ret0 =? 0) then Done ret0 []
  else if hook_off e DYNSEC_HOOK_TYPE_OPEN then Done ret0 []
  else
    match d_inode with
    | Some ino =>
      if S_ISREG (i_mode ino) then
        if negb (stall_tbl_on e) then Done ret0 []
        else
          build_unchecked e ret0 DYNSEC_EVENT_TYPE_OPEN
                          DYNSEC_HOOK_TYPE_OPEN (file_open_flags e f_mode)
                          Enqueue
      else Done ret0 []
    | None => Done ret0 []
    end.

Definition dynsec_file_free_security (e : hook_env) (f_mode : Z)
           (d_inode : option inode) : list hook_action :=
  if hook_off e DYNSEC_HOOK_TYPE_CLOSE then []
  else if negb (Z.land f_mode FMODE_STREAM =? 0) then []
  else if negb (Z.land f_mode FMODE_NONOTIFY =? 0)
          && (Z.land f_mode FMODE_WRITE =? 0) then []
  else
    match d_inode with
    | Some ino =>
      if negb (S_ISREG (i_mode ino)) then []
      else if negb (stall_tbl_on e) then []
      else
        let flags :=
          self_only (in_connected_tgid e) (u16 DYNSEC_REPORT_AUDIT) in
        build_enqueue e DYNSEC_EVENT_TYPE_CLOSE DYNSEC_HOOK_TYPE_CLOSE
                      flags Enqueue
    | None => []
    end.

Definition dynsec_ptrace_traceme (e : hook_env) : hook_outcome :=
  let ret0 := orig_ret e in
  if negb (ret0 =? 0) then Done ret0 []
  else if hook_off e DYNSEC_HOOK_TYPE_PTRACE then Done ret0 []
  else if negb (stall_tbl_on e) then Done ret0 []
  else
    let flags := self_only (in_connected_tgid e) (u16 DYNSEC_REPORT_AUDIT) in
    Done ret0 (build_enqueue e DYNSEC_EVENT_TYPE_PTRACE
                             DYNSEC_HOOK_TYPE_PTRACE flags Enqueue).

Definition dynsec_ptrace_access_check (e : hook_env) (mode : Z)
           (child_connected : bool) : hook_outcome :=
  let ret0 := orig_ret e in
  if negb (ret0 =? 0) then Done ret0 []
  else if hook_off e DYNSEC_HOOK_TYPE_PTRACE then Done ret0 []
  else if Z.land mode PTRACE_MODE_ATTACH =? 0 then Done ret0 []
  else if negb (stall_tbl_on e) then Done ret0 []
  else if negb (in_connected_tgid e) && child_connected then Done ret0 []
  else
    let flags := self_only (in_connected_tgid e) (u16 DYNSEC_REPORT_AUDIT) in
    Done ret0 (build_enqueue e DYNSEC_EVENT_TYPE_PTRACE
                             DYNSEC_HOOK_TYPE_PTRACE flags Enqueue).

Definition dynsec_task_kill (e : hook_env) (sig : Z) : hook_outcome :=
  let ret0 := orig_ret e in
  if negb (ret0 =? 0) then Done ret0 []
  else if hook_off e DYNSEC_HOOK_TYPE_SIGNAL then Done ret0 []
  else if sig =? 0 then Done ret0 []
  else if negb (stall_tbl_on e) then Done ret0 []
  else
    let flags := self_only (in_connected_tgid e) (u16 DYNSEC_REPORT_AUDIT) in
    Done ret0 (build_enqueue e DYNSEC_EVENT_TYPE_SIGNAL
                             DYNSEC_HOOK_TYPE_SIGNAL flags Enqueue).

Definition dynsec_sched_process_fork_tp (e : hook_env)
           (parent_connected : bool) (child : option task_struct)
  : list hook_action :=
  match child with
  | None => []
  | Some child =>
    if negb (tgid child =? pid child) then []
    else if negb (stall_tbl_on e) then []
    else
      let flags := self_only parent_connected (u16 DYNSEC_REPORT_AUDIT) in
      build_enqueue e DYNSEC_EVENT_TYPE_CLONE DYNSEC_TP_HOOK_TYPE_CLONE
                    flags Enqueue
  end.

Definition __dynsec_task_exit (e : hook_env) (task : option task_struct)
           (exit_hook_type : Z) : list hook_action :=
  match task with
  | None => []
  | Some task =>
    if negb (tgid task =? pid task) then []
    else if negb (stall_tbl_on e) then []
    else
      let flags := u16 DYNSEC_REPORT_AUDIT in
      build_enqueue e DYNSEC_EVENT_TYPE_EXIT exit_hook_type flags
                    (if exit_hook_type =? DYNSEC_TP_HOOK_TYPE_EXIT
                     then EnqueueLowPri else Enqueue)
  end.

Definition dynsec_task_free (e : hook_env) (task : option task_struct) :=
  __dynsec_task_exit e task DYNSEC_HOOK_TYPE_TASK_FREE.
Definition dynsec_sched_process_exit_tp (e : hook_env)
           (task : option task_struct) :=
  __dynsec_task_exit e task DYNSEC_TP_HOOK_TYPE_EXIT.
Definition dynsec_sched_process_free_tp (e : hook_env)
           (task : option task_struct) :=
  __dynsec_task_exit e task DYNSEC_TP_HOOK_TYPE_TASK_FREE.

(** The four settings [mmap_report_misc], [mmap_stall_misc],
    [mmap_stall_on_exec] and [mmap_stall_on_ldso]. *)
Record mmap_settings : Type := {
  mmap_report_misc : Z;
  mmap_stall_misc : Z;
  mmap_stall_on_exec : Z;
  mmap_stall_on_ldso : Z
}.

(** [file] is the [f_mode] of the mapped file, [None] for an anonymous
    mapping; [in_execve] is [current->in_execve]. *)
Definition dynsec_mmap_file (e : hook_env) (s : mmap_settings)
           (file : option Z) (prot flags : Z) (in_execve : bool)
  : hook_outcome :=
  let ret0 := orig_ret e in
  if negb (ret0 =? 0) then Done ret0 []
  else if Z.land prot PROT_EXEC =? 0 then Done ret0 []
  else if negb (stall_tbl_on e) then Done ret0 []
  else
    let report_flags := u16 DYNSEC_REPORT_AUDIT in
    let exec_mapping :=
      in_execve ||
      match file with
      | Some f_mode => Z.land f_mode FMODE_EXEC =? FMODE_EXEC
      | None => false
      end in
    let stall := u16 (Z.lor report_flags DYNSEC_REPORT_STALL) in
    let go (report_flags : Z) (is_low_priority : bool) :=
      let report_flags := self_clears_stall e report_flags in
      build_unchecked e ret0 DYNSEC_EVENT_TYPE_MMAP DYNSEC_HOOK_TYPE_MMAP
                      report_flags
                      (if is_low_priority then EnqueueLowPri else Enqueue) in
    if exec_mapping then
      let exec_flags := Z.land flags (Z.lor MAP_DENYWRITE MAP_EXECUTABLE) in
      if negb (mmap_stall_on_exec s =? 0)
         && negb (Z.land exec_flags MAP_EXECUTABLE =? 0)
      then go stall false
      else if negb (mmap_stall_on_ldso s =? 0) then go stall false
      else go report_flags false
    else
      if negb (mmap_stall_misc s =? 0) then go stall true
      else if mmap_report_misc s =? 0 then Done ret0 []
      else go report_flags true.

(** [p] is the new task, [parent_connected] is
    [task_in_connected_tgid(p->real_parent)]; the function returns 0 on
    every path. *)
Definition dynsec_wake_up_new_task (e : hook_env) (parent_connected : bool)
           (p : option task_struct) : list hook_action :=
  match p with
  | None => []
  | Some p =>
    if negb (tgid p =? pid p) then []
    else if negb (stall_tbl_on e) then []
    else
      let flags := self_only parent_connected (u16 DYNSEC_REPORT_AUDIT) in
      build_enqueue e DYNSEC_EVENT_TYPE_CLONE DYNSEC_TP_HOOK_TYPE_CLONE
                    flags EnqueueLowPri
  end.

End Adapters.
End Part_000.

(** *** src/dynsec/src/hooks.c *)
Module Hooks_c.
Section Adapters.
Context {K : dynsec_h} {T : dynsec_hook_h}.

Definition self_or_stall (e : hook_env) (flags : Z) : Z :=
  if in_connected_tgid e then u16 (Z.lor flags DYNSEC_REPORT_SELF)
  else u16 (Z.lor flags DYNSEC_REPORT_STALL).

(** [if (fill_in_...(...)) { if (report_flags & STALL) { wait } else
     { size = enqueue_nonstall_event(..); if (!size) free_dynsec_event(..); } }
     else { free_dynsec_event(event); }] after a tested allocation. *)
Definition build (e : hook_env) (ret0 : Z)
           (et : dynsec_event_type) (ht report_flags : Z) : hook_outcome :=
  if negb (alloc_ok e) then Done ret0 [AllocEvent et ht report_flags]
  else if fill_ok e then
    if negb (Z.land report_flags DYNSEC_REPORT_STALL =? 0) then
      Done (if wait_rc e =? 0 then wait_response e else ret0)
           [AllocEvent et ht report_flags; FillIn; WaitEvent]
    else
      let size := u32 (enqueue_size e) in
      if size =? 0 then
        Done ret0 [AllocEvent et ht report_flags; FillIn; Enqueue; FreeEv]
      else
        Done ret0 [AllocEvent et ht report_flags; FillIn; Enqueue]
  else Done ret0 [AllocEvent et ht report_flags; FillIn; FreeEv].

Definition dynsec_bprm_set_creds (e : hook_env) (bprm_has_file : bool)
  : hook_outcome :=
  let ret0 := orig_ret e in
  if negb (ret0 =? 0) then Done ret0 []
  else if negb bprm_has_file then Done ret0 []
  else if negb (stall_tbl_on e) then Done ret0 []
  else
    let report_flags := self_or_stall e (u16 DYNSEC_REPORT_AUDIT) in
    build e ret0 DYNSEC_EVENT_TYPE_EXEC DYNSEC_HOOK_TYPE_EXEC report_flags.

Definition unlink_like (e : hook_env) (et : dynsec_event_type) (ht : Z)
           (d_inode : option inode) : hook_outcome :=
  let ret0 := orig_ret e in
  if negb (ret0 =? 0) then Done ret0 []
  else if negb (stall_tbl_on e) then Done ret0 []
  else
    let report_flags := self_or_stall e (u16 DYNSEC_REPORT_AUDIT) in
    match d_inode with
    | None => Done ret0 []
    | Some ino =>
      let mode := i_mode ino in
      if negb (S_ISLNK mode || S_ISREG mode || S_ISDIR mode) then Done ret0 []
      else build e ret0 et ht report_flags
    end.

Definition dynsec_inode_unlink (e : hook_env) (d_inode : option inode) :=
  unlink_like e DYNSEC_EVENT_TYPE_UNLINK DYNSEC_HOOK_TYPE_UNLINK d_inode.
Definition dynsec_inode_rmdir (e : hook_env) (d_inode : option inode) :=
  unlink_like e DYNSEC_EVENT_TYPE_RMDIR DYNSEC_HOOK_TYPE_RMDIR d_inode.
Definition dynsec_inode_rename (e : hook_env) (old_d_inode : option inode) :=
  unlink_like e DYNSEC_EVENT_TYPE_RENAME DYNSEC_HOOK_TYPE_RENAME old_d_inode.

End Adapters.
End Hooks_c.

(** ** Header values used for the concrete runs

    One assignment of the absent macros: distinct response codes with
    ALLOW = 0 as the spec has it, one bit per report flag and per request
    flag, and an ordered triple of timeouts. *)

Definition run_dynsec_h : dynsec_h := {|
  DYNSEC_RESPONSE_ALLOW := 0;
  DYNSEC_RESPONSE_EPERM := 1;
  DYNSEC_RESPONSE_CONTINUE := 2;
  DYNSEC_STALL_MODE_STALL := 1;
  DYNSEC_REPORT_STALL := 1;
  DYNSEC_REPORT_AUDIT := 2;
  DYNSEC_REPORT_SELF := 4;
  DYNSEC_REPORT_IGNORE := 8;
  DYNSEC_STALL_MODE_SET := 1;
  DYNSEC_STALL_DEFAULT_TIMEOUT := 2;
  DYNSEC_STALL_CONTINUE_TIMEOUT := 4;
  DYNSEC_STALL_DEFAULT_DENY := 8
|}.

Definition run_config_h : config_h := {|
  MIN_WAIT_TIMEOUT_MS := 1000;
  MAX_WAIT_TIMEOUT_MS := 5000;
  MAX_EXTENDED_TIMEOUT_MS := 60000;
  DEFAULT_DISABLED := 0;
  DEFAULT_ENABLED := 1
|}.

Definition run_dynsec_hook_h : dynsec_hook_h := {|
  DYNSEC_HOOK_TYPE_EXEC := 1;
  DYNSEC_HOOK_TYPE_UNLINK := 2;
  DYNSEC_HOOK_TYPE_RMDIR := 4;
  DYNSEC_HOOK_TYPE_RENAME := 8;
  DYNSEC_HOOK_TYPE_SETATTR := 16;
  DYNSEC_HOOK_TYPE_MKDIR := 32;
  DYNSEC_HOOK_TYPE_CREATE := 64;
  DYNSEC_HOOK_TYPE_LINK := 128;
  DYNSEC_HOOK_TYPE_SYMLINK := 256;
  DYNSEC_HOOK_TYPE_OPEN := 512;
  DYNSEC_HOOK_TYPE_CLOSE := 1024;
  DYNSEC_HOOK_TYPE_PTRACE := 2048;
  DYNSEC_HOOK_TYPE_SIGNAL := 4096;
  DYNSEC_HOOK_TYPE_MMAP := 8192;
  DYNSEC_HOOK_TYPE_TASK_FREE := 16384;
  DYNSEC_TP_HOOK_TYPE_CLONE := 32768;
  DYNSEC_TP_HOOK_TYPE_EXIT := 65536;
  DYNSEC_TP_HOOK_TYPE_TASK_FREE := 131072
|}.

(** ** Scenarios *)
Section Scenarios.
Context {K : dynsec_h}.

(** Modelled from the spec: [stall_tbl_insert] (stall_tbl.c) is not among
    the sources.  The spec has it produce a fresh entry with mode STALL and
    response = default, DENY if deny_on_timeout else ALLOW. *)
Definition fresh_entry (deny_on_timeout : bool) : stall_entry :=
  {| response := if deny_on_timeout then DYNSEC_RESPONSE_EPERM
                 else DYNSEC_RESPONSE_ALLOW;
     stall_timeout := 0;
     mode := DYNSEC_STALL_MODE_STALL |}.

(** Every wake-up carries CONTINUE, forever. *)
Definition always_continue : nat -> round := fun _ =>
  {| tbl_enabled := true; stall_mode_on := true; bypass_mode_on := false;
     wait_ret := 1;
     entry_now := {| response := DYNSEC_RESPONSE_CONTINUE;
                     stall_timeout := 0; mode := 0 |};
     continue_timeout := 2000 |}.

(** Stall mode is switched off before the first wait. *)
Definition stall_mode_off : nat -> round := fun _ =>
  {| tbl_enabled := true; stall_mode_on := false; bypass_mode_on := false;
     wait_ret := 0;
     entry_now := fresh_entry false;
     continue_timeout := 2000 |}.

(** Nobody answers: every wait times out. *)
Definition never_answered : nat -> round := fun _ =>
  {| tbl_enabled := true; stall_mode_on := true; bypass_mode_on := false;
     wait_ret := 0;
     entry_now := fresh_entry false;
     continue_timeout := 2000 |}.
End Scenarios.

(** Number of waits and of table removals in a trace, and the jiffies
    granted to the waits. *)
Fixpoint count_waits (tr : list action) : Z :=
  match tr with
  | [] => 0
  | Wait _ :: tr' => 1 + count_waits tr'
  | _ :: tr' => count_waits tr'
  end.

Fixpoint count_removes (tr : list action) : Z :=
  match tr with
  | [] => 0
  | RemoveEntry :: tr' => 1 + count_removes tr'
  | _ :: tr' => count_removes tr'
  end.

Fixpoint granted (tr : list action) : Z :=
  match tr with
  | [] => 0
  | Wait t :: tr' => t + granted tr'
  | _ :: tr' => granted tr'
  end.

(** ** Vocabulary of the statements *)

Definition gates_open (r : round) : bool :=
  tbl_enabled r && stall_mode_on r && negb (bypass_mode_on r).

(** A round in which the waiter is woken with a CONTINUE response: the
    gates are open, the [int wait_ret] is positive and the entry holds
    CONTINUE. *)
Definition continue_round {K : dynsec_h} (r : round) : Prop :=
  gates_open r = true /\ 0 < int_of_long (wait_ret r) /\
  response (entry_now r) = DYNSEC_RESPONSE_CONTINUE.

(** The timeout the next wait gets after a CONTINUE in round [r]. *)
Definition next_timeout (msecs_to_jiffies : Z -> Z) (r : round) : Z :=
  if negb (stall_timeout (entry_now r) =? 0)
  then msecs_to_jiffies (stall_timeout (entry_now r))
  else msecs_to_jiffies (continue_timeout r).

(** Passes through [retry:]: one per wait, plus the pass that found a gate
    closed. *)
Definition passes (r : stall_result) : Z :=
  count_waits (trace r) +
  match path r with ExitDisabled => 1 | _ => 0 end.

(** What each way out of [do_stall_interruptible] leaves behind. *)
Definition exit_shape {K : dynsec_h} (default_reponse resp : Z)
           (r : stall_result) : Prop :=
  match path r with
  | ExitDisabled =>
    ret r = - ECHILD /\ out_response r = resp /\
    count_removes (trace r) = 0
  | p =>
    out_response r =
      (if local_response r =? DYNSEC_RESPONSE_EPERM then - EPERM else resp) /\
    count_removes (trace r) = 1 /\
    (exists pre, trace r = pre ++ [RemoveEntry]) /\
    match p with
    | ExitInterrupted | ExitTimedOut =>
      local_response r = default_reponse /\ ret r = 0
    | ExitContinueCap =>
      local_response r = DYNSEC_RESPONSE_CONTINUE /\ ret r = - ECHILD
    | _ => ret r = 0
    end
  end.

(** The engine itself only waits, re-arms and removes. *)
Definition engine_action (a : action) : Prop :=
  match a with
  | Wait _ | Rearm | RemoveEntry => True
  | _ => False
  end.

(** [stall_tbl_insert] returned an entry: neither an error pointer nor
    NULL. *)
Definition inserted (entry_ptr : Z) : bool :=
  negb (IS_ERR entry_ptr) && negb (entry_ptr =? 0).

(** [attr->ia_valid & bit] *)
Definition requests (attr : iattr) (bit : Z) : bool :=
  negb (Z.land (ia_valid attr) bit =? 0).

(** The redundancy tests of [dynsec_inode_setattr] on an already masked
    [attr_mask]. *)
Definition drop_redundant (m : Z) (ino : inode) (attr : iattr) : Z :=
  if m =? 0 then 0
  else
    let m1 := if negb (Z.land m ATTR_MODE =? 0) && (ia_mode attr =? i_mode ino)
              then u32 (Z.land m (Z.lnot ATTR_MODE)) else m in
    let m2 := if negb (Z.land m1 ATTR_UID =? 0) && (ia_uid attr =? i_uid ino)
              then u32 (Z.land m1 (Z.lnot ATTR_UID)) else m1 in
    let m3 := if negb (Z.land m2 ATTR_GID =? 0) && (ia_gid attr =? i_gid ino)
              then u32 (Z.land m2 (Z.lnot ATTR_GID)) else m2 in
    if negb (Z.land m3 ATTR_SIZE =? 0) then
      if negb (ia_size attr =? 0)
      then u32 (Z.land m3 (Z.lnot ATTR_SIZE))
      else if ia_size attr =? i_size ino
           then u32 (Z.land m3 (Z.lnot ATTR_SIZE)) else m3
    else m3.

(** Trace predicates. *)
Definition is_enqueue (a : hook_action) : bool :=
  match a with Enqueue | EnqueueLowPri => true | _ => false end.
Definition is_free (a : hook_action) : bool :=
  match a with FreeEv => true | _ => false end.
Definition is_wait (a : hook_action) : bool :=
  match a with WaitEvent => true | _ => false end.

(** The event was handed to an enqueue function. *)
Definition enqueued (tr : list hook_action) : bool := existsb is_enqueue tr.

(** The adapter called [free_dynsec_event] after an enqueue. *)
Fixpoint freed_after_enqueue (tr : list hook_action) : bool :=
  match tr with
  | [] => false
  | a :: tr' => (is_enqueue a && existsb is_free tr') || freed_after_enqueue tr'
  end.

(** The adapter called [dynsec_wait_event_timeout]. *)
Definition waited (tr : list hook_action) : bool := existsb is_wait tr.

(** ** Inputs of the concrete runs *)

(** Scenario 1 of the spec: the agent answers ALLOW to the first wait
    (response codes of [run_dynsec_h]). *)
Definition answered_allow : nat -> round := fun _ =>
  {| tbl_enabled := true; stall_mode_on := true; bypass_mode_on := false;
     wait_ret := 995;
     entry_now := {| response := 0; stall_timeout := 0; mode := 0 |};
     continue_timeout := 2000 |}.

(** Scenario 4 of the spec: CONTINUE with 2000 ms, then DENY (response
    codes of [run_dynsec_h]). *)
Definition continue_then_deny : nat -> round := fun i =>
  match i with
  | O =>
    {| tbl_enabled := true; stall_mode_on := true; bypass_mode_on := false;
       wait_ret := 200;
       entry_now := {| response := 2; stall_timeout := 2000; mode := 0 |};
       continue_timeout := 5000 |}
  | _ =>
    {| tbl_enabled := true; stall_mode_on := true; bypass_mode_on := false;
       wait_ret := 300;
       entry_now := {| response := 1; stall_timeout := 0; mode := 0 |};
       continue_timeout := 5000 |}
  end.

(** An event with the STALL and AUDIT flags of [run_dynsec_h]. *)
Definition stalling_event : dynsec_event := {| report_flags := 3 |}.

(** [msecs_to_jiffies] at HZ = 1000; its argument and result are
    unsigned. *)
Definition one_jiffy_per_ms (ms : Z) : Z := Z.abs ms.

(** The configuration and the request of the failing run of C6. *)
Definition cfg_before : Cfg.t :=
  {| Cfg.stall_mode := 1; Cfg.stall_timeout := 1000;
     Cfg.stall_timeout_continue := 1000; Cfg.stall_timeout_deny := 0 |}.

(** DEFAULT_TIMEOUT alone, asking for 5000 ms. *)
Definition raise_default_timeout : Hdr.t :=
  {| Hdr.flags := 2; Hdr.stall_mode := 1; Hdr.stall_timeout := 5000;
     Hdr.stall_timeout_continue := 0; Hdr.stall_timeout_deny := 0 |}.

(** Readers of [global_config] for the runs: a field is on when it is not
    [DEFAULT_DISABLED] of [run_config_h]. *)
Definition mode_reader (c : Cfg.t) : bool := negb (Cfg.stall_mode c =? 0).
Definition deny_reader (c : Cfg.t) : bool :=
  negb (Cfg.stall_timeout_deny c =? 0).

(** A task outside the agent opens a regular file. *)
Definition open_by_other_task : hook_env :=
  {| orig_ret := 0; lsm_hooks_enabled := 512; stall_tbl_on := true;
     in_connected_tgid := false; alloc_ok := true; fill_ok := true;
     wait_rc := 0; wait_response := 0; enqueue_size := 64 |}.

(** A regular file, mode 0100644. *)
Definition regular_file : inode :=
  {| i_mode := 33188; i_uid := 1000; i_gid := 1000; i_size := 4096 |}.

(** chmod to the mode the file already has. *)
Definition chmod_same_mode : iattr :=
  {| ia_valid := 1; ia_mode := 33188; ia_uid := 0; ia_gid := 0; ia_size := 0 |}.

(** The same task with the SETATTR hook enabled. *)
Definition setattr_by_other_task : hook_env :=
  {| orig_ret := 0; lsm_hooks_enabled := 16; stall_tbl_on := true;
     in_connected_tgid := false; alloc_ok := true; fill_ok := true;
     wait_rc := 0; wait_response := 0; enqueue_size := 64 |}.

(** The agent's own exec while the queue is full. *)
Definition agent_exec_queue_full : hook_env :=
  {| orig_ret := 0; lsm_hooks_enabled := 1; stall_tbl_on := true;
     in_connected_tgid := true; alloc_ok := true; fill_ok := true;
     wait_rc := 0; wait_response := 0; enqueue_size := 0 |}.

(** ** Vocabulary of the further properties *)

(** The way out of a pass whose wait ended without a wake-up. *)
Definition quiet_path (r : round) : exit_path :=
  if int_of_long (wait_ret r) <? 0 then ExitInterrupted else ExitTimedOut.

(** The timeout of the wait in pass [k], when every earlier pass was woken
    with CONTINUE. *)
Definition timeout_of_pass (msecs_to_jiffies : Z -> Z) (wait_timeout : Z)
           (env : nat -> round) (k : nat) : Z :=
  match k with
  | O => msecs_to_jiffies wait_timeout
  | S k' => next_timeout msecs_to_jiffies (env k')
  end.


Definition is_free_event (a : action) : bool :=
  match a with FreeEvent _ => true | _ => false end.
Definition is_kfree (a : action) : bool :=
  match a with KfreeEntry => true | _ => false end.

(** The request switches stall mode: it selects MODE_SET and asks for the
    state the configuration is not in. *)
Definition mode_toggled {K : dynsec_h} {C : config_h}
           (stall_mode_enabled : Cfg.t -> bool) (hdr : Hdr.t) (cfg : Cfg.t)
  : bool :=
  selected (Z.land (Hdr.flags hdr) recognized_flags) DYNSEC_STALL_MODE_SET
  && (if stall_mode_enabled cfg
      then Hdr.stall_mode hdr =? DEFAULT_DISABLED
      else negb (Hdr.stall_mode hdr =? DEFAULT_DISABLED)).

(** The request with its flags word replaced. *)
Definition with_flags (f : Z) (hdr : Hdr.t) : Hdr.t :=
  {| Hdr.flags := f; Hdr.stall_mode := Hdr.stall_mode hdr;
     Hdr.stall_timeout := Hdr.stall_timeout hdr;
     Hdr.stall_timeout_continue := Hdr.stall_timeout_continue hdr;
     Hdr.stall_timeout_deny := Hdr.stall_timeout_deny hdr |}.

(** Trace predicates for the allocation and the hand-off of an event: the
    wait, an enqueue or [free_dynsec_event]. *)
Definition is_alloc (a : hook_action) : bool :=
  match a with AllocEvent _ _ _ => true | _ => false end.
Definition is_handoff (a : hook_action) : bool :=
  is_wait a || is_enqueue a || is_free a.
Definition allocs (tr : list hook_action) : nat := length (filter is_alloc tr).
Definition handoffs (tr : list hook_action) : nat :=
  length (filter is_handoff tr).

(** Some field the request selects would really change: mode, uid or gid
    differ from the inode's, or a non-empty file is truncated to 0. *)
Definition changes_inode (ino : inode) (attr : iattr) : bool :=
  requests attr ATTR_MODE && negb (ia_mode attr =? i_mode ino)
  || requests attr ATTR_UID && negb (ia_uid attr =? i_uid ino)
  || requests attr ATTR_GID && negb (ia_gid attr =? i_gid ino)
  || requests attr ATTR_SIZE && (ia_size attr =? 0)
     && negb (i_size ino =? 0).

(** The mapping belongs to an exec: the task is in execve or the file was
    opened for execution. *)
Definition exec_mapping (file : option Z) (in_execve : bool) : bool :=
  in_execve ||
  match file with
  | Some f_mode => Z.land f_mode FMODE_EXEC =? FMODE_EXEC
  | None => false
  end.

(** The stall policy of [dynsec_mmap_file] for a task outside the agent. *)
Definition mmap_stalls (s : Part_000.mmap_settings) (file : option Z)
           (flags : Z) (in_execve : bool) : bool :=
  if exec_mapping file in_execve then
    negb (Part_000.mmap_stall_on_exec s =? 0)
    && negb (Z.land flags MAP_EXECUTABLE =? 0)
    || negb (Part_000.mmap_stall_on_ldso s =? 0)
  else negb (Part_000.mmap_stall_misc s =? 0).

(** A mapping that is neither stalled nor reported. *)
Definition mmap_unreported (s : Part_000.mmap_settings) (file : option Z)
           (in_execve : bool) : bool :=
  negb (exec_mapping file in_execve)
  && (Part_000.mmap_stall_misc s =? 0) && (Part_000.mmap_report_misc s =? 0).

(** The value a stalling adapter returns after the wait. *)
Definition verdict_of (e : hook_env) : Z :=
  if wait_rc e =? 0 then wait_response e else 0.

(** A task outside the agent, every call succeeding. *)
Definition stalls_for (e : hook_env) : Prop :=
  orig_ret e = 0 /\ stall_tbl_on e = true /\ in_connected_tgid e = false /\
  alloc_ok e = true /\ fill_ok e = true.

(** The inode is a symlink, a regular file or a directory. *)
Definition reportable (ino : inode) : bool :=
  S_ISLNK (i_mode ino) || S_ISREG (i_mode ino) || S_ISDIR (i_mode ino).

(** What a stalling adapter hands back and when it may wait: the value
    returned is the verdict left in [response] when
    [dynsec_wait_event_timeout] was called and returned 0, and the value of
    the previously installed hook in every other case; the wait is only
    called on an event that was allocated and filled; the read through a
    NULL event happens only after a failed allocation, before any wait. *)
Definition fails_open (e : hook_env) (o : hook_outcome) : Prop :=
  match o with
  | Done ret0 tr =>
    ret0 = (if waited tr && (wait_rc e =? 0) then wait_response e
            else orig_ret e) /\
    (waited tr = true -> alloc_ok e = true /\ fill_ok e = true)
  | NullDeref tr => alloc_ok e = false /\ waited tr = false
  end.

(** Every allocated event is handed off at most once, and exactly once
    when the allocation succeeded. *)
Definition handed_off_once (e : hook_env) (tr : list hook_action) : Prop :=
  (allocs tr <= 1)%nat /\ (handoffs tr <= allocs tr)%nat /\
  (alloc_ok e = true -> handoffs tr = allocs tr).

(** ** Inputs of the further runs *)

(** CONTINUE (2 in [run_dynsec_h]) with 2000 ms, then silence. *)
Definition continue_then_silence : nat -> round := fun i =>
  match i with
  | O =>
    {| tbl_enabled := true; stall_mode_on := true; bypass_mode_on := false;
       wait_ret := 200;
       entry_now := {| response := 2; stall_timeout := 2000; mode := 0 |};
       continue_timeout := 5000 |}
  | _ =>
    {| tbl_enabled := true; stall_mode_on := true; bypass_mode_on := false;
       wait_ret := 0;
       entry_now := {| response := 2; stall_timeout := 2000; mode := 1 |};
       continue_timeout := 5000 |}
  end.

(** CONTINUE, then bypass mode is switched on. *)
Definition continue_then_bypass : nat -> round := fun i =>
  match i with
  | O =>
    {| tbl_enabled := true; stall_mode_on := true; bypass_mode_on := false;
       wait_ret := 200;
       entry_now := {| response := 2; stall_timeout := 0; mode := 0 |};
       continue_timeout := 5000 |}
  | _ =>
    {| tbl_enabled := true; stall_mode_on := true; bypass_mode_on := true;
       wait_ret := 0;
       entry_now := {| response := 2; stall_timeout := 0; mode := 1 |};
       continue_timeout := 5000 |}
  end.


(** A request for both timeouts: 200 ms and 100000 ms. *)
Definition both_timeouts : Hdr.t :=
  {| Hdr.flags := 6; Hdr.stall_mode := 1; Hdr.stall_timeout := 200;
     Hdr.stall_timeout_continue := 100000; Hdr.stall_timeout_deny := 0 |}.

(** A request that switches stalling off. *)
Definition disable_stalling : Hdr.t :=
  {| Hdr.flags := 1; Hdr.stall_mode := 0; Hdr.stall_timeout := 0;
     Hdr.stall_timeout_continue := 0; Hdr.stall_timeout_deny := 0 |}.

(** A task outside the agent, every hook enabled, every call succeeding. *)
Definition other_task : hook_env :=
  {| orig_ret := 0; lsm_hooks_enabled := 262143; stall_tbl_on := true;
     in_connected_tgid := false; alloc_ok := true; fill_ok := true;
     wait_rc := 0; wait_response := - EPERM; enqueue_size := 64 |}.

(** The same task with the stall table disabled. *)
Definition other_task_table_off : hook_env :=
  {| orig_ret := 0; lsm_hooks_enabled := 262143; stall_tbl_on := false;
     in_connected_tgid := false; alloc_ok := true; fill_ok := true;
     wait_rc := 0; wait_response := - EPERM; enqueue_size := 64 |}.

(** chmod from 0644 to 0755. *)
Definition chmod_new_mode : iattr :=
  {| ia_valid := 1; ia_mode := 33261; ia_uid := 0; ia_gid := 0; ia_size := 0 |}.

(** The initial values of the four mmap settings in the source. *)
Definition initial_mmap_settings : Part_000.mmap_settings :=
  {| Part_000.mmap_report_misc := 1; Part_000.mmap_stall_misc := 0;
     Part_000.mmap_stall_on_exec := 1; Part_000.mmap_stall_on_ldso := 1 |}.

(** [msecs_to_jiffies] of the kernel at HZ = 1000 (linux/jiffies.h, not
    among the sources): the argument is an [unsigned int], and one that is
    negative as an [int] gives MAX_JIFFY_OFFSET. *)
Definition MAX_JIFFY_OFFSET : Z := 2 ^ 62 - 2.
Definition saturating_jiffies (ms : Z) : Z :=
  if int_of_long ms <? 0 then MAX_JIFFY_OFFSET else u32 ms.

(** CONTINUE with a timeout of 2^31 ms, then a wake-up with DENY while
    2^62 - 7 of the MAX_JIFFY_OFFSET jiffies are left. *)
Definition deny_with_jiffies_left : nat -> round := fun i =>
  match i with
  | O =>
    {| tbl_enabled := true; stall_mode_on := true; bypass_mode_on := false;
       wait_ret := 200;
       entry_now := {| response := 2; stall_timeout := 2147483648;
                       mode := 0 |};
       continue_timeout := 5000 |}
  | _ =>
    {| tbl_enabled := true; stall_mode_on := true; bypass_mode_on := false;
       wait_ret := 4611686018427387897;
       entry_now := {| response := 1; stall_timeout := 0; mode := 0 |};
       continue_timeout := 5000 |}
  end.

(** * Properties of the stall engine *)

Lemma u32_small z : 0 <= z < 2 ^ 32 -> u32 z = z.
Proof. intros Hz. unfold u32. apply Z.mod_small. exact Hz. Qed.

Lemma int_of_long_fits x : - 2 ^ 31 <= x < 2 ^ 31 -> int_of_long x = x.
Proof.
  intros H. unfold int_of_long. rewrite Z.mod_small by lia. lia.
Qed.

(** A [long] whose bit 31 is set is negative as an [int]. *)
Lemma int_of_long_high x :
  2 ^ 31 <= x mod 2 ^ 32 -> int_of_long x = x mod 2 ^ 32 - 2 ^ 32.
Proof.
  intros H. unfold int_of_long.
  pose proof (Z.mod_pos_bound x (2 ^ 32) ltac:(lia)) as Hb.
  rewrite <- Z.add_mod_idemp_l by lia.
  replace (x mod 2 ^ 32 + 2 ^ 31)
    with ((x mod 2 ^ 32 + 2 ^ 31 - 2 ^ 32) + 1 * 2 ^ 32) by lia.
  rewrite Z_mod_plus_full, Z.mod_small by lia. lia.
Qed.

Section RetryCases.
Context {K : dynsec_h}.
Variable msecs_to_jiffies : Z -> Z.
Variable env : nat -> round.
Variables default_reponse resp : Z.

(** One case per way out of a pass, and one for the [goto retry]. *)
Variable P : nat -> Z -> Z -> Z -> stall_result -> Prop.

Hypothesis at_gate : forall i l t cc,
  gates_open (env i) = false -> P i l t cc (gate_closed l resp).
Hypothesis at_interrupt : forall i l t cc,
  gates_open (env i) = true -> int_of_long (wait_ret (env i)) < 0 ->
  P i l t cc (leave 0 default_reponse resp ExitInterrupted [Wait t]).
Hypothesis at_timeout : forall i l t cc,
  gates_open (env i) = true -> int_of_long (wait_ret (env i)) = 0 ->
  P i l t cc (leave 0 default_reponse resp ExitTimedOut [Wait t]).
Hypothesis at_response : forall i l t cc,
  gates_open (env i) = true -> 0 < int_of_long (wait_ret (env i)) ->
  response (entry_now (env i)) <> DYNSEC_RESPONSE_CONTINUE ->
  P i l t cc (leave 0 (response (entry_now (env i))) resp ExitResponse
                    [Wait t; Rearm]).
Hypothesis at_cap : forall i l t cc,
  continue_round (env i) ->
  MAX_CONTINUE_RESPONSES <= u32 (cc + 1) ->
  P i l t cc (leave (- ECHILD) (response (entry_now (env i))) resp
                    ExitContinueCap [Wait t; Rearm]).
Hypothesis at_goto : forall i l t cc r',
  continue_round (env i) ->
  u32 (cc + 1) < MAX_CONTINUE_RESPONSES ->
  P (S i) (response (entry_now (env i)))
    (next_timeout msecs_to_jiffies (env i)) (u32 (cc + 1)) r' ->
  P i l t cc (prepend [Wait t; Rearm] r').

Lemma retry_cases : forall fuel i l t cc r,
  retry msecs_to_jiffies fuel env i default_reponse l t cc resp = Some r ->
  P i l t cc r.
Proof.
  induction fuel as [|fuel IH]; intros i l t cc r Hr; [discriminate|].
  simpl in Hr.
  destruct (tbl_enabled (env i)) eqn:Ht; simpl in Hr;
    [|inversion Hr; apply at_gate; unfold gates_open; rewrite Ht; reflexivity].
  destruct (stall_mode_on (env i)) eqn:Hs; simpl in Hr;
    [|inversion Hr; apply at_gate; unfold gates_open; rewrite Ht, Hs;
      reflexivity].
  destruct (bypass_mode_on (env i)) eqn:Hb;
    [inversion Hr; apply at_gate; unfold gates_open; rewrite Ht, Hs, Hb;
     reflexivity|].
  assert (Hg : gates_open (env i) = true)
    by (unfold gates_open; rewrite Ht, Hs, Hb; reflexivity).
  destruct (Z.ltb_spec (int_of_long (wait_ret (env i))) 0) as [Hneg|Hnn];
    [inversion Hr; apply at_interrupt; assumption|].
  destruct (Z.eqb_spec (int_of_long (wait_ret (env i))) 0) as [Hz|Hnz];
    [inversion Hr; apply at_timeout; assumption|].
  assert (Hpos : 0 < int_of_long (wait_ret (env i))) by lia.
  destruct (Z.eqb_spec (response (entry_now (env i)))
                       DYNSEC_RESPONSE_CONTINUE) as [Hc|Hnc];
    [|inversion Hr; apply at_response; assumption].
  assert (Hround : continue_round (env i)) by (repeat split; assumption).
  destruct (Z.ltb_spec (u32 (cc + 1)) MAX_CONTINUE_RESPONSES) as [Hlt|Hge];
    [|inversion Hr; apply at_cap; assumption].
  destruct (retry msecs_to_jiffies fuel env (S i) default_reponse
                  (response (entry_now (env i))) _ (u32 (cc + 1)) resp)
    as [r'|] eqn:Hrec; [|discriminate].
  simpl in Hr. inversion Hr; subst r.
  apply at_goto; [assumption|assumption|].
  apply IH. exact Hrec.
Qed.

(** With a counter below the cap, 256 - cc units of fuel are never used
    up: the loop is bounded by [continue_count], not by [fuel]. *)
Lemma retry_total : forall fuel i l t cc,
  0 <= cc < MAX_CONTINUE_RESPONSES ->
  (Z.to_nat (MAX_CONTINUE_RESPONSES - cc) <= fuel)%nat ->
  exists r,
    retry msecs_to_jiffies fuel env i default_reponse l t cc resp = Some r.
Proof.
  unfold MAX_CONTINUE_RESPONSES.
  induction fuel as [|fuel IH]; intros i l t cc Hcc Hfuel; [lia|].
  simpl.
  destruct (negb (tbl_enabled (env i))); [eexists; reflexivity|].
  destruct (negb (stall_mode_on (env i))); [eexists; reflexivity|].
  destruct (bypass_mode_on (env i)); [eexists; reflexivity|].
  destruct (int_of_long (wait_ret (env i)) <? 0); [eexists; reflexivity|].
  destruct (int_of_long (wait_ret (env i)) =? 0); [eexists; reflexivity|].
  destruct (response (entry_now (env i)) =? DYNSEC_RESPONSE_CONTINUE);
    [|eexists; reflexivity].
  rewrite (u32_small (cc + 1)) by lia.
  destruct (Z.ltb_spec (cc + 1) MAX_CONTINUE_RESPONSES) as [Hlt|Hge];
    [|eexists; reflexivity].
  unfold MAX_CONTINUE_RESPONSES in Hlt.
  destruct (IH (S i) (response (entry_now (env i)))
               (if negb (stall_timeout (entry_now (env i)) =? 0)
                then msecs_to_jiffies (stall_timeout (entry_now (env i)))
                else msecs_to_jiffies (continue_timeout (env i)))
               (cc + 1)) as [r' Hr']; [lia|lia|].
  rewrite Hr'. eexists; reflexivity.
Qed.

End RetryCases.

Section EngineFacts.
Context {K : dynsec_h}.
Variable msecs_to_jiffies : Z -> Z.

Lemma retry_exit_shape env d resp fuel i l t cc r :
  retry msecs_to_jiffies fuel env i d l t cc resp = Some r ->
  exit_shape d resp r.
Proof.
  revert fuel i l t cc r.
  apply (retry_cases msecs_to_jiffies env d resp
           (fun _ _ _ _ r => exit_shape d resp r));
    unfold exit_shape; cbn [path leave gate_closed ret out_response
                                 local_response trace prepend].
  - intros; repeat split; reflexivity.
  - intros; repeat split; try reflexivity. exists [Wait t]; reflexivity.
  - intros; repeat split; try reflexivity. exists [Wait t]; reflexivity.
  - intros; repeat split; try reflexivity. exists [Wait t; Rearm]; reflexivity.
  - intros i l t cc [_ [_ Hc]] _; repeat split; try reflexivity; try exact Hc.
    exists [Wait t; Rearm]; reflexivity.
  - intros i l t cc r' _ _ IH.
    destruct (path r'); cbn [app count_removes];
      try (destruct IH as [H1 [H2 [[pre Hpre] H4]]];
           repeat split; try assumption; try (apply H4);
           exists (Wait t :: Rearm :: pre); rewrite Hpre; reflexivity).
    exact IH.
Qed.

(** Counting passes and granted jiffies. *)
Lemma retry_bounded env d resp :
  forall fuel i l t cc r,
  retry msecs_to_jiffies fuel env i d l t cc resp = Some r ->
  0 <= cc < MAX_CONTINUE_RESPONSES ->
  1 <= passes r <= MAX_CONTINUE_RESPONSES - cc /\
  (forall j, (i <= j)%nat -> Z.of_nat j < Z.of_nat i + passes r - 1 ->
             continue_round (env j)) /\
  (forall T,
     (forall k, 0 <= next_timeout msecs_to_jiffies (env k) <= T) ->
     0 <= t ->
     granted (trace r) <= t + (MAX_CONTINUE_RESPONSES - 1 - cc) * T).
Proof.
  apply (retry_cases msecs_to_jiffies env d resp
           (fun i l t cc r =>
              0 <= cc < MAX_CONTINUE_RESPONSES ->
              1 <= passes r <= MAX_CONTINUE_RESPONSES - cc /\
              (forall j, (i <= j)%nat ->
                         Z.of_nat j < Z.of_nat i + passes r - 1 ->
                         continue_round (env j)) /\
              (forall T,
                 (forall k, 0 <= next_timeout msecs_to_jiffies (env k) <= T) ->
                 0 <= t ->
                 granted (trace r)
                 <= t + (MAX_CONTINUE_RESPONSES - 1 - cc) * T)));
    unfold passes, MAX_CONTINUE_RESPONSES;
    cbn [path leave gate_closed trace prepend app count_waits granted].
  1-5: intros i l t cc; intros;
    (split; [lia|split; [intros; lia|]]);
    intros T HT Ht; pose proof (HT i); nia.
  intros i l t cc r' Hround Hlt IH Hcc.
  rewrite (u32_small (cc + 1)) in * by lia.
  destruct IH as [Hp [Hj Hg]]; [lia|].
  split; [lia|split].
  - intros j Hij Hjp.
    destruct (Nat.eq_dec j i) as [->|Hne]; [exact Hround|].
    apply Hj; lia.
  - intros T HT Ht. pose proof (HT i) as Hi.
    specialize (Hg T HT). nia.
Qed.

End EngineFacts.

Section EngineRuns.
Context {K : dynsec_h}.
Variable msecs_to_jiffies : Z -> Z.
Variable env : nat -> round.
Variables default_reponse resp : Z.

Lemma retry_fuel_mono : forall fuel fuel' i l t cc r,
  retry msecs_to_jiffies fuel env i default_reponse l t cc resp = Some r ->
  (fuel <= fuel')%nat ->
  retry msecs_to_jiffies fuel' env i default_reponse l t cc resp = Some r.
Proof.
  induction fuel as [|fuel IH]; intros fuel' i l t cc r Hr Hle;
    [discriminate|].
  destruct fuel' as [|fuel']; [lia|].
  simpl in Hr |- *.
  destruct (negb (tbl_enabled (env i))); [exact Hr|].
  destruct (negb (stall_mode_on (env i))); [exact Hr|].
  destruct (bypass_mode_on (env i)); [exact Hr|].
  destruct (int_of_long (wait_ret (env i)) <? 0); [exact Hr|].
  destruct (int_of_long (wait_ret (env i)) =? 0); [exact Hr|].
  destruct (response (entry_now (env i)) =? DYNSEC_RESPONSE_CONTINUE);
    [|exact Hr].
  destruct (u32 (cc + 1) <? MAX_CONTINUE_RESPONSES); [|exact Hr].
  match type of Hr with
  | option_map _ ?c = _ => destruct c as [r'|] eqn:Hrec; [|discriminate]
  end.
  rewrite (IH fuel' _ _ _ _ _ Hrec) by lia. exact Hr.
Qed.

(** One pass that finds a gate closed. *)
Lemma retry_gate_step fuel i l t cc :
  gates_open (env i) = false ->
  retry msecs_to_jiffies (S fuel) env i default_reponse l t cc resp =
  Some (gate_closed l resp).
Proof.
  unfold gates_open. intros Hg. simpl.
  destruct (tbl_enabled (env i)); [|reflexivity].
  destruct (stall_mode_on (env i)); [|reflexivity].
  destruct (bypass_mode_on (env i)); [reflexivity|discriminate].
Qed.

(** One pass that is woken with CONTINUE. *)
Lemma retry_continue_step fuel i l t cc :
  continue_round (env i) ->
  retry msecs_to_jiffies (S fuel) env i default_reponse l t cc resp =
  if u32 (cc + 1) <? MAX_CONTINUE_RESPONSES then
    option_map (prepend [Wait t; Rearm])
      (retry msecs_to_jiffies fuel env (S i) default_reponse
             (response (entry_now (env i)))
             (next_timeout msecs_to_jiffies (env i)) (u32 (cc + 1)) resp)
  else Some (leave (- ECHILD) (response (entry_now (env i))) resp
                   ExitContinueCap [Wait t; Rearm]).
Proof.
  intros [Hg [Hw Hc]]. unfold gates_open in Hg.
  apply andb_prop in Hg as [Hg Hb]. apply andb_prop in Hg as [Ht Hs].
  apply negb_true_iff in Hb.
  simpl. rewrite Ht, Hs, Hb. simpl.
  destruct (Z.ltb_spec (int_of_long (wait_ret (env i))) 0); [lia|].
  destruct (Z.eqb_spec (int_of_long (wait_ret (env i))) 0); [lia|].
  rewrite Hc, Z.eqb_refl. reflexivity.
Qed.

(** CONTINUE in every pass: the loop stops at the cap. *)
Lemma retry_all_continue : forall k fuel i l t cc,
  0 <= cc -> cc + Z.of_nat k = MAX_CONTINUE_RESPONSES - 1 ->
  (k < fuel)%nat ->
  (forall j, (i <= j <= i + k)%nat -> continue_round (env j)) ->
  exists r,
    retry msecs_to_jiffies fuel env i default_reponse l t cc resp = Some r /\
    ret r = - ECHILD /\ path r = ExitContinueCap /\
    local_response r = DYNSEC_RESPONSE_CONTINUE /\
    count_waits (trace r) = Z.of_nat k + 1 /\
    count_removes (trace r) = 1 /\
    out_response r =
      (if DYNSEC_RESPONSE_CONTINUE =? DYNSEC_RESPONSE_EPERM
       then - EPERM else resp).
Proof.
  unfold MAX_CONTINUE_RESPONSES.
  induction k as [|k IH]; intros fuel i l t cc Hcc Hk Hfuel Hall;
    (destruct fuel as [|fuel]; [lia|]);
    rewrite retry_continue_step by (apply Hall; lia);
    rewrite (u32_small (cc + 1)) by lia;
    unfold MAX_CONTINUE_RESPONSES.
  - destruct (Z.ltb_spec (cc + 1) 256); [lia|].
    destruct (Hall i) as [_ [_ Hc]]; [lia|].
    eexists; split; [reflexivity|].
    cbn [leave ret path local_response trace out_response app
               count_waits count_removes].
    rewrite Hc. repeat split; reflexivity.
  - destruct (Z.ltb_spec (cc + 1) 256); [|lia].
    destruct (IH fuel (S i) (response (entry_now (env i)))
                 (next_timeout msecs_to_jiffies (env i)) (cc + 1))
      as [r [Hr [H1 [H2 [H3 [H4 [H5 H6]]]]]]]; [lia|lia|lia| |].
    { intros j Hj. apply Hall. lia. }
    rewrite Hr. eexists; split; [reflexivity|].
    cbn [option_map prepend ret path local_response trace out_response app
                    count_waits count_removes].
    repeat split; try assumption; lia.
Qed.

End EngineRuns.

Lemma retry_engine_actions
      {K : dynsec_h} (msecs_to_jiffies : Z -> Z) env d resp fuel i l t cc r :
  retry msecs_to_jiffies fuel env i d l t cc resp = Some r ->
  Forall engine_action (trace r).
Proof.
  revert fuel i l t cc r.
  apply (retry_cases msecs_to_jiffies env d resp
           (fun _ _ _ _ r => Forall engine_action (trace r)));
    cbn [leave gate_closed prepend trace app]; intros;
    repeat (apply Forall_cons; [exact I|]); try apply Forall_nil.
  assumption.
Qed.

Section WaitFacts.
Context {K : dynsec_h}.
Variable msecs_to_jiffies : Z -> Z.

(** Once an entry is inserted the wrapper runs the engine on
    [*response = 0], returns 0 and frees the entry last. *)
Lemma wait_after_insert ev x ignore_mode entry_ptr entry wait_timeout env r :
  ignorable ev ignore_mode = false ->
  inserted entry_ptr = true ->
  do_stall_interruptible msecs_to_jiffies entry wait_timeout env 0 = Some r ->
  dynsec_wait_event_timeout msecs_to_jiffies (Some ev) (Some x) true
                            ignore_mode entry_ptr entry wait_timeout env =
  Some {| w_ret := 0; w_response := Some (out_response r);
          w_trace := Insert :: trace r ++ [KfreeEntry] |}.
Proof.
  intros Hi Hp Hr. unfold inserted in Hp.
  apply andb_prop in Hp as [He Hn].
  apply negb_true_iff in He.
  unfold dynsec_wait_event_timeout. simpl negb.
  cbv iota. rewrite Hi, He, Hn, Hr. reflexivity.
Qed.

Lemma do_stall_total entry wait_timeout env resp :
  exists r,
    do_stall_interruptible msecs_to_jiffies entry wait_timeout env resp =
    Some r.
Proof.
  unfold do_stall_interruptible.
  apply retry_total; unfold MAX_CONTINUE_RESPONSES; lia.
Qed.

End WaitFacts.

(** C1, amended.  When user space answers CONTINUE to every wake-up of one
    stalled event, and each of the first 256 waits returns with a value that
    is positive in [int wait_ret] (true of every wake-up with fewer than
    2^31 jiffies left), the engine waits 256 times and then stops at the
    cap: [do_stall_interruptible] returns -ECHILD, removes the entry once
    and leaves [*response] at 0, so [dynsec_wait_event_timeout] hands the
    hook the verdict ALLOW (0), not DENY. *)
Theorem continuation_cap_ends_in_allow
        {K : dynsec_h} (msecs_to_jiffies : Z -> Z)
        (ev : dynsec_event) (x : Z) (ignore_mode : bool) (entry_ptr : Z)
        (entry : stall_entry) (wait_timeout : Z) (env : nat -> round) :
  DYNSEC_RESPONSE_CONTINUE <> DYNSEC_RESPONSE_EPERM ->
  ignorable ev ignore_mode = false ->
  inserted entry_ptr = true ->
  (forall j, (j < 256)%nat -> continue_round (env j)) ->
  exists r,
    do_stall_interruptible msecs_to_jiffies entry wait_timeout env 0 = Some r /\
    path r = ExitContinueCap /\
    ret r = - ECHILD /\
    count_waits (trace r) = 256 /\
    count_removes (trace r) = 1 /\
    out_response r = 0 /\
    dynsec_wait_event_timeout msecs_to_jiffies (Some ev) (Some x) true
                              ignore_mode entry_ptr entry wait_timeout env =
    Some {| w_ret := 0; w_response := Some 0;
            w_trace := Insert :: trace r ++ [KfreeEntry] |}.
Proof.
  intros Hne Hi Hp Hall.
  destruct (retry_all_continue msecs_to_jiffies env (response entry) 0
              255%nat (Z.to_nat MAX_CONTINUE_RESPONSES) 0%nat (response entry)
              (msecs_to_jiffies wait_timeout) 0)
    as [r [Hr [H1 [H2 [H3 [H4 [H5 H6]]]]]]].
  - lia.
  - reflexivity.
  - unfold MAX_CONTINUE_RESPONSES. lia.
  - intros j Hj. apply Hall. lia.
  - apply Z.eqb_neq in Hne. rewrite Hne in H6.
    exists r. repeat split; try assumption.
    rewrite (wait_after_insert msecs_to_jiffies ev x ignore_mode entry_ptr
               entry wait_timeout env r Hi Hp Hr).
    rewrite H6. reflexivity.
Qed.

(** C2, the failing path.  When a gate is found closed at the first pass
    (stall table disabled, stall mode off or bypass on), the engine returns
    without calling [stall_tbl_remove_entry] and the wrapper frees the entry
    that is still in the table. *)
Theorem closed_gate_frees_without_remove
        {K : dynsec_h} (msecs_to_jiffies : Z -> Z)
        (ev : dynsec_event) (x : Z) (ignore_mode : bool) (entry_ptr : Z)
        (entry : stall_entry) (wait_timeout : Z) (env : nat -> round) :
  ignorable ev ignore_mode = false ->
  inserted entry_ptr = true ->
  gates_open (env 0%nat) = false ->
  dynsec_wait_event_timeout msecs_to_jiffies (Some ev) (Some x) true
                            ignore_mode entry_ptr entry wait_timeout env =
  Some {| w_ret := 0; w_response := Some 0;
          w_trace := [Insert; KfreeEntry] |}.
Proof.
  intros Hi Hp Hg.
  rewrite (wait_after_insert msecs_to_jiffies ev x ignore_mode entry_ptr entry
             wait_timeout env (gate_closed (response entry) 0) Hi Hp);
    [reflexivity|].
  unfold do_stall_interruptible.
  change (Z.to_nat MAX_CONTINUE_RESPONSES) with (S 255).
  apply retry_gate_step. exact Hg.
Qed.

(** The removal is missing on every gate exit, also after continuations,
    and present exactly once, as the last call, on every other exit. *)
Lemma remove_count_by_path
      {K : dynsec_h} (msecs_to_jiffies : Z -> Z)
      (entry : stall_entry) (wait_timeout : Z) (env : nat -> round)
      (resp : Z) (r : stall_result) :
  do_stall_interruptible msecs_to_jiffies entry wait_timeout env resp = Some r ->
  (path r = ExitDisabled -> count_removes (trace r) = 0) /\
  (path r <> ExitDisabled ->
   count_removes (trace r) = 1 /\ exists pre, trace r = pre ++ [RemoveEntry]).
Proof.
  intros Hr. apply retry_exit_shape in Hr. unfold exit_shape in Hr.
  destruct (path r); split; intros Hp; try discriminate; try congruence;
    try (destruct Hr as [_ [H1 [H2 _]]]; split; assumption).
  destruct Hr as [_ [_ H]]; exact H.
Qed.

Section LastPass.
Context {K : dynsec_h}.
Variable msecs_to_jiffies : Z -> Z.
Variable env : nat -> round.
Variables default_reponse resp : Z.

(** The pass [n] in which a run ends: every pass before it was woken with
    CONTINUE, and what [*response] holds afterwards is decided by what that
    pass observed. *)
Lemma retry_last_pass : forall fuel i l t cc r,
  retry msecs_to_jiffies fuel env i default_reponse l t cc resp = Some r ->
  0 <= cc < MAX_CONTINUE_RESPONSES ->
  exists n,
    (i <= n)%nat /\
    cc + Z.of_nat (n - i) < MAX_CONTINUE_RESPONSES /\
    (forall j, (i <= j < n)%nat -> continue_round (env j)) /\
    (gates_open (env n) = false -> out_response r = resp) /\
    (gates_open (env n) = true ->
     (cc + Z.of_nat (n - i) = MAX_CONTINUE_RESPONSES - 1 \/
      ~ continue_round (env n)) /\
     (0 < int_of_long (wait_ret (env n)) ->
      out_response r =
        if response (entry_now (env n)) =? DYNSEC_RESPONSE_EPERM
        then - EPERM else resp) /\
     (int_of_long (wait_ret (env n)) <= 0 ->
      out_response r =
        if default_reponse =? DYNSEC_RESPONSE_EPERM then - EPERM else resp)).
Proof.
  apply (retry_cases msecs_to_jiffies env default_reponse resp
           (fun i l t cc r =>
              0 <= cc < MAX_CONTINUE_RESPONSES ->
              exists n,
                (i <= n)%nat /\
                cc + Z.of_nat (n - i) < MAX_CONTINUE_RESPONSES /\
                (forall j, (i <= j < n)%nat -> continue_round (env j)) /\
                (gates_open (env n) = false -> out_response r = resp) /\
                (gates_open (env n) = true ->
                 (cc + Z.of_nat (n - i) = MAX_CONTINUE_RESPONSES - 1 \/
                  ~ continue_round (env n)) /\
                 (0 < int_of_long (wait_ret (env n)) ->
                  out_response r =
                    if response (entry_now (env n)) =? DYNSEC_RESPONSE_EPERM
                    then - EPERM else resp) /\
                 (int_of_long (wait_ret (env n)) <= 0 ->
                  out_response r =
                    if default_reponse =? DYNSEC_RESPONSE_EPERM
                    then - EPERM else resp))));
    unfold MAX_CONTINUE_RESPONSES;
    cbn [out_response leave gate_closed prepend].
  - intros i l t cc Hg Hcc. exists i.
    rewrite Nat.sub_diag, Z.add_0_r.
    split; [lia|]. split; [lia|]. split; [intros; lia|].
    split; [reflexivity|]. intros Ho. congruence.
  - intros i l t cc Hg Hw Hcc. exists i.
    rewrite Nat.sub_diag, Z.add_0_r.
    split; [lia|]. split; [lia|]. split; [intros; lia|].
    split; [congruence|]. intros _.
    split; [right; intros [_ [Hp _]]; lia|].
    split; [intros; lia|reflexivity].
  - intros i l t cc Hg Hw Hcc. exists i.
    rewrite Nat.sub_diag, Z.add_0_r.
    split; [lia|]. split; [lia|]. split; [intros; lia|].
    split; [congruence|]. intros _.
    split; [right; intros [_ [Hp _]]; lia|].
    split; [intros; lia|reflexivity].
  - intros i l t cc Hg Hw Hc Hcc. exists i.
    rewrite Nat.sub_diag, Z.add_0_r.
    split; [lia|]. split; [lia|]. split; [intros; lia|].
    split; [congruence|]. intros _.
    split; [right; intros [_ [_ Hp]]; congruence|].
    split; [reflexivity|intros; lia].
  - intros i l t cc [Hg [Hw Hc]] Hcap Hcc. exists i.
    rewrite Nat.sub_diag, Z.add_0_r.
    rewrite (u32_small (cc + 1)) in Hcap by lia.
    split; [lia|]. split; [lia|]. split; [intros; lia|].
    split; [congruence|]. intros _.
    split; [left; lia|].
    split; [reflexivity|intros; lia].
  - intros i l t cc r' Hround Hlt IH Hcc.
    rewrite (u32_small (cc + 1)) in * by lia.
    destruct IH as [n [Hn [Hb [Hall [Hclosed Hopen]]]]]; [lia|].
    exists n.
    replace (Z.of_nat (n - i)) with (1 + Z.of_nat (n - S i)) by lia.
    split; [lia|]. split; [lia|]. split.
    + intros j Hj. destruct (Nat.eq_dec j i) as [->|Hne]; [exact Hround|].
      apply Hall. lia.
    + split; [exact Hclosed|]. intros Ho.
      destruct (Hopen Ho) as [H1 H2].
      split; [|exact H2].
      destruct H1 as [H1|H1]; [left; lia|right; exact H1].
Qed.

End LastPass.

(** C3.  After an insertion the wrapper returns 0 and the hook hands
    [*response] to the OS.  The run ends in some pass [n] < 256 that follows
    [n] continuations.  When that pass was woken, the verdict is -EPERM if the
    response found in the entry is DENY and 0 for every other response
    (ALLOW, CONTINUE at the cap, anything else); when its wait timed out or
    was interrupted, the verdict is that of the entry's default response, so
    for a fresh entry -EPERM exactly when deny-on-timeout is on; when it
    found a gate closed the verdict is 0. *)
Theorem verdict_mapping
        {K : dynsec_h} (msecs_to_jiffies : Z -> Z)
        (ev : dynsec_event) (x : Z) (ignore_mode : bool) (entry_ptr : Z)
        (entry : stall_entry) (wait_timeout : Z) (env : nat -> round) :
  ignorable ev ignore_mode = false ->
  inserted entry_ptr = true ->
  exists w n,
    dynsec_wait_event_timeout msecs_to_jiffies (Some ev) (Some x) true
                              ignore_mode entry_ptr entry wait_timeout env =
    Some w /\
    w_ret w = 0 /\
    (n < 256)%nat /\
    (forall j, (j < n)%nat -> continue_round (env j)) /\
    (gates_open (env n) = false -> w_response w = Some 0) /\
    (gates_open (env n) = true ->
     (n = 255%nat \/ ~ continue_round (env n)) /\
     (0 < int_of_long (wait_ret (env n)) ->
      w_response w =
        Some (if response (entry_now (env n)) =? DYNSEC_RESPONSE_EPERM
              then - EPERM else 0)) /\
     (int_of_long (wait_ret (env n)) <= 0 ->
      w_response w =
        Some (if response entry =? DYNSEC_RESPONSE_EPERM
              then - EPERM else 0) /\
      forall deny_on_timeout,
        DYNSEC_RESPONSE_ALLOW <> DYNSEC_RESPONSE_EPERM ->
        entry = fresh_entry deny_on_timeout ->
        w_response w = Some (if deny_on_timeout then - EPERM else 0))).
Proof.
  intros Hi Hins.
  destruct (do_stall_total msecs_to_jiffies entry wait_timeout env 0)
    as [r Hr].
  destruct (retry_last_pass msecs_to_jiffies env (response entry) 0
              _ _ _ _ _ _ Hr)
    as [n [_ [Hb [Hall [Hclosed Hopen]]]]];
    [unfold MAX_CONTINUE_RESPONSES; lia|].
  unfold MAX_CONTINUE_RESPONSES in *.
  rewrite Nat.sub_0_r, Z.add_0_l in *.
  eexists. exists n.
  split; [apply wait_after_insert; eassumption|].
  cbn [w_ret w_response].
  split; [reflexivity|]. split; [lia|].
  split; [intros j Hj; apply Hall; lia|].
  split; [intros Hg; rewrite (Hclosed Hg); reflexivity|].
  intros Hg. destruct (Hopen Hg) as [H1 [H2 H3]].
  split; [destruct H1 as [H1|H1]; [left; lia|right; exact H1]|].
  split; [intros Hw; rewrite (H2 Hw); reflexivity|].
  intros Hw. rewrite (H3 Hw). split; [reflexivity|].
  intros deny Hne He. rewrite He. cbn [fresh_entry response].
  destruct deny; [rewrite Z.eqb_refl; reflexivity|].
  apply Z.eqb_neq in Hne. rewrite Hne. reflexivity.
Qed.

(** C4.  The engine returns for every environment, and more fuel changes
    nothing; it makes at most 256 passes through [retry:], each one before
    the last was woken with a CONTINUE response, and waits at most 256
    times; with non-negative jiffies, the jiffies it is granted stay below
    the initial timeout plus 256 times any bound [T] on the continuation
    timeouts. *)
Theorem do_stall_interruptible_terminates
        {K : dynsec_h} (msecs_to_jiffies : Z -> Z)
        (entry : stall_entry) (wait_timeout : Z) (env : nat -> round)
        (resp : Z) :
  exists r,
    do_stall_interruptible msecs_to_jiffies entry wait_timeout env resp =
    Some r /\
    (forall fuel, (Z.to_nat MAX_CONTINUE_RESPONSES <= fuel)%nat ->
       retry msecs_to_jiffies fuel env 0%nat (response entry) (response entry)
             (msecs_to_jiffies wait_timeout) 0 resp = Some r) /\
    1 <= passes r <= MAX_CONTINUE_RESPONSES /\
    (forall j, Z.of_nat j < passes r - 1 -> continue_round (env j)) /\
    count_waits (trace r) <= MAX_CONTINUE_RESPONSES /\
    (forall T,
       (forall ms, 0 <= msecs_to_jiffies ms) ->
       (forall i, next_timeout msecs_to_jiffies (env i) <= T) ->
       granted (trace r) <=
         msecs_to_jiffies wait_timeout + MAX_CONTINUE_RESPONSES * T).
Proof.
  destruct (do_stall_total msecs_to_jiffies entry wait_timeout env resp)
    as [r Hr].
  exists r. split; [exact Hr|].
  split.
  { intros fuel Hfuel.
    apply (retry_fuel_mono msecs_to_jiffies env (response entry) resp
             (Z.to_nat MAX_CONTINUE_RESPONSES)); assumption. }
  destruct (retry_bounded msecs_to_jiffies env (response entry) resp
              _ _ _ _ _ _ Hr) as [Hp [Hj Hg]];
    [unfold MAX_CONTINUE_RESPONSES; lia|].
  unfold MAX_CONTINUE_RESPONSES in *.
  split; [lia|]. split; [intros j Hjp; apply Hj; lia|].
  split; [unfold passes in Hp; destruct (path r); lia|].
  intros T Hnn HT.
  assert (Hnext : forall i, 0 <= next_timeout msecs_to_jiffies (env i) <= T).
  { intros i. split; [|apply HT]. unfold next_timeout.
    destruct (negb (stall_timeout (entry_now (env i)) =? 0)); apply Hnn. }
  pose proof (Hnext 0%nat) as H0.
  specialize (Hg T Hnext (Hnn wait_timeout)). nia.
Qed.

(** C10.  A NULL [response] gives -EINVAL and no call at all; a NULL event,
    a disabled table, an ignorable event or a failed insertion free the
    event and give a nonzero value; after an insertion the wrapper returns
    0 and [*response] is 0 or -EPERM, however the wait ended. *)
Theorem dynsec_wait_event_timeout_results
        {K : dynsec_h} (msecs_to_jiffies : Z -> Z)
        (event : option dynsec_event) (x : Z) (tbl_on ignore_mode : bool)
        (entry_ptr : Z) (entry : stall_entry) (wait_timeout : Z)
        (env : nat -> round) :
  0 <= entry_ptr < 2 ^ 64 ->
  dynsec_wait_event_timeout msecs_to_jiffies event None tbl_on ignore_mode
                            entry_ptr entry wait_timeout env =
  Some {| w_ret := - EINVAL; w_response := None; w_trace := [] |} /\
  exists w,
    dynsec_wait_event_timeout msecs_to_jiffies event (Some x) tbl_on
                              ignore_mode entry_ptr entry wait_timeout env =
    Some w /\
    ((event = None \/ tbl_on = false \/
      (exists ev, event = Some ev /\ ignorable ev ignore_mode = true) \/
      IS_ERR entry_ptr = true) ->
     w_ret w <> 0 /\ - MAX_ERRNO <= w_ret w < 0 /\ w_response w = Some 0 /\
     In (FreeEvent (match event with None => true | Some _ => false end))
        (w_trace w) /\
     count_waits (w_trace w) = 0) /\
    ((exists ev, event = Some ev /\ ignorable ev ignore_mode = false) ->
     tbl_on = true -> inserted entry_ptr = true ->
     w_ret w = 0 /\
     (w_response w = Some 0 \/ w_response w = Some (- EPERM)) /\
     ~ In (FreeEvent false) (w_trace w) /\
     exists pre, w_trace w = Insert :: pre ++ [KfreeEntry]).
Proof.
  intros Hptr. split; [reflexivity|].
  unfold dynsec_wait_event_timeout.
  destruct event as [ev|].
  2:{ eexists; split; [reflexivity|]. cbn. split.
      - intros _. unfold EINVAL, MAX_ERRNO. repeat split; try lia.
        left; reflexivity.
      - intros [ev [He _]]; discriminate. }
  destruct tbl_on.
  2:{ eexists; split; [reflexivity|]. cbn. split.
      - intros _. unfold EINVAL, MAX_ERRNO. repeat split; try lia.
        left; reflexivity.
      - intros _ Hf; discriminate. }
  cbn [negb]. cbv iota.
  destruct (ignorable ev ignore_mode) eqn:Hi.
  { eexists; split; [reflexivity|]. cbn. split.
    - intros _. unfold ECHILD, MAX_ERRNO. repeat split; try lia.
      left; reflexivity.
    - intros [ev' [He Hi']]. inversion He; subst. congruence. }
  destruct (IS_ERR entry_ptr) eqn:He.
  { eexists; split; [reflexivity|]. cbn. split.
    - intros _. unfold PTR_ERR. unfold IS_ERR in He.
      apply Z.leb_le in He. unfold MAX_ERRNO in *.
      repeat split; try lia. right; left; reflexivity.
    - intros _ _ Hin. unfold inserted in Hin. rewrite He in Hin.
      discriminate. }
  destruct (entry_ptr =? 0) eqn:Hz.
  { eexists; split; [reflexivity|]. cbn. split.
    - intros [H|[H|[[ev' [H1 H2]]|H]]]; try discriminate.
      inversion H1; subst; congruence.
    - intros _ _ Hin. unfold inserted in Hin. rewrite He, Hz in Hin.
      discriminate. }
  cbn [negb].
  destruct (do_stall_total msecs_to_jiffies entry wait_timeout env 0)
    as [r Hr].
  rewrite Hr. eexists; split; [reflexivity|].
  cbn [option_map w_ret w_response w_trace]. split.
  - intros [H|[H|[[ev' [H1 H2]]|H]]]; try discriminate.
    inversion H1; subst; congruence.
  - intros _ _ _. split; [reflexivity|]. split; [|split].
    + pose proof (retry_exit_shape _ _ _ _ _ _ _ _ _ _ Hr) as Hs.
      unfold exit_shape in Hs.
      destruct (path r).
      * destruct Hs as [_ [Hs _]]. left; congruence.
      * destruct Hs as [Hs _]. rewrite Hs.
        destruct (local_response r =? DYNSEC_RESPONSE_EPERM); auto.
      * destruct Hs as [Hs _]. rewrite Hs.
        destruct (local_response r =? DYNSEC_RESPONSE_EPERM); auto.
      * destruct Hs as [Hs _]. rewrite Hs.
        destruct (local_response r =? DYNSEC_RESPONSE_EPERM); auto.
      * destruct Hs as [Hs _]. rewrite Hs.
        destruct (local_response r =? DYNSEC_RESPONSE_EPERM); auto.
    + pose proof (retry_engine_actions _ _ _ _ _ _ _ _ _ _ Hr) as Hf.
      rewrite Forall_forall in Hf.
      intros [Hin|Hin]; [discriminate|].
      apply in_app_or in Hin as [Hin|[Hin|[]]]; [|discriminate].
      apply Hf in Hin. exact Hin.
    + exists (trace r). reflexivity.
Qed.

(** * Properties of the configuration request *)

Section IoctlFacts.
Context {K : dynsec_h} {C : config_h}.
Variable stall_mode_enabled : Cfg.t -> bool.
Variable deny_on_timeout_enabled : Cfg.t -> bool.

Lemma apply_mode_set_timeouts hdr cfg tr :
  Cfg.stall_timeout
    (fst (apply_mode_set stall_mode_enabled hdr (cfg, tr))) =
  Cfg.stall_timeout cfg /\
  Cfg.stall_timeout_continue
    (fst (apply_mode_set stall_mode_enabled hdr (cfg, tr))) =
  Cfg.stall_timeout_continue cfg.
Proof.
  unfold apply_mode_set.
  destruct (stall_mode_enabled cfg);
    destruct (Hdr.stall_mode hdr =? DEFAULT_DISABLED);
    split; reflexivity.
Qed.

Lemma apply_default_deny_timeouts hdr cfg :
  Cfg.stall_timeout (apply_default_deny deny_on_timeout_enabled hdr cfg) =
  Cfg.stall_timeout cfg /\
  Cfg.stall_timeout_continue
    (apply_default_deny deny_on_timeout_enabled hdr cfg) =
  Cfg.stall_timeout_continue cfg.
Proof.
  unfold apply_default_deny.
  destruct (deny_on_timeout_enabled cfg);
    destruct (Hdr.stall_timeout_deny hdr =? DEFAULT_DISABLED);
    split; reflexivity.
Qed.

(** The two timeouts after a privileged request, by the flags it
    selects. *)
Lemma handle_stall_ioc_timeouts hdr cfg :
  let flags := Z.land (Hdr.flags hdr) recognized_flags in
  let cfg' := ioc_config (handle_stall_ioc stall_mode_enabled
                            deny_on_timeout_enabled (Some hdr) true cfg) in
  flags <> 0 ->
  Cfg.stall_timeout cfg' =
    (if selected flags DYNSEC_STALL_DEFAULT_TIMEOUT
     then Z.max MIN_WAIT_TIMEOUT_MS
                (Z.min (Hdr.stall_timeout hdr) MAX_WAIT_TIMEOUT_MS)
     else Cfg.stall_timeout cfg) /\
  Cfg.stall_timeout_continue cfg' =
    (if selected flags DYNSEC_STALL_CONTINUE_TIMEOUT
     then Z.min MAX_EXTENDED_TIMEOUT_MS
                (Z.max (Hdr.stall_timeout_continue hdr)
                       (Cfg.stall_timeout cfg'))
     else Cfg.stall_timeout_continue cfg).
Proof.
  intros flags cfg' Hf. subst cfg'. unfold handle_stall_ioc.
  fold flags. apply Z.eqb_neq in Hf. rewrite Hf. cbn [negb].
  set (st := if selected flags DYNSEC_STALL_MODE_SET
             then apply_mode_set stall_mode_enabled hdr (cfg, [LockConfig])
             else (cfg, [LockConfig])).
  assert (Hst : Cfg.stall_timeout (fst st) = Cfg.stall_timeout cfg /\
                Cfg.stall_timeout_continue (fst st) =
                Cfg.stall_timeout_continue cfg).
  { subst st. destruct (selected flags DYNSEC_STALL_MODE_SET);
      [apply apply_mode_set_timeouts|split; reflexivity]. }
  destruct st as [cfg1 tr]. cbn [fst] in Hst. destruct Hst as [H1 H2].
  cbn [ioc_config].
  set (cfg2 := if selected flags DYNSEC_STALL_DEFAULT_TIMEOUT
               then apply_default_timeout hdr cfg1 else cfg1).
  set (cfg3 := if selected flags DYNSEC_STALL_CONTINUE_TIMEOUT
               then apply_continue_timeout hdr cfg2 else cfg2).
  assert (H4 : Cfg.stall_timeout
                 (if selected flags DYNSEC_STALL_DEFAULT_DENY
                  then apply_default_deny deny_on_timeout_enabled hdr cfg3
                  else cfg3) = Cfg.stall_timeout cfg3 /\
               Cfg.stall_timeout_continue
                 (if selected flags DYNSEC_STALL_DEFAULT_DENY
                  then apply_default_deny deny_on_timeout_enabled hdr cfg3
                  else cfg3) = Cfg.stall_timeout_continue cfg3).
  { destruct (selected flags DYNSEC_STALL_DEFAULT_DENY);
      [apply apply_default_deny_timeouts|split; reflexivity]. }
  destruct H4 as [H4 H5]. rewrite H4, H5.
  assert (H3 : Cfg.stall_timeout cfg3 = Cfg.stall_timeout cfg2)
    by (subst cfg3; destruct (selected flags DYNSEC_STALL_CONTINUE_TIMEOUT);
        reflexivity).
  rewrite H3. split.
  - subst cfg2. destruct (selected flags DYNSEC_STALL_DEFAULT_TIMEOUT);
      [|exact H1].
    unfold apply_default_timeout. cbn [Cfg.set_stall_timeout Cfg.stall_timeout].
    destruct (Z.ltb_spec (Hdr.stall_timeout hdr) MAX_WAIT_TIMEOUT_MS);
      match goal with |- context [?a <? ?b] => destruct (Z.ltb_spec a b) end;
      lia.
  - subst cfg3. destruct (selected flags DYNSEC_STALL_CONTINUE_TIMEOUT).
    + unfold apply_continue_timeout.
      cbn [Cfg.set_stall_timeout_continue Cfg.stall_timeout_continue].
      destruct (Z.gtb_spec (Hdr.stall_timeout_continue hdr)
                           (Cfg.stall_timeout cfg2));
        match goal with |- context [?a >? ?b] => destruct (Z.gtb_spec a b) end;
        lia.
    + subst cfg2. destruct (selected flags DYNSEC_STALL_DEFAULT_TIMEOUT);
        [exact H2|exact H2].
Qed.

End IoctlFacts.

(** C6, the failing request.  From a configuration that satisfies the
    invariant, a privileged request that selects the default timeout but not
    the continuation timeout, and asks for a timeout above the stored
    continuation timeout, is accepted and leaves
    [stall_timeout > stall_timeout_continue]. *)
Theorem default_timeout_alone_breaks_order
        {K : dynsec_h} {C : config_h}
        (stall_mode_enabled deny_on_timeout_enabled : Cfg.t -> bool)
        (hdr : Hdr.t) (cfg : Cfg.t) :
  let flags := Z.land (Hdr.flags hdr) recognized_flags in
  let res := handle_stall_ioc stall_mode_enabled deny_on_timeout_enabled
                              (Some hdr) true cfg in
  timeouts_in_range cfg ->
  selected flags DYNSEC_STALL_DEFAULT_TIMEOUT = true ->
  selected flags DYNSEC_STALL_CONTINUE_TIMEOUT = false ->
  Cfg.stall_timeout_continue cfg < Hdr.stall_timeout hdr
    <= MAX_WAIT_TIMEOUT_MS ->
  ioc_ret res = 0 /\
  Cfg.stall_timeout (ioc_config res) = Hdr.stall_timeout hdr /\
  Cfg.stall_timeout_continue (ioc_config res) =
    Cfg.stall_timeout_continue cfg /\
  ~ timeouts_in_range (ioc_config res).
Proof.
  intros flags res [Hr1 Hr2] Hd Hc Hreq.
  assert (Hf : flags <> 0).
  { intros H0. unfold selected in Hd. rewrite H0 in Hd. discriminate. }
  destruct (handle_stall_ioc_timeouts stall_mode_enabled
              deny_on_timeout_enabled hdr cfg Hf) as [H1 H2].
  fold flags in H1, H2. fold res in H1, H2. rewrite Hd in H1. rewrite Hc in H2.
  assert (Hret : ioc_ret res = 0).
  { subst res. unfold handle_stall_ioc. fold flags.
    apply Z.eqb_neq in Hf. rewrite Hf. cbn [negb].
    destruct (if selected flags DYNSEC_STALL_MODE_SET
              then apply_mode_set stall_mode_enabled hdr (cfg, [LockConfig])
              else (cfg, [LockConfig])). reflexivity. }
  assert (H1' : Cfg.stall_timeout (ioc_config res) = Hdr.stall_timeout hdr)
    by lia.
  repeat split; try assumption.
  intros [_ [Hbad _]]. lia.
Qed.

(** C9.  A request that selects a recognized setting but comes from a caller
    without CAP_SYS_ADMIN returns -EPERM, takes no lock, clears no cache and
    leaves every configuration field as it was. *)
Theorem unprivileged_request_rejected
        {K : dynsec_h} {C : config_h}
        (stall_mode_enabled deny_on_timeout_enabled : Cfg.t -> bool)
        (hdr : Hdr.t) (cfg : Cfg.t) :
  Z.land (Hdr.flags hdr) recognized_flags <> 0 ->
  handle_stall_ioc stall_mode_enabled deny_on_timeout_enabled
                   (Some hdr) false cfg =
  {| ioc_ret := - EPERM; ioc_config := cfg; ioc_trace := [] |}.
Proof.
  intros Hf. unfold handle_stall_ioc.
  apply Z.eqb_neq in Hf. rewrite Hf. reflexivity.
Qed.

(** * Properties of the hook adapters *)

Lemma u16_land x : u16 x = Z.land x (Z.ones 16).
Proof. unfold u16. rewrite Z.land_ones by lia. reflexivity. Qed.

Lemma u32_land x : u32 x = Z.land x (Z.ones 32).
Proof. unfold u32. rewrite Z.land_ones by lia. reflexivity. Qed.

Lemma disjoint_bits a b n :
  Z.land a b = 0 -> Z.testbit a n && Z.testbit b n = false.
Proof. intros H. rewrite <- Z.land_spec, H. apply Z.bits_0. Qed.

(** Bit-by-bit proof of an equation between masks, using the disjointness
    facts in the context. *)
Ltac mask_bits :=
  rewrite ?u16_land;
  apply Z.bits_inj';
  let n := fresh "n" in
  let Hn := fresh "Hn" in
  intros n Hn;
  repeat match goal with
         | H : Z.land ?a ?b = 0 |- _ =>
           apply (fun H => disjoint_bits a b n H) in H; revert H
         end;
  repeat first [ rewrite Z.land_spec | rewrite Z.lor_spec
               | rewrite Z.lnot_spec by assumption | rewrite Z.bits_0 ];
  repeat match goal with
         | |- context [Z.testbit ?a n] => destruct (Z.testbit a n)
         end;
  simpl; intros; congruence.

Section FlagFacts.
Context {K : dynsec_h}.

Lemma stall_store_has_no_audit :
  Z.land DYNSEC_REPORT_STALL DYNSEC_REPORT_AUDIT = 0 ->
  Z.land (u16 DYNSEC_REPORT_STALL) DYNSEC_REPORT_AUDIT = 0.
Proof. intros H. mask_bits. Qed.

Lemma self_after_stall_has_no_audit :
  Z.land DYNSEC_REPORT_SELF DYNSEC_REPORT_AUDIT = 0 ->
  Z.land (u16 (Z.land (u16 (Z.lor (u16 DYNSEC_REPORT_STALL)
                                  DYNSEC_REPORT_SELF))
                      (Z.lnot DYNSEC_REPORT_STALL)))
         DYNSEC_REPORT_AUDIT = 0.
Proof. intros H. mask_bits. Qed.

(** [report_flags |= SELF] on AUDIT never has the STALL bit. *)
Lemma audit_self_has_no_stall :
  Z.land DYNSEC_REPORT_AUDIT DYNSEC_REPORT_STALL = 0 ->
  Z.land DYNSEC_REPORT_SELF DYNSEC_REPORT_STALL = 0 ->
  Z.land (u16 (Z.lor (u16 DYNSEC_REPORT_AUDIT) DYNSEC_REPORT_SELF))
         DYNSEC_REPORT_STALL = 0.
Proof. intros H1 H2. mask_bits. Qed.

(** [report_flags &= ~(STALL)] clears the STALL bit of anything. *)
Lemma cleared_stall x :
  Z.land (u16 (Z.land x (Z.lnot DYNSEC_REPORT_STALL)))
         DYNSEC_REPORT_STALL = 0.
Proof. mask_bits. Qed.

Lemma audit_has_no_self :
  Z.land DYNSEC_REPORT_AUDIT DYNSEC_REPORT_SELF = 0 ->
  Z.land (u16 DYNSEC_REPORT_AUDIT) DYNSEC_REPORT_SELF = 0.
Proof. intros H. mask_bits. Qed.

End FlagFacts.

Lemma masked_range v : 0 <= Z.land (u32 v) 15 < 16.
Proof.
  change 15 with (Z.ones 4). rewrite Z.land_ones by lia.
  apply Z.mod_pos_bound. lia.
Qed.

Lemma masked_bit v b :
  Z.land 15 b = b -> Z.land (Z.ones 32) b = b ->
  Z.land (Z.land (u32 v) 15) b = Z.land v b.
Proof.
  intros H1 H2. rewrite u32_land, <- !Z.land_assoc, H1, H2. reflexivity.
Qed.

Lemma setattr_mask_drop_redundant ino attr :
  Part_000.setattr_mask ino attr =
  drop_redundant (Z.land (u32 (ia_valid attr)) 15) ino attr.
Proof. reflexivity. Qed.

Lemma setattr_mask_cases ino attr :
  exists m, 0 <= m < 16 /\
    negb (Z.land m ATTR_MODE =? 0) = requests attr ATTR_MODE /\
    negb (Z.land m ATTR_UID =? 0) = requests attr ATTR_UID /\
    negb (Z.land m ATTR_GID =? 0) = requests attr ATTR_GID /\
    negb (Z.land m ATTR_SIZE =? 0) = requests attr ATTR_SIZE /\
    Part_000.setattr_mask ino attr = drop_redundant m ino attr.
Proof.
  exists (Z.land (u32 (ia_valid attr)) 15).
  split; [apply masked_range|].
  unfold requests.
  split; [rewrite masked_bit by reflexivity; reflexivity|].
  split; [rewrite masked_bit by reflexivity; reflexivity|].
  split; [rewrite masked_bit by reflexivity; reflexivity|].
  split; [rewrite masked_bit by reflexivity; reflexivity|].
  apply setattr_mask_drop_redundant.
Qed.

Lemma sixteen m :
  0 <= m < 16 ->
  m = 0 \/ m = 1 \/ m = 2 \/ m = 3 \/ m = 4 \/ m = 5 \/ m = 6 \/ m = 7 \/
  m = 8 \/ m = 9 \/ m = 10 \/ m = 11 \/ m = 12 \/ m = 13 \/ m = 14 \/ m = 15.
Proof. lia. Qed.

(** With every selected field already at the requested value nothing is
    left of the mask. *)
Lemma drop_redundant_all m ino attr :
  0 <= m < 16 ->
  (negb (Z.land m ATTR_MODE =? 0) = true -> ia_mode attr = i_mode ino) ->
  (negb (Z.land m ATTR_UID =? 0) = true -> ia_uid attr = i_uid ino) ->
  (negb (Z.land m ATTR_GID =? 0) = true -> ia_gid attr = i_gid ino) ->
  (negb (Z.land m ATTR_SIZE =? 0) = true -> ia_size attr = i_size ino) ->
  drop_redundant m ino attr = 0.
Proof.
  intros Hm Hmode Huid Hgid Hsize. unfold drop_redundant.
  apply sixteen in Hm.
  repeat (destruct Hm as [->|Hm]); try subst m;
    cbn in Hmode, Huid, Hgid, Hsize;
    try rewrite (Hmode eq_refl); try rewrite (Huid eq_refl);
    try rewrite (Hgid eq_refl); try rewrite (Hsize eq_refl);
    rewrite ?Z.eqb_refl; cbn;
    try reflexivity;
    destruct (i_size ino =? 0); reflexivity.
Qed.

(** The size bit survives exactly for a truncation of a non-empty file. *)
Lemma drop_redundant_size m ino attr :
  0 <= m < 16 ->
  negb (Z.land (drop_redundant m ino attr) ATTR_SIZE =? 0) =
  negb (Z.land m ATTR_SIZE =? 0) && (ia_size attr =? 0)
  && negb (i_size ino =? 0).
Proof.
  intros Hm. unfold drop_redundant. apply sixteen in Hm.
  repeat (destruct Hm as [->|Hm]); try subst m; cbn;
    destruct (ia_mode attr =? i_mode ino);
    destruct (ia_uid attr =? i_uid ino);
    destruct (ia_gid attr =? i_gid ino);
    destruct (Z.eqb_spec (ia_size attr) 0) as [Hz|Hz]; cbn;
    try reflexivity;
    rewrite ?Hz;
    destruct (Z.eqb_spec 0 (i_size ino)) as [<-|Hn]; cbn;
    try reflexivity;
    destruct (Z.eqb_spec (i_size ino) 0); cbn; try reflexivity; lia.
Qed.

(** C7.  When every field the request selects among mode, uid, gid and
    size already has the requested value, [dynsec_inode_setattr] allocates
    nothing and returns what it started with, which is 0 (ALLOW) unless a
    previously installed hook refused; and the size bit survives the
    redundancy tests exactly when the request selects the size, asks for
    size 0 and the inode is not empty. *)
Theorem redundant_setattr_dropped {K : dynsec_h} {T : dynsec_hook_h} :
  (forall (e : hook_env) (ino : inode) (attr : iattr),
     (requests attr ATTR_MODE = true -> ia_mode attr = i_mode ino) ->
     (requests attr ATTR_UID = true -> ia_uid attr = i_uid ino) ->
     (requests attr ATTR_GID = true -> ia_gid attr = i_gid ino) ->
     (requests attr ATTR_SIZE = true -> ia_size attr = i_size ino) ->
     Part_000.dynsec_inode_setattr e (Some (Some ino)) (Some attr) =
     Done (orig_ret e) [] /\
     (orig_ret e = 0 ->
      Part_000.dynsec_inode_setattr e (Some (Some ino)) (Some attr) =
      Done 0 [])) /\
  (forall (ino : inode) (attr : iattr),
     negb (Z.land (Part_000.setattr_mask ino attr) ATTR_SIZE =? 0) =
     requests attr ATTR_SIZE && (ia_size attr =? 0)
     && negb (i_size ino =? 0)).
Proof.
  split.
  - intros e ino attr Hmode Huid Hgid Hsize.
    assert (Hmask : Part_000.setattr_mask ino attr = 0).
    { destruct (setattr_mask_cases ino attr)
        as [m [Hm [H1 [H2 [H3 [H4 ->]]]]]].
      rewrite <- H1 in Hmode. rewrite <- H2 in Huid.
      rewrite <- H3 in Hgid. rewrite <- H4 in Hsize.
      apply drop_redundant_all; assumption. }
    assert (Hgen : Part_000.dynsec_inode_setattr e (Some (Some ino))
                                                 (Some attr) =
                   Done (orig_ret e) []).
    { unfold Part_000.dynsec_inode_setattr. rewrite Hmask. cbn.
      destruct (negb (orig_ret e =? 0)); [reflexivity|].
      destruct (Part_000.hook_off e DYNSEC_HOOK_TYPE_SETATTR); reflexivity. }
    split; [exact Hgen|]. intros H0. rewrite Hgen, H0. reflexivity.
  - intros ino attr.
    destruct (setattr_mask_cases ino attr)
      as [m [Hm [_ [_ [_ [H4 ->]]]]]].
    rewrite <- H4. apply drop_redundant_size. exact Hm.
Qed.

Ltac split_branches :=
  repeat match goal with
         | |- context [if ?b then _ else _] => destruct b
         end.

Section AdapterFacts.
Context {K : dynsec_h} {T : dynsec_hook_h}.

Lemma file_open_flags_no_audit e f_mode :
  Z.land DYNSEC_REPORT_STALL DYNSEC_REPORT_AUDIT = 0 ->
  Z.land DYNSEC_REPORT_SELF DYNSEC_REPORT_AUDIT = 0 ->
  Z.land (Part_000.file_open_flags e f_mode) DYNSEC_REPORT_AUDIT = 0.
Proof.
  intros H1 H2. unfold Part_000.file_open_flags, Part_000.self_clears_stall.
  cbv zeta. destruct (in_connected_tgid e).
  - apply self_after_stall_has_no_audit. exact H2.
  - apply stall_store_has_no_audit. exact H1.
Qed.

(** The exit adapters never look at the connected thread group: their
    events carry AUDIT alone, so no SELF bit, whoever exits. *)
Lemma task_exit_never_marks_self e task ht et h flags rest :
  Z.land DYNSEC_REPORT_AUDIT DYNSEC_REPORT_SELF = 0 ->
  Part_000.__dynsec_task_exit e task ht = AllocEvent et h flags :: rest ->
  flags = u16 DYNSEC_REPORT_AUDIT /\ Z.land flags DYNSEC_REPORT_SELF = 0.
Proof.
  intros Hd. unfold Part_000.__dynsec_task_exit, Part_000.build_enqueue.
  destruct task as [task|]; [|discriminate].
  destruct (negb (tgid task =? pid task)); [discriminate|].
  destruct (negb (stall_tbl_on e)); [discriminate|].
  destruct (negb (fill_ok e)); intros Heq; inversion Heq; subst;
    (split; [reflexivity|apply audit_has_no_self; exact Hd]).
Qed.

(** Flags without the STALL bit are enqueued, never waited on. *)
Lemma build_checked_no_stall e ret0 et ht flags :
  Z.land flags DYNSEC_REPORT_STALL = 0 ->
  waited (outcome_trace (Part_000.build_checked e ret0 et ht flags)) = false.
Proof.
  intros H. unfold Part_000.build_checked, Part_000.stall_or_enqueue.
  cbn [alloc_dynsec_event report_flags]. rewrite H.
  change (negb (0 =? 0)) with false. cbv iota.
  split_branches; reflexivity.
Qed.

Lemma build_unchecked_no_stall e ret0 et ht flags enq :
  Z.land flags DYNSEC_REPORT_STALL = 0 ->
  is_wait enq = false ->
  waited (outcome_trace (Part_000.build_unchecked e ret0 et ht flags enq))
  = false.
Proof.
  intros H He. unfold Part_000.build_unchecked, Part_000.stall_or_enqueue.
  cbn [alloc_dynsec_event report_flags]. rewrite H.
  change (negb (0 =? 0)) with false. cbv iota.
  split_branches; try reflexivity.
  destruct enq; try reflexivity; discriminate.
Qed.

Section SelfOrigin.
Variable e : hook_env.
Hypothesis agent : in_connected_tgid e = true.
Hypothesis audit_stall :
  Z.land DYNSEC_REPORT_AUDIT DYNSEC_REPORT_STALL = 0.
Hypothesis self_stall :
  Z.land DYNSEC_REPORT_SELF DYNSEC_REPORT_STALL = 0.

Lemma self_or_stall_of_agent :
  Z.land (Part_000.self_or_stall e (u16 DYNSEC_REPORT_AUDIT))
         DYNSEC_REPORT_STALL = 0.
Proof.
  unfold Part_000.self_or_stall. rewrite agent.
  apply audit_self_has_no_stall; assumption.
Qed.

Lemma self_clears_stall_of_agent x :
  Z.land (Part_000.self_clears_stall e x) DYNSEC_REPORT_STALL = 0.
Proof.
  unfold Part_000.self_clears_stall. rewrite agent. apply cleared_stall.
Qed.

(** X13.  The feedback-loop guard: no adapter of part_000 stalls a task
    of the connected agent. *)
Lemma agent_is_never_stalled :
  (forall b, waited (outcome_trace
                       (Part_000.dynsec_bprm_set_creds e b)) = false) /\
  (forall et ht d, waited (outcome_trace
                             (Part_000.unlink_like e et ht d)) = false) /\
  (forall d a, waited (outcome_trace
                         (Part_000.dynsec_inode_setattr e d a)) = false) /\
  (forall et ht, waited (outcome_trace
                           (Part_000.create_like e et ht)) = false) /\
  (forall m d, waited (outcome_trace
                         (Part_000.dynsec_file_open e m d)) = false) /\
  (forall s f p fl x, waited (outcome_trace
                         (Part_000.dynsec_mmap_file e s f p fl x)) = false).
Proof.
  pose proof self_or_stall_of_agent as Hs.
  pose proof self_clears_stall_of_agent as Hc.
  repeat split.
  - intros b. unfold Part_000.dynsec_bprm_set_creds. cbv zeta.
    split_branches; try reflexivity.
    apply build_checked_no_stall, Hs.
  - intros et ht d. unfold Part_000.unlink_like. cbv zeta.
    destruct d; split_branches; try reflexivity.
    apply build_checked_no_stall, Hs.
  - intros d a. unfold Part_000.dynsec_inode_setattr. cbv zeta.
    destruct d as [[ino|]|]; destruct a; split_branches; try reflexivity.
    apply build_unchecked_no_stall; [apply Hs|reflexivity].
  - intros et ht. unfold Part_000.create_like. cbv zeta.
    split_branches; try reflexivity.
    apply build_unchecked_no_stall; [apply Hs|reflexivity].
  - intros m d. unfold Part_000.dynsec_file_open. cbv zeta.
    destruct d; split_branches; try reflexivity.
    apply build_unchecked_no_stall; [|reflexivity].
    unfold Part_000.file_open_flags. cbv zeta. apply Hc.
  - intros s f p fl x. unfold Part_000.dynsec_mmap_file. cbv zeta.
    repeat match goal with
           | |- context [if ?b then _ else _] =>
             lazymatch b with
             | context [in_connected_tgid] => fail
             | _ => destruct b
             end
           end; try reflexivity;
      (apply build_unchecked_no_stall; [apply Hc|reflexivity]).
Qed.
End SelfOrigin.

End AdapterFacts.

(** [report_flags |= STALL] keeps the STALL bit through the 16-bit store. *)
Lemma stall_bit_kept {K : dynsec_h} x :
  0 <= DYNSEC_REPORT_STALL < 2 ^ 16 ->
  Z.land (u16 (Z.lor x DYNSEC_REPORT_STALL)) DYNSEC_REPORT_STALL =
  DYNSEC_REPORT_STALL.
Proof.
  intros H. rewrite u16_land, <- Z.land_assoc, (Z.land_comm (Z.ones 16)).
  rewrite (Z.land_ones DYNSEC_REPORT_STALL 16) by lia.
  rewrite Z.mod_small by exact H.
  apply Z.bits_inj'; intros n Hn. rewrite Z.land_spec, Z.lor_spec.
  destruct (Z.testbit x n), (Z.testbit DYNSEC_REPORT_STALL n); reflexivity.
Qed.

(** An exec by a task outside the agent is stalled, and the adapter returns
    the verdict [dynsec_wait_event_timeout] left in [response] whenever
    that call returned 0. *)
Lemma stalled_exec_returns_verdict {K : dynsec_h} {T : dynsec_hook_h}
      (e : hook_env) :
  0 < DYNSEC_REPORT_STALL < 2 ^ 16 ->
  orig_ret e = 0 ->
  Part_000.hook_off e DYNSEC_HOOK_TYPE_EXEC = false ->
  stall_tbl_on e = true ->
  in_connected_tgid e = false ->
  alloc_ok e = true -> fill_ok e = true ->
  Part_000.dynsec_bprm_set_creds e true =
  Done (if wait_rc e =? 0 then wait_response e else 0)
       [AllocEvent DYNSEC_EVENT_TYPE_EXEC DYNSEC_HOOK_TYPE_EXEC
                   (u16 (Z.lor (u16 DYNSEC_REPORT_AUDIT) DYNSEC_REPORT_STALL));
        FillIn; WaitEvent].
Proof.
  intros Hs Ho Hh Ht Hc Ha Hf.
  unfold Part_000.dynsec_bprm_set_creds, Part_000.build_checked,
    Part_000.stall_or_enqueue, Part_000.self_or_stall.
  rewrite Ho, Hh, Ht, Hc, Ha, Hf. cbn [negb Z.eqb]. cbv iota zeta.
  cbn [alloc_dynsec_event report_flags].
  rewrite stall_bit_kept by lia.
  destruct (Z.eqb_spec DYNSEC_REPORT_STALL 0) as [H0|_]; [lia|].
  reflexivity.
Qed.

(** C5, the failing adapter.  For a regular file, with the hook and the
    stall table enabled, [dynsec_file_open] overwrites the AUDIT flag it
    started with: the flags it hands to [alloc_dynsec_event], and so the
    event's, have no AUDIT bit, whether or not the task belongs to the
    agent. *)
Theorem file_open_event_lacks_audit
        {K : dynsec_h} {T : dynsec_hook_h}
        (e : hook_env) (f_mode : Z) (ino : inode) :
  Z.land DYNSEC_REPORT_STALL DYNSEC_REPORT_AUDIT = 0 ->
  Z.land DYNSEC_REPORT_SELF DYNSEC_REPORT_AUDIT = 0 ->
  orig_ret e = 0 ->
  Part_000.hook_off e DYNSEC_HOOK_TYPE_OPEN = false ->
  S_ISREG (i_mode ino) = true ->
  stall_tbl_on e = true ->
  exists flags rest,
    outcome_trace (Part_000.dynsec_file_open e f_mode (Some ino)) =
    AllocEvent DYNSEC_EVENT_TYPE_OPEN DYNSEC_HOOK_TYPE_OPEN flags :: rest /\
    flags = Part_000.file_open_flags e f_mode /\
    (in_connected_tgid e = false -> flags = u16 DYNSEC_REPORT_STALL) /\
    Z.land flags DYNSEC_REPORT_AUDIT = 0 /\
    Z.land (report_flags (alloc_dynsec_event flags)) DYNSEC_REPORT_AUDIT = 0.
Proof.
  intros H1 H2 Ho Hh Hr Ht.
  exists (Part_000.file_open_flags e f_mode).
  unfold Part_000.dynsec_file_open. rewrite Ho, Hh, Hr, Ht. cbn [negb Z.eqb].
  cbv iota.
  assert (Hfl : Z.land (Part_000.file_open_flags e f_mode)
                       DYNSEC_REPORT_AUDIT = 0)
    by (apply file_open_flags_no_audit; assumption).
  assert (Hns : in_connected_tgid e = false ->
                Part_000.file_open_flags e f_mode = u16 DYNSEC_REPORT_STALL).
  { intros Hn. unfold Part_000.file_open_flags, Part_000.self_clears_stall.
    cbv zeta. rewrite Hn. reflexivity. }
  unfold Part_000.build_unchecked, Part_000.stall_or_enqueue.
  split_branches; eexists; (split; [reflexivity|]); repeat split; assumption.
Qed.

(** C8, amended.  The four adapters of hooks.c free the event after an
    enqueue that returned 0; every adapter of part_000 discards what the
    enqueue function returns and never frees an event after handing it
    over. *)
Theorem queue_full_free_by_revision {K : dynsec_h} {T : dynsec_hook_h} :
  (forall e et ht flags,
     enqueue_size e = 0 ->
     enqueued (outcome_trace (Hooks_c.build e (orig_ret e) et ht flags)) = true ->
     freed_after_enqueue
       (outcome_trace (Hooks_c.build e (orig_ret e) et ht flags)) = true) /\
  (forall e b,
     enqueue_size e = 0 ->
     enqueued (outcome_trace (Hooks_c.dynsec_bprm_set_creds e b)) = true ->
     freed_after_enqueue
       (outcome_trace (Hooks_c.dynsec_bprm_set_creds e b)) = true) /\
  (forall e et ht d,
     enqueue_size e = 0 ->
     enqueued (outcome_trace (Hooks_c.unlink_like e et ht d)) = true ->
     freed_after_enqueue
       (outcome_trace (Hooks_c.unlink_like e et ht d)) = true) /\
  (forall e b, freed_after_enqueue
     (outcome_trace (Part_000.dynsec_bprm_set_creds e b)) = false) /\
  (forall e et ht d, freed_after_enqueue
     (outcome_trace (Part_000.unlink_like e et ht d)) = false) /\
  (forall e d a, freed_after_enqueue
     (outcome_trace (Part_000.dynsec_inode_setattr e d a)) = false) /\
  (forall e et ht, freed_after_enqueue
     (outcome_trace (Part_000.create_like e et ht)) = false) /\
  (forall e m d, freed_after_enqueue
     (outcome_trace (Part_000.dynsec_file_open e m d)) = false) /\
  (forall e m d, freed_after_enqueue
     (Part_000.dynsec_file_free_security e m d) = false) /\
  (forall e, freed_after_enqueue
     (outcome_trace (Part_000.dynsec_ptrace_traceme e)) = false) /\
  (forall e m c, freed_after_enqueue
     (outcome_trace (Part_000.dynsec_ptrace_access_check e m c)) = false) /\
  (forall e sig, freed_after_enqueue
     (outcome_trace (Part_000.dynsec_task_kill e sig)) = false) /\
  (forall e pc c, freed_after_enqueue
     (Part_000.dynsec_sched_process_fork_tp e pc c) = false) /\
  (forall e t ht, freed_after_enqueue
     (Part_000.__dynsec_task_exit e t ht) = false) /\
  (forall e s f p fl x, freed_after_enqueue
     (outcome_trace (Part_000.dynsec_mmap_file e s f p fl x)) = false) /\
  (forall e pc p, freed_after_enqueue
     (Part_000.dynsec_wake_up_new_task e pc p) = false).
Proof.
  assert (Hb : forall e et ht flags,
             enqueue_size e = 0 ->
             enqueued (outcome_trace (Hooks_c.build e (orig_ret e) et ht flags))
             = true ->
             freed_after_enqueue
               (outcome_trace (Hooks_c.build e (orig_ret e) et ht flags))
             = true).
  { intros e et ht flags Hz. unfold Hooks_c.build. rewrite Hz.
    change (u32 0 =? 0) with true. cbv iota.
    split_branches; cbn; intros; try reflexivity; discriminate. }
  split; [exact Hb|].
  split.
  { intros e b Hz. unfold Hooks_c.dynsec_bprm_set_creds. cbv zeta.
    split_branches; try (cbn; discriminate). apply Hb. exact Hz. }
  split.
  { intros e et ht d Hz. unfold Hooks_c.unlink_like. cbv zeta.
    destruct d; split_branches; try (cbn; discriminate). apply Hb. exact Hz. }
  repeat split; intros;
    unfold Part_000.dynsec_bprm_set_creds, Part_000.unlink_like,
      Part_000.dynsec_inode_setattr, Part_000.create_like,
      Part_000.dynsec_file_open, Part_000.dynsec_file_free_security,
      Part_000.dynsec_ptrace_traceme, Part_000.dynsec_ptrace_access_check,
      Part_000.dynsec_task_kill, Part_000.dynsec_sched_process_fork_tp,
      Part_000.__dynsec_task_exit, Part_000.dynsec_mmap_file,
      Part_000.dynsec_wake_up_new_task,
      Part_000.build_checked, Part_000.build_unchecked,
      Part_000.build_enqueue, Part_000.stall_or_enqueue;
    cbv zeta;
    repeat match goal with
           | |- context [match ?x with Some _ => _ | None => _ end] =>
             destruct x
           end;
    repeat match goal with
           | |- context [if ?b then _ else _] =>
             lazymatch b with
             | context [if _ then _ else _] => fail
             | _ => destruct b
             end
           end; reflexivity.
Qed.

(** * Concrete runs *)

Example scenario_simple_allow :
  dynsec_wait_event_timeout (K := run_dynsec_h) one_jiffy_per_ms
    (Some stalling_event) (Some 7) true false 4096
    (fresh_entry (K := run_dynsec_h) false) 1000 answered_allow =
  Some {| w_ret := 0; w_response := Some 0;
          w_trace := [Insert; Wait 1000; Rearm; RemoveEntry; KfreeEntry] |}.
Proof. reflexivity. Qed.

Example scenario_timeout_default_allow :
  dynsec_wait_event_timeout (K := run_dynsec_h) one_jiffy_per_ms
    (Some stalling_event) (Some 7) true false 4096
    (fresh_entry (K := run_dynsec_h) false) 1000
    (never_answered (K := run_dynsec_h)) =
  Some {| w_ret := 0; w_response := Some 0;
          w_trace := [Insert; Wait 1000; RemoveEntry; KfreeEntry] |}.
Proof. reflexivity. Qed.

Example scenario_timeout_default_deny :
  dynsec_wait_event_timeout (K := run_dynsec_h) one_jiffy_per_ms
    (Some stalling_event) (Some 7) true false 4096
    (fresh_entry (K := run_dynsec_h) true) 1000
    (never_answered (K := run_dynsec_h)) =
  Some {| w_ret := 0; w_response := Some (- EPERM);
          w_trace := [Insert; Wait 1000; RemoveEntry; KfreeEntry] |}.
Proof. reflexivity. Qed.

Example scenario_continue_then_deny :
  dynsec_wait_event_timeout (K := run_dynsec_h) one_jiffy_per_ms
    (Some stalling_event) (Some 7) true false 4096
    (fresh_entry (K := run_dynsec_h) false) 1000 continue_then_deny =
  Some {| w_ret := 0; w_response := Some (- EPERM);
          w_trace := [Insert; Wait 1000; Rearm; Wait 2000; Rearm;
                      RemoveEntry; KfreeEntry] |}.
Proof. reflexivity. Qed.

Example scenario_ignorable_event :
  dynsec_wait_event_timeout (K := run_dynsec_h) one_jiffy_per_ms
    (Some {| report_flags := 11 |}) (Some 7) true true 4096
    (fresh_entry (K := run_dynsec_h) false) 1000
    (never_answered (K := run_dynsec_h)) =
  Some {| w_ret := - ECHILD; w_response := Some 0;
          w_trace := [FreeEvent false] |}.
Proof. reflexivity. Qed.

Example scenario_insert_error :
  dynsec_wait_event_timeout (K := run_dynsec_h) one_jiffy_per_ms
    (Some stalling_event) (Some 7) true false (2 ^ 64 - 12)
    (fresh_entry (K := run_dynsec_h) false) 1000
    (never_answered (K := run_dynsec_h)) =
  Some {| w_ret := - 12; w_response := Some 0;
          w_trace := [Insert; FreeEvent false] |}.
Proof. reflexivity. Qed.

(** C1 as stated fails: with deny-on-timeout on and CONTINUE at every
    wake-up, the stall ends after 256 waits with [*response = 0], which is
    ALLOW and not -EPERM. *)
Lemma continuation_cap_verdict_is_allow :
  let w := dynsec_wait_event_timeout (K := run_dynsec_h) one_jiffy_per_ms
             (Some stalling_event) (Some 0) true false 4096
             (fresh_entry (K := run_dynsec_h) true) 1000
             (always_continue (K := run_dynsec_h)) in
  option_map (fun w => count_waits (w_trace w)) w = Some 256 /\
  option_map w_ret w = Some 0 /\
  option_map w_response w = Some (Some 0) /\
  option_map w_response w <> Some (Some (- EPERM)).
Proof.
  vm_compute. repeat split; try reflexivity. discriminate.
Qed.

Lemma continuation_cap_ends_in_allow_witness :
  @DYNSEC_RESPONSE_CONTINUE run_dynsec_h <> @DYNSEC_RESPONSE_EPERM run_dynsec_h /\
  ignorable (K := run_dynsec_h) stalling_event false = false /\
  inserted 4096 = true /\
  (forall j, (j < 256)%nat ->
             continue_round (K := run_dynsec_h)
                            (always_continue (K := run_dynsec_h) j)) /\
  exists r,
    do_stall_interruptible (K := run_dynsec_h) one_jiffy_per_ms
      (fresh_entry (K := run_dynsec_h) true) 1000
      (always_continue (K := run_dynsec_h)) 0 = Some r /\
    path r = ExitContinueCap /\
    ret r = - ECHILD /\
    count_waits (trace r) = 256 /\
    count_removes (trace r) = 1 /\
    out_response r = 0 /\
    dynsec_wait_event_timeout (K := run_dynsec_h) one_jiffy_per_ms
      (Some stalling_event) (Some 0) true false 4096
      (fresh_entry (K := run_dynsec_h) true) 1000
      (always_continue (K := run_dynsec_h)) =
    Some {| w_ret := 0; w_response := Some 0;
            w_trace := Insert :: trace r ++ [KfreeEntry] |}.
Proof.
  assert (H1 : @DYNSEC_RESPONSE_CONTINUE run_dynsec_h <>
               @DYNSEC_RESPONSE_EPERM run_dynsec_h) by (simpl; lia).
  assert (H2 : ignorable (K := run_dynsec_h) stalling_event false = false)
    by reflexivity.
  assert (H3 : inserted 4096 = true) by reflexivity.
  assert (H4 : forall j, (j < 256)%nat ->
                 continue_round (K := run_dynsec_h)
                                (always_continue (K := run_dynsec_h) j)).
  { intros j _. unfold continue_round. simpl. repeat split; reflexivity. }
  repeat (split; [assumption|]).
  exact (@continuation_cap_ends_in_allow run_dynsec_h one_jiffy_per_ms
           stalling_event 0 false 4096 (fresh_entry (K := run_dynsec_h) true)
           1000 (always_continue (K := run_dynsec_h)) H1 H2 H3 H4).
Defined.

Lemma closed_gate_frees_without_remove_witness :
  ignorable (K := run_dynsec_h) stalling_event false = false /\
  inserted 4096 = true /\
  gates_open (stall_mode_off (K := run_dynsec_h) 0%nat) = false /\
  dynsec_wait_event_timeout (K := run_dynsec_h) one_jiffy_per_ms
    (Some stalling_event) (Some 0) true false 4096
    (fresh_entry (K := run_dynsec_h) false) 1000
    (stall_mode_off (K := run_dynsec_h)) =
  Some {| w_ret := 0; w_response := Some 0;
          w_trace := [Insert; KfreeEntry] |}.
Proof.
  assert (H1 : ignorable (K := run_dynsec_h) stalling_event false = false)
    by reflexivity.
  assert (H2 : inserted 4096 = true) by reflexivity.
  assert (H3 : gates_open (stall_mode_off (K := run_dynsec_h) 0%nat) = false)
    by reflexivity.
  repeat (split; [assumption|]).
  exact (@closed_gate_frees_without_remove run_dynsec_h one_jiffy_per_ms
           stalling_event 0 false 4096 (fresh_entry (K := run_dynsec_h) false)
           1000 (stall_mode_off (K := run_dynsec_h)) H1 H2 H3).
Defined.

Lemma verdict_mapping_witness :
  ignorable (K := run_dynsec_h) stalling_event false = false /\
  inserted 4096 = true /\
  exists w,
    dynsec_wait_event_timeout (K := run_dynsec_h) one_jiffy_per_ms
      (Some stalling_event) (Some 0) true false 4096
      (fresh_entry (K := run_dynsec_h) false) 1000 continue_then_deny =
    Some w /\
    w_ret w = 0 /\ w_response w = Some (- EPERM).
Proof.
  assert (H1 : ignorable (K := run_dynsec_h) stalling_event false = false)
    by reflexivity.
  assert (H2 : inserted 4096 = true) by reflexivity.
  repeat (split; [assumption|]).
  destruct (@verdict_mapping run_dynsec_h one_jiffy_per_ms
              stalling_event 0 false 4096
              (fresh_entry (K := run_dynsec_h) false) 1000
              continue_then_deny H1 H2)
    as [w [n [Hw [Hret [Hn [Hall [Hclosed Hopen]]]]]]].
  exists w. split; [exact Hw|]. split; [exact Hret|].
  destruct n as [|[|n]].
  - destruct (Hopen eq_refl) as [[Hc|Hc] _]; [discriminate|].
    exfalso. apply Hc. unfold continue_round. repeat split; reflexivity.
  - destruct (Hopen eq_refl) as [_ [Ha _]]. exact (Ha eq_refl).
  - exfalso. destruct (Hall 1%nat ltac:(lia)) as [_ [_ Hc]]. discriminate Hc.
Defined.

Lemma do_stall_interruptible_terminates_witness :
  (forall ms, 0 <= one_jiffy_per_ms ms) /\
  (forall i, next_timeout one_jiffy_per_ms
                          (never_answered (K := run_dynsec_h) i) <= 2000) /\
  exists r,
    do_stall_interruptible (K := run_dynsec_h) one_jiffy_per_ms
      (fresh_entry (K := run_dynsec_h) false) 1000
      (never_answered (K := run_dynsec_h)) 0 = Some r /\
    1 <= passes r <= MAX_CONTINUE_RESPONSES /\
    count_waits (trace r) <= MAX_CONTINUE_RESPONSES /\
    granted (trace r) <=
      one_jiffy_per_ms 1000 + MAX_CONTINUE_RESPONSES * 2000.
Proof.
  assert (H1 : forall ms, 0 <= one_jiffy_per_ms ms)
    by (intros ms; unfold one_jiffy_per_ms; lia).
  assert (H2 : forall i, next_timeout one_jiffy_per_ms
                           (never_answered (K := run_dynsec_h) i) <= 2000)
    by (intros i; vm_compute; discriminate).
  repeat (split; [assumption|]).
  destruct (@do_stall_interruptible_terminates run_dynsec_h one_jiffy_per_ms
              (fresh_entry (K := run_dynsec_h) false) 1000
              (never_answered (K := run_dynsec_h)) 0)
    as [r [Hr [_ [Hp [_ [Hw Hg]]]]]].
  exists r. repeat (split; [assumption|]).
  exact (Hg 2000 H1 H2).
Defined.

Lemma dynsec_wait_event_timeout_results_witness :
  0 <= 4096 < 2 ^ 64 /\
  dynsec_wait_event_timeout (K := run_dynsec_h) one_jiffy_per_ms
    (Some stalling_event) None true false 4096
    (fresh_entry (K := run_dynsec_h) true) 1000
    (never_answered (K := run_dynsec_h)) =
  Some {| w_ret := - EINVAL; w_response := None; w_trace := [] |}.
Proof.
  assert (H1 : 0 <= 4096 < 2 ^ 64) by lia.
  split; [assumption|].
  exact (proj1 (@dynsec_wait_event_timeout_results run_dynsec_h
                  one_jiffy_per_ms (Some stalling_event) 0 true false 4096
                  (fresh_entry (K := run_dynsec_h) true) 1000
                  (never_answered (K := run_dynsec_h)) H1)).
Defined.

Lemma default_timeout_alone_breaks_order_witness :
  let flags := Z.land (Hdr.flags raise_default_timeout)
                      (recognized_flags (K := run_dynsec_h)) in
  let res := handle_stall_ioc (K := run_dynsec_h) (C := run_config_h)
               mode_reader deny_reader (Some raise_default_timeout) true
               cfg_before in
  timeouts_in_range (C := run_config_h) cfg_before /\
  selected flags (@DYNSEC_STALL_DEFAULT_TIMEOUT run_dynsec_h) = true /\
  selected flags (@DYNSEC_STALL_CONTINUE_TIMEOUT run_dynsec_h) = false /\
  Cfg.stall_timeout_continue cfg_before < Hdr.stall_timeout raise_default_timeout
    <= @MAX_WAIT_TIMEOUT_MS run_config_h /\
  ioc_ret res = 0 /\
  Cfg.stall_timeout (ioc_config res) = Hdr.stall_timeout raise_default_timeout /\
  Cfg.stall_timeout_continue (ioc_config res) =
    Cfg.stall_timeout_continue cfg_before /\
  ~ timeouts_in_range (C := run_config_h) (ioc_config res).
Proof.
  intros flags res.
  assert (H1 : timeouts_in_range (C := run_config_h) cfg_before)
    by (unfold timeouts_in_range; simpl; lia).
  assert (H2 : selected flags (@DYNSEC_STALL_DEFAULT_TIMEOUT run_dynsec_h)
               = true) by reflexivity.
  assert (H3 : selected flags (@DYNSEC_STALL_CONTINUE_TIMEOUT run_dynsec_h)
               = false) by reflexivity.
  assert (H4 : Cfg.stall_timeout_continue cfg_before
               < Hdr.stall_timeout raise_default_timeout
               <= @MAX_WAIT_TIMEOUT_MS run_config_h) by (simpl; lia).
  repeat (split; [assumption|]).
  exact (@default_timeout_alone_breaks_order run_dynsec_h run_config_h
           mode_reader deny_reader raise_default_timeout cfg_before
           H1 H2 H3 H4).
Defined.

Lemma unprivileged_request_rejected_witness :
  Z.land (Hdr.flags raise_default_timeout)
         (recognized_flags (K := run_dynsec_h)) <> 0 /\
  handle_stall_ioc (K := run_dynsec_h) (C := run_config_h)
    mode_reader deny_reader (Some raise_default_timeout) false cfg_before =
  {| ioc_ret := - EPERM; ioc_config := cfg_before; ioc_trace := [] |}.
Proof.
  assert (H1 : Z.land (Hdr.flags raise_default_timeout)
                      (recognized_flags (K := run_dynsec_h)) <> 0)
    by (vm_compute; discriminate).
  split; [assumption|].
  exact (@unprivileged_request_rejected run_dynsec_h run_config_h
           mode_reader deny_reader raise_default_timeout cfg_before H1).
Defined.

Lemma file_open_event_lacks_audit_witness :
  Z.land (@DYNSEC_REPORT_STALL run_dynsec_h)
         (@DYNSEC_REPORT_AUDIT run_dynsec_h) = 0 /\
  Z.land (@DYNSEC_REPORT_SELF run_dynsec_h)
         (@DYNSEC_REPORT_AUDIT run_dynsec_h) = 0 /\
  orig_ret open_by_other_task = 0 /\
  Part_000.hook_off open_by_other_task
                    (@DYNSEC_HOOK_TYPE_OPEN run_dynsec_hook_h) = false /\
  S_ISREG (i_mode regular_file) = true /\
  stall_tbl_on open_by_other_task = true /\
  exists flags rest,
    outcome_trace (Part_000.dynsec_file_open (K := run_dynsec_h)
                     (T := run_dynsec_hook_h) open_by_other_task 32768
                     (Some regular_file)) =
    AllocEvent DYNSEC_EVENT_TYPE_OPEN
               (@DYNSEC_HOOK_TYPE_OPEN run_dynsec_hook_h) flags :: rest /\
    flags = Part_000.file_open_flags (K := run_dynsec_h)
                                     open_by_other_task 32768 /\
    (in_connected_tgid open_by_other_task = false ->
     flags = u16 (@DYNSEC_REPORT_STALL run_dynsec_h)) /\
    Z.land flags (@DYNSEC_REPORT_AUDIT run_dynsec_h) = 0 /\
    Z.land (report_flags (alloc_dynsec_event flags))
           (@DYNSEC_REPORT_AUDIT run_dynsec_h) = 0.
Proof.
  assert (H1 : Z.land (@DYNSEC_REPORT_STALL run_dynsec_h)
                      (@DYNSEC_REPORT_AUDIT run_dynsec_h) = 0) by reflexivity.
  assert (H2 : Z.land (@DYNSEC_REPORT_SELF run_dynsec_h)
                      (@DYNSEC_REPORT_AUDIT run_dynsec_h) = 0) by reflexivity.
  assert (H3 : orig_ret open_by_other_task = 0) by reflexivity.
  assert (H4 : Part_000.hook_off open_by_other_task
                 (@DYNSEC_HOOK_TYPE_OPEN run_dynsec_hook_h) = false)
    by reflexivity.
  assert (H5 : S_ISREG (i_mode regular_file) = true) by reflexivity.
  assert (H6 : stall_tbl_on open_by_other_task = true) by reflexivity.
  repeat (split; [assumption|]).
  exact (@file_open_event_lacks_audit run_dynsec_h run_dynsec_hook_h
           open_by_other_task 32768 regular_file H1 H2 H3 H4 H5 H6).
Defined.

Lemma redundant_setattr_dropped_witness :
  (requests chmod_same_mode ATTR_MODE = true ->
   ia_mode chmod_same_mode = i_mode regular_file) /\
  (requests chmod_same_mode ATTR_UID = true ->
   ia_uid chmod_same_mode = i_uid regular_file) /\
  (requests chmod_same_mode ATTR_GID = true ->
   ia_gid chmod_same_mode = i_gid regular_file) /\
  (requests chmod_same_mode ATTR_SIZE = true ->
   ia_size chmod_same_mode = i_size regular_file) /\
  orig_ret setattr_by_other_task = 0 /\
  Part_000.dynsec_inode_setattr (K := run_dynsec_h) (T := run_dynsec_hook_h)
    setattr_by_other_task (Some (Some regular_file)) (Some chmod_same_mode) =
  Done 0 [].
Proof.
  assert (H1 : requests chmod_same_mode ATTR_MODE = true ->
               ia_mode chmod_same_mode = i_mode regular_file)
    by (intros _; reflexivity).
  assert (H2 : requests chmod_same_mode ATTR_UID = true ->
               ia_uid chmod_same_mode = i_uid regular_file)
    by (vm_compute; discriminate).
  assert (H3 : requests chmod_same_mode ATTR_GID = true ->
               ia_gid chmod_same_mode = i_gid regular_file)
    by (vm_compute; discriminate).
  assert (H4 : requests chmod_same_mode ATTR_SIZE = true ->
               ia_size chmod_same_mode = i_size regular_file)
    by (vm_compute; discriminate).
  assert (H5 : orig_ret setattr_by_other_task = 0) by reflexivity.
  repeat (split; [assumption|]).
  exact (proj2 (proj1 (@redundant_setattr_dropped run_dynsec_h
                         run_dynsec_hook_h)
                      setattr_by_other_task regular_file chmod_same_mode
                      H1 H2 H3 H4) H5).
Defined.

(** C8 as stated fails on part_000: the enqueue returned 0 and the adapter
    returns without a call of [free_dynsec_event]. *)
Lemma part_000_leaves_rejected_event :
  enqueue_size agent_exec_queue_full = 0 /\
  Part_000.dynsec_bprm_set_creds (K := run_dynsec_h) (T := run_dynsec_hook_h)
    agent_exec_queue_full true =
  Done 0 [AllocEvent DYNSEC_EVENT_TYPE_EXEC 1 6; FillIn; Enqueue] /\
  existsb is_free
    (outcome_trace (Part_000.dynsec_bprm_set_creds (K := run_dynsec_h)
                      (T := run_dynsec_hook_h) agent_exec_queue_full true))
  = false.
Proof. repeat split; reflexivity. Qed.

Lemma queue_full_free_by_revision_witness :
  enqueue_size agent_exec_queue_full = 0 /\
  enqueued (outcome_trace
              (Hooks_c.dynsec_bprm_set_creds (K := run_dynsec_h)
                 (T := run_dynsec_hook_h) agent_exec_queue_full true)) = true /\
  freed_after_enqueue
    (outcome_trace
       (Hooks_c.dynsec_bprm_set_creds (K := run_dynsec_h)
          (T := run_dynsec_hook_h) agent_exec_queue_full true)) = true.
Proof.
  assert (H1 : enqueue_size agent_exec_queue_full = 0) by reflexivity.
  assert (H2 : enqueued (outcome_trace
                 (Hooks_c.dynsec_bprm_set_creds (K := run_dynsec_h)
                    (T := run_dynsec_hook_h) agent_exec_queue_full true))
               = true) by reflexivity.
  repeat (split; [assumption|]).
  exact (proj1 (proj2 (@queue_full_free_by_revision run_dynsec_h
                         run_dynsec_hook_h))
               agent_exec_queue_full true H1 H2).
Defined.

(** * Further properties of the stall engine *)

Lemma count_waits_app a b :
  count_waits (a ++ b) = count_waits a + count_waits b.
Proof.
  induction a as [|x a IH]; [reflexivity|].
  destruct x; cbn [app count_waits]; rewrite IH; lia.
Qed.


Lemma prepend_nil r : prepend [] r = r.
Proof. destruct r; reflexivity. Qed.

Lemma prepend_prepend a b r : prepend a (prepend b r) = prepend (a ++ b) r.
Proof. unfold prepend; cbn. rewrite app_assoc. reflexivity. Qed.

Lemma option_map_prepend a b (o : option stall_result) :
  option_map (prepend a) (option_map (prepend b) o) =
  option_map (prepend (a ++ b)) o.
Proof. destruct o; cbn; [rewrite prepend_prepend|]; reflexivity. Qed.

Section Passes.
Context {K : dynsec_h}.
Variable msecs_to_jiffies : Z -> Z.
Variable env : nat -> round.
Variables default_reponse resp : Z.

(** One pass whose wait is interrupted or times out. *)
Lemma retry_quiet_step fuel i l t cc :
  gates_open (env i) = true -> int_of_long (wait_ret (env i)) <= 0 ->
  retry msecs_to_jiffies (S fuel) env i default_reponse l t cc resp =
  Some (leave 0 default_reponse resp (quiet_path (env i)) [Wait t]).
Proof.
  unfold gates_open, quiet_path. intros Hg Hw.
  apply andb_prop in Hg as [Hg Hb]. apply andb_prop in Hg as [Ht Hs].
  apply negb_true_iff in Hb.
  simpl. rewrite Ht, Hs, Hb. simpl.
  destruct (Z.ltb_spec (int_of_long (wait_ret (env i))) 0); [reflexivity|].
  destruct (Z.eqb_spec (int_of_long (wait_ret (env i))) 0); [reflexivity|lia].
Qed.

(** One pass that is woken with an answer other than CONTINUE. *)
Lemma retry_answer_step fuel i l t cc :
  gates_open (env i) = true -> 0 < int_of_long (wait_ret (env i)) ->
  response (entry_now (env i)) <> DYNSEC_RESPONSE_CONTINUE ->
  retry msecs_to_jiffies (S fuel) env i default_reponse l t cc resp =
  Some (leave 0 (response (entry_now (env i))) resp ExitResponse
              [Wait t; Rearm]).
Proof.
  unfold gates_open. intros Hg Hw Hc.
  apply andb_prop in Hg as [Hg Hb]. apply andb_prop in Hg as [Ht Hs].
  apply negb_true_iff in Hb. apply Z.eqb_neq in Hc.
  simpl. rewrite Ht, Hs, Hb. simpl.
  destruct (Z.ltb_spec (int_of_long (wait_ret (env i))) 0); [lia|].
  destruct (Z.eqb_spec (int_of_long (wait_ret (env i))) 0); [lia|].
  rewrite Hc. reflexivity.
Qed.

(** [k] passes woken with CONTINUE, folded into a prefix of the trace. *)
Lemma retry_skip_continues : forall k fuel i l t cc,
  0 <= cc -> cc + Z.of_nat k < MAX_CONTINUE_RESPONSES ->
  (forall j, (i <= j < i + k)%nat -> continue_round (env j)) ->
  exists l' pre,
    count_waits pre = Z.of_nat k /\ count_removes pre = 0 /\
    retry msecs_to_jiffies (k + fuel) env i default_reponse l t cc resp =
    option_map (prepend pre)
      (retry msecs_to_jiffies fuel env (i + k) default_reponse l'
             (match k with
              | O => t
              | S k' => next_timeout msecs_to_jiffies (env (i + k')%nat)
              end)
             (cc + Z.of_nat k) resp).
Proof.
  unfold MAX_CONTINUE_RESPONSES.
  induction k as [|k IH]; intros fuel i l t cc Hcc Hk Hall.
  - exists l, []. split; [reflexivity|]. split; [reflexivity|].
    rewrite Nat.add_0_r, Z.add_0_r. cbn [Nat.add].
    destruct (retry msecs_to_jiffies fuel env i default_reponse l t cc resp);
      cbn; [rewrite prepend_nil|]; reflexivity.
  - cbn [Nat.add].
    rewrite retry_continue_step by (apply Hall; lia).
    rewrite (u32_small (cc + 1)) by lia.
    unfold MAX_CONTINUE_RESPONSES.
    destruct (Z.ltb_spec (cc + 1) 256); [|lia].
    destruct (IH fuel (S i) (response (entry_now (env i)))
                 (next_timeout msecs_to_jiffies (env i)) (cc + 1))
      as [l' [pre [Hw [Hr Heq]]]]; [lia|lia| |].
    { intros j Hj. apply Hall. lia. }
    exists l', ([Wait t; Rearm] ++ pre).
    split; [cbn [app count_waits]; lia|].
    split; [cbn [app count_removes]; lia|].
    rewrite Heq, option_map_prepend.
    replace (S i + k)%nat with (i + S k)%nat by lia.
    replace (cc + 1 + Z.of_nat k) with (cc + Z.of_nat (S k)) by lia.
    destruct k as [|k']; [rewrite Nat.add_0_r; reflexivity|].
    replace (S i + k')%nat with (i + S k')%nat by lia. reflexivity.
Qed.



End Passes.

Section Runs.
Context {K : dynsec_h}.
Variable msecs_to_jiffies : Z -> Z.

(** The engine after [k] passes woken with CONTINUE: what is left to run
    is the pass [k], with the counter at [k] and the timeout of that pass. *)
Lemma do_stall_after_continues entry wait_timeout env resp k :
  (k < 256)%nat ->
  (forall j, (j < k)%nat -> continue_round (env j)) ->
  exists l' pre,
    count_waits pre = Z.of_nat k /\ count_removes pre = 0 /\
    do_stall_interruptible msecs_to_jiffies entry wait_timeout env resp =
    option_map (prepend pre)
      (retry msecs_to_jiffies (S (255 - k)) env k (response entry) l'
             (timeout_of_pass msecs_to_jiffies wait_timeout env k)
             (Z.of_nat k) resp).
Proof.
  intros Hk Hall. unfold do_stall_interruptible.
  change (Z.to_nat MAX_CONTINUE_RESPONSES) with 256%nat.
  replace 256%nat with (k + S (255 - k))%nat by lia.
  destruct (retry_skip_continues msecs_to_jiffies env (response entry) resp
              k (S (255 - k)) 0%nat (response entry)
              (msecs_to_jiffies wait_timeout) 0)
    as [l' [pre [Hw [Hr Heq]]]].
  - lia.
  - unfold MAX_CONTINUE_RESPONSES. lia.
  - intros j Hj. apply Hall. lia.
  - exists l', pre. split; [exact Hw|]. split; [exact Hr|].
    rewrite Heq. cbn [Nat.add]. rewrite Z.add_0_l.
    destruct k; reflexivity.
Qed.

Lemma engine_trace_has_no_free tr :
  Forall engine_action tr ->
  existsb is_free_event tr = false /\ existsb is_kfree tr = false.
Proof.
  induction 1 as [|a tr Ha _ [IH1 IH2]]; [split; reflexivity|].
  destruct a; cbn in Ha |- *; try contradiction; split; assumption.
Qed.

End Runs.



(** X3.  After [k] < 256 continuations, a wake-up (a wait whose value is
    positive in [int wait_ret]) with an answer other than CONTINUE ends the
    stall: the verdict is -EPERM for DENY and 0 for anything else, the last
    wait had the timeout of the last continuation (the initial one when
    [k] = 0), and the entry is re-armed, removed and freed. *)
Theorem answer_after_continues
        {K : dynsec_h} (msecs_to_jiffies : Z -> Z)
        (ev : dynsec_event) (x : Z) (ignore_mode : bool) (entry_ptr : Z)
        (entry : stall_entry) (wait_timeout : Z) (env : nat -> round)
        (k : nat) :
  ignorable ev ignore_mode = false ->
  inserted entry_ptr = true ->
  (k < 256)%nat ->
  (forall j, (j < k)%nat -> continue_round (env j)) ->
  gates_open (env k) = true -> 0 < int_of_long (wait_ret (env k)) ->
  response (entry_now (env k)) <> DYNSEC_RESPONSE_CONTINUE ->
  exists pre,
    count_waits pre = Z.of_nat k /\ count_removes pre = 0 /\
    dynsec_wait_event_timeout msecs_to_jiffies (Some ev) (Some x) true
                              ignore_mode entry_ptr entry wait_timeout env =
    Some {| w_ret := 0;
            w_response :=
              Some (if response (entry_now (env k)) =? DYNSEC_RESPONSE_EPERM
                    then - EPERM else 0);
            w_trace :=
              Insert ::
              (pre ++ [Wait (timeout_of_pass msecs_to_jiffies wait_timeout
                                             env k);
                       Rearm; RemoveEntry]) ++ [KfreeEntry] |}.
Proof.
  intros Hi Hins Hk Hall Hg Hw Hc.
  destruct (do_stall_after_continues msecs_to_jiffies entry wait_timeout env
              0 k Hk Hall) as [l' [pre [Hcw [Hcr Heq]]]].
  rewrite retry_answer_step in Heq by assumption.
  exists pre. split; [exact Hcw|]. split; [exact Hcr|].
  rewrite (wait_after_insert msecs_to_jiffies ev x ignore_mode entry_ptr entry
             wait_timeout env _ Hi Hins Heq).
  reflexivity.
Qed.

(** X4.  After [k] < 256 continuations, a wait whose value is zero or
    negative in [int wait_ret] (a timeout, an interrupt) ends the stall with
    the entry's default response, not with CONTINUE: the verdict is -EPERM
    exactly when that default is DENY, and it is the same for a timeout and
    for an interrupt. *)
Theorem quiet_after_continues
        {K : dynsec_h} (msecs_to_jiffies : Z -> Z)
        (ev : dynsec_event) (x : Z) (ignore_mode : bool) (entry_ptr : Z)
        (entry : stall_entry) (wait_timeout : Z) (env : nat -> round)
        (k : nat) :
  ignorable ev ignore_mode = false ->
  inserted entry_ptr = true ->
  (k < 256)%nat ->
  (forall j, (j < k)%nat -> continue_round (env j)) ->
  gates_open (env k) = true -> int_of_long (wait_ret (env k)) <= 0 ->
  exists pre,
    count_waits pre = Z.of_nat k /\ count_removes pre = 0 /\
    dynsec_wait_event_timeout msecs_to_jiffies (Some ev) (Some x) true
                              ignore_mode entry_ptr entry wait_timeout env =
    Some {| w_ret := 0;
            w_response :=
              Some (if response entry =? DYNSEC_RESPONSE_EPERM
                    then - EPERM else 0);
            w_trace :=
              Insert ::
              (pre ++ [Wait (timeout_of_pass msecs_to_jiffies wait_timeout
                                             env k);
                       RemoveEntry]) ++ [KfreeEntry] |}.
Proof.
  intros Hi Hins Hk Hall Hg Hw.
  destruct (do_stall_after_continues msecs_to_jiffies entry wait_timeout env
              0 k Hk Hall) as [l' [pre [Hcw [Hcr Heq]]]].
  rewrite retry_quiet_step in Heq by assumption.
  exists pre. split; [exact Hcw|]. split; [exact Hcr|].
  rewrite (wait_after_insert msecs_to_jiffies ev x ignore_mode entry_ptr entry
             wait_timeout env _ Hi Hins Heq).
  reflexivity.
Qed.

(** X5.  A gate found closed after [k] < 256 continuations, each of them a
    wake-up as [int wait_ret] has it, ends the stall at once: no further
    wait, [*response] stays 0 whatever the default is, and the entry is
    freed without a removal from the table. *)
Theorem gate_after_continues
        {K : dynsec_h} (msecs_to_jiffies : Z -> Z)
        (ev : dynsec_event) (x : Z) (ignore_mode : bool) (entry_ptr : Z)
        (entry : stall_entry) (wait_timeout : Z) (env : nat -> round)
        (k : nat) :
  ignorable ev ignore_mode = false ->
  inserted entry_ptr = true ->
  (k < 256)%nat ->
  (forall j, (j < k)%nat -> continue_round (env j)) ->
  gates_open (env k) = false ->
  exists r pre,
    do_stall_interruptible msecs_to_jiffies entry wait_timeout env 0 =
    Some r /\
    ret r = - ECHILD /\ trace r = pre /\
    count_waits pre = Z.of_nat k /\ count_removes pre = 0 /\
    dynsec_wait_event_timeout msecs_to_jiffies (Some ev) (Some x) true
                              ignore_mode entry_ptr entry wait_timeout env =
    Some {| w_ret := 0; w_response := Some 0;
            w_trace := Insert :: pre ++ [KfreeEntry] |}.
Proof.
  intros Hi Hins Hk Hall Hg.
  destruct (do_stall_after_continues msecs_to_jiffies entry wait_timeout env
              0 k Hk Hall) as [l' [pre [Hcw [Hcr Heq]]]].
  rewrite retry_gate_step in Heq by assumption.
  cbn [option_map] in Heq.
  eexists. exists pre. split; [exact Heq|].
  cbn [prepend gate_closed ret trace]. rewrite app_nil_r.
  repeat (split; [first [reflexivity|assumption]|]).
  rewrite (wait_after_insert msecs_to_jiffies ev x ignore_mode entry_ptr entry
             wait_timeout env _ Hi Hins Heq).
  cbn [prepend gate_closed out_response trace]. rewrite app_nil_r.
  reflexivity.
Qed.

(** X6.  With a non-NULL [response], the wrapper frees the event exactly
    when it returns a nonzero value, and frees a stall entry exactly when it
    returns 0 for an insertion that produced an entry. *)
Theorem event_freed_iff_error
        {K : dynsec_h} (msecs_to_jiffies : Z -> Z)
        (event : option dynsec_event) (x : Z) (tbl_on ignore_mode : bool)
        (entry_ptr : Z) (entry : stall_entry) (wait_timeout : Z)
        (env : nat -> round) :
  0 <= entry_ptr < 2 ^ 64 ->
  exists w,
    dynsec_wait_event_timeout msecs_to_jiffies event (Some x) tbl_on
                              ignore_mode entry_ptr entry wait_timeout env =
    Some w /\
    (existsb is_free_event (w_trace w) = true <-> w_ret w <> 0) /\
    (existsb is_kfree (w_trace w) = true <-> w_ret w = 0 /\ entry_ptr <> 0).
Proof.
  intros Hptr. unfold dynsec_wait_event_timeout.
  destruct event as [ev|].
  2:{ eexists; split; [reflexivity|]. cbn. unfold EINVAL.
      split; split; intros; try reflexivity; try lia; try discriminate. }
  destruct tbl_on; cbn [negb].
  2:{ eexists; split; [reflexivity|]. cbn. unfold EINVAL.
      split; split; intros; try reflexivity; try lia; try discriminate. }
  destruct (ignorable ev ignore_mode).
  { eexists; split; [reflexivity|]. cbn. unfold ECHILD.
    split; split; intros; try reflexivity; try lia; try discriminate. }
  destruct (IS_ERR entry_ptr) eqn:He.
  { eexists; split; [reflexivity|]. cbn. unfold PTR_ERR.
    split; split; intros; try reflexivity; try lia; try discriminate. }
  destruct (Z.eqb_spec entry_ptr 0) as [Hz|Hz]; cbn [negb].
  { eexists; split; [reflexivity|]. cbn.
    split; split; intros; try reflexivity; try lia; try discriminate. }
  destruct (do_stall_total msecs_to_jiffies entry wait_timeout env 0)
    as [r Hr].
  rewrite Hr. eexists; split; [reflexivity|].
  cbn [option_map w_ret w_trace].
  pose proof (retry_engine_actions msecs_to_jiffies env (response entry) 0
                _ _ _ _ _ _ Hr) as Hf.
  apply engine_trace_has_no_free in Hf as [Hf1 Hf2].
  cbn [existsb is_free_event is_kfree]. rewrite !existsb_app, Hf1, Hf2.
  cbn. split; split; intros; try reflexivity; try lia; try discriminate.
Qed.

(** X23.  The store into [int wait_ret] loses wake-ups: when a wait
    returns a positive [long] whose bit 31 is set (the jiffies left of a
    timeout of 2^31 jiffies or more), the engine takes the interrupt branch.
    The response in the entry is not read and the entry is not re-armed;
    the verdict is that of the entry's default response, whatever the agent
    answered. *)
Theorem long_wake_up_read_as_interrupt
        {K : dynsec_h} (msecs_to_jiffies : Z -> Z)
        (ev : dynsec_event) (x : Z) (ignore_mode : bool) (entry_ptr : Z)
        (entry : stall_entry) (wait_timeout : Z) (env : nat -> round)
        (k : nat) :
  ignorable ev ignore_mode = false ->
  inserted entry_ptr = true ->
  (k < 256)%nat ->
  (forall j, (j < k)%nat -> continue_round (env j)) ->
  gates_open (env k) = true ->
  0 < wait_ret (env k) ->
  2 ^ 31 <= wait_ret (env k) mod 2 ^ 32 ->
  exists pre,
    count_waits pre = Z.of_nat k /\ count_removes pre = 0 /\
    dynsec_wait_event_timeout msecs_to_jiffies (Some ev) (Some x) true
                              ignore_mode entry_ptr entry wait_timeout env =
    Some {| w_ret := 0;
            w_response :=
              Some (if response entry =? DYNSEC_RESPONSE_EPERM
                    then - EPERM else 0);
            w_trace :=
              Insert ::
              (pre ++ [Wait (timeout_of_pass msecs_to_jiffies wait_timeout
                                             env k);
                       RemoveEntry]) ++ [KfreeEntry] |}.
Proof.
  intros Hi Hins Hk Hall Hg Hpos Hhigh.
  assert (Hw : int_of_long (wait_ret (env k)) < 0).
  { rewrite int_of_long_high by exact Hhigh.
    pose proof (Z.mod_pos_bound (wait_ret (env k)) (2 ^ 32) ltac:(lia)).
    lia. }
  destruct (do_stall_after_continues msecs_to_jiffies entry wait_timeout env
              0 k Hk Hall) as [l' [pre [Hcw [Hcr Heq]]]].
  rewrite retry_quiet_step in Heq by (try assumption; lia).
  exists pre. split; [exact Hcw|]. split; [exact Hcr|].
  rewrite (wait_after_insert msecs_to_jiffies ev x ignore_mode entry_ptr entry
             wait_timeout env _ Hi Hins Heq).
  unfold quiet_path. apply Z.ltb_lt in Hw. rewrite Hw. reflexivity.
Qed.

(** * Further properties of the configuration request *)

Ltac split_ifs :=
  repeat match goal with
         | |- context [if ?b then _ else _] =>
           lazymatch b with
           | context [if _ then _ else _] => fail
           | _ => destruct b eqn:?
           end
         end.

Section IoctlMore.
Context {K : dynsec_h} {C : config_h}.
Variable stall_mode_enabled : Cfg.t -> bool.
Variable deny_on_timeout_enabled : Cfg.t -> bool.

(** A privileged request with a recognized flag is accepted. *)
Lemma handle_stall_ioc_accepts hdr cfg :
  Z.land (Hdr.flags hdr) recognized_flags <> 0 ->
  ioc_ret (handle_stall_ioc stall_mode_enabled deny_on_timeout_enabled
                            (Some hdr) true cfg) = 0.
Proof.
  intros Hf. unfold handle_stall_ioc. apply Z.eqb_neq in Hf. rewrite Hf.
  cbn [negb].
  destruct (if selected (Z.land (Hdr.flags hdr) recognized_flags)
                        DYNSEC_STALL_MODE_SET
            then apply_mode_set stall_mode_enabled hdr (cfg, [LockConfig])
            else (cfg, [LockConfig])).
  reflexivity.
Qed.

(** Stall mode, the deny default and the cache calls after a privileged
    request. *)
Lemma handle_stall_ioc_modes hdr cfg :
  let flags := Z.land (Hdr.flags hdr) recognized_flags in
  let res := handle_stall_ioc stall_mode_enabled deny_on_timeout_enabled
                              (Some hdr) true cfg in
  flags <> 0 ->
  ioc_trace res =
    LockConfig ::
    (if mode_toggled stall_mode_enabled hdr cfg
     then [TaskCacheClear; InodeCacheClear] else []) ++ [UnlockConfig] /\
  Cfg.stall_mode (ioc_config res) =
    (if mode_toggled stall_mode_enabled hdr cfg
     then (if stall_mode_enabled cfg then DEFAULT_DISABLED
           else DEFAULT_ENABLED)
     else Cfg.stall_mode cfg) /\
  (selected flags DYNSEC_STALL_DEFAULT_DENY = false ->
   Cfg.stall_timeout_deny (ioc_config res) = Cfg.stall_timeout_deny cfg).
Proof.
  intros flags res Hf. subst res. unfold handle_stall_ioc, mode_toggled.
  fold flags. apply Z.eqb_neq in Hf. rewrite Hf. cbn [negb].
  unfold apply_mode_set, apply_default_timeout, apply_continue_timeout,
    apply_default_deny.
  destruct (selected flags DYNSEC_STALL_MODE_SET);
    destruct (stall_mode_enabled cfg);
    destruct (Hdr.stall_mode hdr =? DEFAULT_DISABLED);
    destruct (selected flags DYNSEC_STALL_DEFAULT_TIMEOUT);
    destruct (selected flags DYNSEC_STALL_CONTINUE_TIMEOUT);
    destruct (selected flags DYNSEC_STALL_DEFAULT_DENY);
    cbn [andb negb fst snd app ioc_trace ioc_config];
    (split; [reflexivity|]); (split; [|intros; try discriminate]);
    split_ifs; reflexivity.
Qed.

End IoctlMore.

(** X7.  A NULL header or a flags word without any recognized bit is
    refused with -EINVAL before the capability is looked at, and bits outside
    the four recognized ones never matter: the request with its flags masked
    gives the same result. *)
Theorem unrecognized_bits_ignored
        {K : dynsec_h} {C : config_h}
        (stall_mode_enabled deny_on_timeout_enabled : Cfg.t -> bool)
        (hdr : Hdr.t) (capable : bool) (cfg : Cfg.t) :
  handle_stall_ioc stall_mode_enabled deny_on_timeout_enabled None capable cfg
  = {| ioc_ret := - EINVAL; ioc_config := cfg; ioc_trace := [] |} /\
  (Z.land (Hdr.flags hdr) recognized_flags = 0 ->
   handle_stall_ioc stall_mode_enabled deny_on_timeout_enabled (Some hdr)
                    capable cfg
   = {| ioc_ret := - EINVAL; ioc_config := cfg; ioc_trace := [] |}) /\
  handle_stall_ioc stall_mode_enabled deny_on_timeout_enabled
    (Some (with_flags (Z.land (Hdr.flags hdr) recognized_flags) hdr))
    capable cfg =
  handle_stall_ioc stall_mode_enabled deny_on_timeout_enabled (Some hdr)
                   capable cfg.
Proof.
  split; [reflexivity|]. split.
  - intros H0. unfold handle_stall_ioc. rewrite H0. reflexivity.
  - unfold handle_stall_ioc. cbn [with_flags Hdr.flags].
    rewrite <- Z.land_assoc, Z.land_diag. reflexivity.
Qed.

(** X8.  An accepted request that selects the default timeout stores the
    requested value clamped into [MIN_WAIT, MAX_WAIT]: the value itself when
    it is in range, the nearest bound otherwise. *)
Theorem default_timeout_clamped
        {K : dynsec_h} {C : config_h}
        (stall_mode_enabled deny_on_timeout_enabled : Cfg.t -> bool)
        (hdr : Hdr.t) (cfg : Cfg.t) :
  let flags := Z.land (Hdr.flags hdr) recognized_flags in
  let res := handle_stall_ioc stall_mode_enabled deny_on_timeout_enabled
                              (Some hdr) true cfg in
  MIN_WAIT_TIMEOUT_MS <= MAX_WAIT_TIMEOUT_MS ->
  selected flags DYNSEC_STALL_DEFAULT_TIMEOUT = true ->
  ioc_ret res = 0 /\
  MIN_WAIT_TIMEOUT_MS <= Cfg.stall_timeout (ioc_config res)
    <= MAX_WAIT_TIMEOUT_MS /\
  (Hdr.stall_timeout hdr < MIN_WAIT_TIMEOUT_MS ->
   Cfg.stall_timeout (ioc_config res) = MIN_WAIT_TIMEOUT_MS) /\
  (MIN_WAIT_TIMEOUT_MS <= Hdr.stall_timeout hdr <= MAX_WAIT_TIMEOUT_MS ->
   Cfg.stall_timeout (ioc_config res) = Hdr.stall_timeout hdr) /\
  (MAX_WAIT_TIMEOUT_MS < Hdr.stall_timeout hdr ->
   Cfg.stall_timeout (ioc_config res) = MAX_WAIT_TIMEOUT_MS).
Proof.
  intros flags res Hmm Hd.
  assert (Hf : flags <> 0).
  { intros H0. unfold selected in Hd. rewrite H0 in Hd. discriminate. }
  destruct (handle_stall_ioc_timeouts stall_mode_enabled
              deny_on_timeout_enabled hdr cfg Hf) as [H1 _].
  fold flags in H1. fold res in H1. rewrite Hd in H1.
  split; [apply handle_stall_ioc_accepts; exact Hf|].
  rewrite H1. repeat split; intros; lia.
Qed.

(** X9.  An accepted request that selects the continuation timeout stores
    the larger of the requested value and the current default timeout,
    capped at MAX_EXTENDED; when it also selects the default timeout, or the
    stored default timeout is in range, the two timeouts satisfy the range
    invariant afterwards. *)
Theorem continue_timeout_restores_order
        {K : dynsec_h} {C : config_h}
        (stall_mode_enabled deny_on_timeout_enabled : Cfg.t -> bool)
        (hdr : Hdr.t) (cfg : Cfg.t) :
  let flags := Z.land (Hdr.flags hdr) recognized_flags in
  let res := handle_stall_ioc stall_mode_enabled deny_on_timeout_enabled
                              (Some hdr) true cfg in
  MIN_WAIT_TIMEOUT_MS <= MAX_WAIT_TIMEOUT_MS <= MAX_EXTENDED_TIMEOUT_MS ->
  selected flags DYNSEC_STALL_CONTINUE_TIMEOUT = true ->
  selected flags DYNSEC_STALL_DEFAULT_TIMEOUT = true \/
  MIN_WAIT_TIMEOUT_MS <= Cfg.stall_timeout cfg <= MAX_WAIT_TIMEOUT_MS ->
  Cfg.stall_timeout_continue (ioc_config res) =
    Z.min MAX_EXTENDED_TIMEOUT_MS
          (Z.max (Hdr.stall_timeout_continue hdr)
                 (Cfg.stall_timeout (ioc_config res))) /\
  timeouts_in_range (ioc_config res).
Proof.
  intros flags res Hmm Hc Hd.
  assert (Hf : flags <> 0).
  { intros H0. unfold selected in Hc. rewrite H0 in Hc. discriminate. }
  destruct (handle_stall_ioc_timeouts stall_mode_enabled
              deny_on_timeout_enabled hdr cfg Hf) as [H1 H2].
  fold flags in H1, H2. fold res in H1, H2. rewrite Hc in H2.
  split; [exact H2|].
  unfold timeouts_in_range. rewrite H2.
  destruct (selected flags DYNSEC_STALL_DEFAULT_TIMEOUT).
  - rewrite H1. lia.
  - destruct Hd as [Hd|Hd]; [discriminate|]. rewrite H1. lia.
Qed.

(** X10.  An accepted request clears the task cache and the inode cache,
    between [lock_config] and [unlock_config], exactly when it switches
    stall mode; then the mode becomes DEFAULT_DISABLED if stalling was on
    and DEFAULT_ENABLED if it was off, and otherwise the mode field and the
    caches are left alone. *)
Theorem caches_cleared_iff_mode_switched
        {K : dynsec_h} {C : config_h}
        (stall_mode_enabled deny_on_timeout_enabled : Cfg.t -> bool)
        (hdr : Hdr.t) (cfg : Cfg.t) :
  let res := handle_stall_ioc stall_mode_enabled deny_on_timeout_enabled
                              (Some hdr) true cfg in
  Z.land (Hdr.flags hdr) recognized_flags <> 0 ->
  (mode_toggled stall_mode_enabled hdr cfg = true ->
   ioc_trace res =
     [LockConfig; TaskCacheClear; InodeCacheClear; UnlockConfig] /\
   Cfg.stall_mode (ioc_config res) =
     (if stall_mode_enabled cfg then DEFAULT_DISABLED else DEFAULT_ENABLED)) /\
  (mode_toggled stall_mode_enabled hdr cfg = false ->
   ioc_trace res = [LockConfig; UnlockConfig] /\
   Cfg.stall_mode (ioc_config res) = Cfg.stall_mode cfg).
Proof.
  intros res Hf.
  destruct (handle_stall_ioc_modes stall_mode_enabled
              deny_on_timeout_enabled hdr cfg Hf) as [H1 [H2 _]].
  fold res in H1, H2.
  split; intros Ht; rewrite Ht in H1, H2; split; assumption.
Qed.

(** X11.  Sending the same accepted request twice leaves the two timeouts
    as the first call set them. *)
Theorem timeouts_idempotent
        {K : dynsec_h} {C : config_h}
        (stall_mode_enabled deny_on_timeout_enabled : Cfg.t -> bool)
        (hdr : Hdr.t) (cfg : Cfg.t) :
  let once := ioc_config (handle_stall_ioc stall_mode_enabled
                            deny_on_timeout_enabled (Some hdr) true cfg) in
  let twice := ioc_config (handle_stall_ioc stall_mode_enabled
                             deny_on_timeout_enabled (Some hdr) true once) in
  Z.land (Hdr.flags hdr) recognized_flags <> 0 ->
  Cfg.stall_timeout twice = Cfg.stall_timeout once /\
  Cfg.stall_timeout_continue twice = Cfg.stall_timeout_continue once.
Proof.
  intros once twice Hf.
  destruct (handle_stall_ioc_timeouts stall_mode_enabled
              deny_on_timeout_enabled hdr cfg Hf) as [H1 H2].
  destruct (handle_stall_ioc_timeouts stall_mode_enabled
              deny_on_timeout_enabled hdr once Hf) as [H3 H4].
  fold once in H1, H2. fold twice in H3, H4.
  assert (Hst : Cfg.stall_timeout twice = Cfg.stall_timeout once).
  { rewrite H3, H1.
    destruct (selected (Z.land (Hdr.flags hdr) recognized_flags)
                       DYNSEC_STALL_DEFAULT_TIMEOUT); reflexivity. }
  split; [exact Hst|].
  destruct (selected (Z.land (Hdr.flags hdr) recognized_flags)
                     DYNSEC_STALL_CONTINUE_TIMEOUT); [|exact H4].
  rewrite H4, H2, Hst. reflexivity.
Qed.

(** X12.  An accepted request changes only the settings it selects: each
    of the four configuration fields whose flag is clear keeps its value. *)
Theorem unselected_settings_kept
        {K : dynsec_h} {C : config_h}
        (stall_mode_enabled deny_on_timeout_enabled : Cfg.t -> bool)
        (hdr : Hdr.t) (cfg : Cfg.t) :
  let flags := Z.land (Hdr.flags hdr) recognized_flags in
  let res := handle_stall_ioc stall_mode_enabled deny_on_timeout_enabled
                              (Some hdr) true cfg in
  flags <> 0 ->
  (selected flags DYNSEC_STALL_MODE_SET = false ->
   Cfg.stall_mode (ioc_config res) = Cfg.stall_mode cfg) /\
  (selected flags DYNSEC_STALL_DEFAULT_TIMEOUT = false ->
   Cfg.stall_timeout (ioc_config res) = Cfg.stall_timeout cfg) /\
  (selected flags DYNSEC_STALL_CONTINUE_TIMEOUT = false ->
   Cfg.stall_timeout_continue (ioc_config res) =
   Cfg.stall_timeout_continue cfg) /\
  (selected flags DYNSEC_STALL_DEFAULT_DENY = false ->
   Cfg.stall_timeout_deny (ioc_config res) = Cfg.stall_timeout_deny cfg).
Proof.
  intros flags res Hf.
  destruct (handle_stall_ioc_timeouts stall_mode_enabled
              deny_on_timeout_enabled hdr cfg Hf) as [H1 H2].
  destruct (handle_stall_ioc_modes stall_mode_enabled
              deny_on_timeout_enabled hdr cfg Hf) as [_ [H3 H4]].
  fold flags in H1, H2, H4. fold res in H1, H2, H3, H4.
  split; [|split; [|split]].
  - intros Hs. rewrite H3. unfold mode_toggled. fold flags. rewrite Hs.
    reflexivity.
  - intros Hs. rewrite H1, Hs. reflexivity.
  - intros Hs. rewrite H2, Hs. reflexivity.
  - exact H4.
Qed.

(** * Further properties of the hook adapters *)

Ltac unfold_adapters :=
  unfold Part_000.dynsec_inode_unlink, Part_000.dynsec_inode_rmdir,
    Part_000.dynsec_inode_rename, Part_000.dynsec_inode_mkdir,
    Part_000.dynsec_inode_create, Part_000.dynsec_inode_link,
    Part_000.dynsec_inode_symlink, Part_000.dynsec_task_free,
    Part_000.dynsec_sched_process_exit_tp,
    Part_000.dynsec_sched_process_free_tp;
  unfold Part_000.dynsec_bprm_set_creds, Part_000.unlink_like,
    Part_000.dynsec_inode_setattr, Part_000.create_like,
    Part_000.dynsec_file_open, Part_000.dynsec_file_free_security,
    Part_000.dynsec_ptrace_traceme, Part_000.dynsec_ptrace_access_check,
    Part_000.dynsec_task_kill, Part_000.dynsec_sched_process_fork_tp,
    Part_000.__dynsec_task_exit, Part_000.dynsec_mmap_file,
    Part_000.dynsec_wake_up_new_task;
  cbv zeta.

Ltac unfold_builders :=
  unfold Part_000.build_checked, Part_000.build_unchecked,
    Part_000.build_enqueue, Part_000.stall_or_enqueue.

Ltac split_options :=
  repeat match goal with
         | |- context [match ?x with Some _ => _ | None => _ end] =>
           destruct x
         end.

Ltac split_simple_ifs :=
  repeat match goal with
         | |- context [if ?b then _ else _] =>
           lazymatch b with
           | context [if _ then _ else _] => fail
           | _ => destruct b
           end
         end.

(** X14.  The adapters that the source marks as never stalling (close,
    ptrace, signal, fork, exit, new task) never call
    [dynsec_wait_event_timeout], whatever the flags and the configuration,
    and those with a return value hand back what the previously installed
    hook returned. *)
Theorem audit_only_adapters_never_wait {K : dynsec_h} {T : dynsec_hook_h} :
  (forall e m d, waited (Part_000.dynsec_file_free_security e m d) = false) /\
  (forall e, exists tr,
     Part_000.dynsec_ptrace_traceme e = Done (orig_ret e) tr /\
     waited tr = false) /\
  (forall e m c, exists tr,
     Part_000.dynsec_ptrace_access_check e m c = Done (orig_ret e) tr /\
     waited tr = false) /\
  (forall e sig, exists tr,
     Part_000.dynsec_task_kill e sig = Done (orig_ret e) tr /\
     waited tr = false) /\
  (forall e pc c,
     waited (Part_000.dynsec_sched_process_fork_tp e pc c) = false) /\
  (forall e t ht, waited (Part_000.__dynsec_task_exit e t ht) = false) /\
  (forall e pc p, waited (Part_000.dynsec_wake_up_new_task e pc p) = false).
Proof.
  repeat split; intros; unfold_adapters; unfold_builders;
    split_options; split_simple_ifs;
    first [reflexivity | eexists; split; reflexivity].
Qed.

(** X15.  With the stall table disabled no adapter of part_000 allocates,
    enqueues or waits: each returns at once, with the value of the
    previously installed hook where it has a return value. *)
Theorem disabled_table_silences_adapters
        {K : dynsec_h} {T : dynsec_hook_h} (e : hook_env) :
  stall_tbl_on e = false ->
  (forall b, Part_000.dynsec_bprm_set_creds e b = Done (orig_ret e) []) /\
  (forall et ht d, Part_000.unlink_like e et ht d = Done (orig_ret e) []) /\
  (forall d a, Part_000.dynsec_inode_setattr e d a = Done (orig_ret e) []) /\
  (forall et ht, Part_000.create_like e et ht = Done (orig_ret e) []) /\
  (forall m d, Part_000.dynsec_file_open e m d = Done (orig_ret e) []) /\
  (forall m d, Part_000.dynsec_file_free_security e m d = []) /\
  Part_000.dynsec_ptrace_traceme e = Done (orig_ret e) [] /\
  (forall m c, Part_000.dynsec_ptrace_access_check e m c =
               Done (orig_ret e) []) /\
  (forall sig, Part_000.dynsec_task_kill e sig = Done (orig_ret e) []) /\
  (forall pc c, Part_000.dynsec_sched_process_fork_tp e pc c = []) /\
  (forall t ht, Part_000.__dynsec_task_exit e t ht = []) /\
  (forall s f p fl x, Part_000.dynsec_mmap_file e s f p fl x =
                      Done (orig_ret e) []) /\
  (forall pc p, Part_000.dynsec_wake_up_new_task e pc p = []).
Proof.
  intros Hoff.
  repeat split; intros; unfold_adapters; rewrite Hoff; cbn [negb];
    split_options; split_simple_ifs; reflexivity.
Qed.

(** X16.  The stalling adapters of part_000 fail open.  The value returned
    is the verdict left in [response] exactly when
    [dynsec_wait_event_timeout] was called and returned 0, and the value of
    the previously installed hook otherwise, also when the wait returned an
    error; the wait is never called after a failed allocation or a failed
    fill, and an adapter that reads through the NULL event of a failed
    allocation has not waited. *)
Theorem stalling_adapters_fail_open
        {K : dynsec_h} {T : dynsec_hook_h} (e : hook_env) :
  (forall b, fails_open e (Part_000.dynsec_bprm_set_creds e b)) /\
  (forall et ht d, fails_open e (Part_000.unlink_like e et ht d)) /\
  (forall d a, fails_open e (Part_000.dynsec_inode_setattr e d a)) /\
  (forall et ht, fails_open e (Part_000.create_like e et ht)) /\
  (forall m d, fails_open e (Part_000.dynsec_file_open e m d)) /\
  (forall s f p fl x,
     fails_open e (Part_000.dynsec_mmap_file e s f p fl x)).
Proof.
  repeat split; intros; unfold_adapters; unfold_builders;
    split_options;
    destruct (Z.eqb_spec (orig_ret e) 0) as [Hret|Hret];
    cbn [negb];
    try (destruct (alloc_ok e) eqn:Ha; cbn [negb]);
    try (destruct (fill_ok e) eqn:Hf; cbn [negb]);
    try (destruct (wait_rc e =? 0) eqn:Hrc);
    repeat match goal with
           | |- context [if ?b then _ else _] =>
             lazymatch b with
             | context [if _ then _ else _] => fail
             | _ => destruct b
             end
           end;
    cbn [fails_open waited existsb is_wait app orb andb];
    rewrite ?Hrc, ?Hret; cbn [andb];
    repeat split; intros;
    first [reflexivity | assumption | discriminate | congruence].
Qed.

(** X17.  No adapter of part_000 allocates more than one event, and none
    hands an event off twice: an allocated event goes to exactly one of the
    wait, an enqueue function or [free_dynsec_event]. *)
Theorem events_handed_off_once
        {K : dynsec_h} {T : dynsec_hook_h} (e : hook_env) :
  (forall b, handed_off_once e
     (outcome_trace (Part_000.dynsec_bprm_set_creds e b))) /\
  (forall et ht d, handed_off_once e
     (outcome_trace (Part_000.unlink_like e et ht d))) /\
  (forall d a, handed_off_once e
     (outcome_trace (Part_000.dynsec_inode_setattr e d a))) /\
  (forall et ht, handed_off_once e
     (outcome_trace (Part_000.create_like e et ht))) /\
  (forall m d, handed_off_once e
     (outcome_trace (Part_000.dynsec_file_open e m d))) /\
  (forall m d, handed_off_once e
     (Part_000.dynsec_file_free_security e m d)) /\
  handed_off_once e (outcome_trace (Part_000.dynsec_ptrace_traceme e)) /\
  (forall m c, handed_off_once e
     (outcome_trace (Part_000.dynsec_ptrace_access_check e m c))) /\
  (forall sig, handed_off_once e
     (outcome_trace (Part_000.dynsec_task_kill e sig))) /\
  (forall pc c, handed_off_once e
     (Part_000.dynsec_sched_process_fork_tp e pc c)) /\
  (forall t ht, handed_off_once e (Part_000.__dynsec_task_exit e t ht)) /\
  (forall s f p fl x, handed_off_once e
     (outcome_trace (Part_000.dynsec_mmap_file e s f p fl x))) /\
  (forall pc p, handed_off_once e
     (Part_000.dynsec_wake_up_new_task e pc p)).
Proof.
  repeat match goal with |- _ /\ _ => split end; intros;
    unfold_adapters; unfold_builders; split_options;
    repeat match goal with
           | |- context [if ?b then _ else _] =>
             lazymatch b with
             | context [if _ then _ else _] => fail
             | negb (alloc_ok e) => fail
             | _ => destruct b
             end
           end;
    try (destruct (alloc_ok e) eqn:Ha; cbn [negb]);
    unfold handed_off_once, allocs, handoffs; cbn;
    repeat split; intros; try lia; try discriminate; congruence.
Qed.

(** X18.  The mode bits of the file do not reach the OPEN event:
    [dynsec_file_open] does the same for every [f_mode], so the
    FMODE_STREAM and FMODE_NONOTIFY tests that make the close adapter return
    early change nothing on open. *)
Theorem file_open_ignores_f_mode
        {K : dynsec_h} {T : dynsec_hook_h}
        (e : hook_env) (m m' : Z) (d : option inode) :
  Part_000.dynsec_file_open e m d = Part_000.dynsec_file_open e m' d /\
  (negb (Z.land m FMODE_STREAM =? 0) = true ->
   Part_000.dynsec_file_free_security e m d = []).
Proof.
  split; [reflexivity|].
  intros Hs. unfold Part_000.dynsec_file_free_security. rewrite Hs.
  destruct (Part_000.hook_off e DYNSEC_HOOK_TYPE_CLOSE); reflexivity.
Qed.

(** The mask is empty exactly when nothing would change. *)
Lemma drop_redundant_changes m ino attr :
  0 <= m < 16 ->
  (drop_redundant m ino attr =? 0) =
  negb (negb (Z.land m ATTR_MODE =? 0) && negb (ia_mode attr =? i_mode ino)
        || negb (Z.land m ATTR_UID =? 0) && negb (ia_uid attr =? i_uid ino)
        || negb (Z.land m ATTR_GID =? 0) && negb (ia_gid attr =? i_gid ino)
        || negb (Z.land m ATTR_SIZE =? 0) && (ia_size attr =? 0)
           && negb (i_size ino =? 0)).
Proof.
  intros Hm. unfold drop_redundant. apply sixteen in Hm.
  repeat (destruct Hm as [->|Hm]); try subst m; cbn;
    destruct (ia_mode attr =? i_mode ino);
    destruct (ia_uid attr =? i_uid ino);
    destruct (ia_gid attr =? i_gid ino);
    destruct (Z.eqb_spec (ia_size attr) 0) as [Hz|Hz]; cbn;
    try reflexivity;
    rewrite ?Hz, ?(Z.eqb_sym 0 (i_size ino));
    try (destruct (i_size ino =? 0)); reflexivity.
Qed.

(** X19.  [dynsec_inode_setattr] builds a SETATTR event exactly for a real
    change: with the hook and the stall table enabled and no refusal by a
    previously installed hook, an event is allocated if and only if some
    selected field among mode, uid and gid differs from the inode's or a
    non-empty file is truncated to size 0. *)
Theorem setattr_event_iff_change
        {K : dynsec_h} {T : dynsec_hook_h}
        (e : hook_env) (ino : inode) (attr : iattr) :
  orig_ret e = 0 ->
  Part_000.hook_off e DYNSEC_HOOK_TYPE_SETATTR = false ->
  stall_tbl_on e = true ->
  (changes_inode ino attr = false ->
   Part_000.dynsec_inode_setattr e (Some (Some ino)) (Some attr) =
   Done 0 []) /\
  (changes_inode ino attr = true ->
   exists rest,
     outcome_trace
       (Part_000.dynsec_inode_setattr e (Some (Some ino)) (Some attr)) =
     AllocEvent DYNSEC_EVENT_TYPE_SETATTR DYNSEC_HOOK_TYPE_SETATTR
                (Part_000.self_or_stall e (u16 DYNSEC_REPORT_AUDIT))
     :: FillIn :: rest).
Proof.
  intros Ho Hh Ht.
  assert (Hmask : (Part_000.setattr_mask ino attr =? 0) =
                  negb (changes_inode ino attr)).
  { destruct (setattr_mask_cases ino attr)
      as [m [Hm [H1 [H2 [H3 [H4 ->]]]]]].
    unfold changes_inode. rewrite <- H1, <- H2, <- H3, <- H4.
    apply drop_redundant_changes. exact Hm. }
  unfold Part_000.dynsec_inode_setattr. cbv zeta.
  rewrite Ho, Hh, Ht, Hmask. cbn [negb Z.eqb].
  split; intros Hc; rewrite Hc; cbn [negb].
  - reflexivity.
  - unfold Part_000.build_unchecked, Part_000.stall_or_enqueue.
    split_simple_ifs; eexists; reflexivity.
Qed.

Section StallDecision.
Context {K : dynsec_h}.

Lemma audit_has_no_stall :
  Z.land DYNSEC_REPORT_AUDIT DYNSEC_REPORT_STALL = 0 ->
  Z.land (u16 DYNSEC_REPORT_AUDIT) DYNSEC_REPORT_STALL = 0.
Proof. intros H. mask_bits. Qed.

(** Flags that went through [report_flags |= STALL] are waited on. *)
Lemma stall_or_enqueue_stalls e ret0 x enq tr :
  0 < DYNSEC_REPORT_STALL < 2 ^ 16 ->
  Part_000.stall_or_enqueue e ret0
    (alloc_dynsec_event (u16 (Z.lor x DYNSEC_REPORT_STALL))) enq tr =
  Done (if wait_rc e =? 0 then wait_response e else ret0) (tr ++ [WaitEvent]).
Proof.
  intros Hs. unfold Part_000.stall_or_enqueue.
  cbn [alloc_dynsec_event report_flags].
  rewrite stall_bit_kept by lia.
  destruct (Z.eqb_spec DYNSEC_REPORT_STALL 0); [lia|reflexivity].
Qed.

(** AUDIT alone is enqueued. *)
Lemma stall_or_enqueue_audits e ret0 enq tr :
  Z.land DYNSEC_REPORT_AUDIT DYNSEC_REPORT_STALL = 0 ->
  Part_000.stall_or_enqueue e ret0
    (alloc_dynsec_event (u16 DYNSEC_REPORT_AUDIT)) enq tr =
  Done ret0 (tr ++ [enq]).
Proof.
  intros Hd. unfold Part_000.stall_or_enqueue.
  cbn [alloc_dynsec_event report_flags].
  rewrite audit_has_no_stall by exact Hd. reflexivity.
Qed.

End StallDecision.

(** X20.  The mmap policy for a task outside the agent, on an executable
    mapping with the stall table on and a successful allocation: a misc
    mapping is dropped when neither stalling nor reporting of misc mappings
    is set; a mapping is stalled for an exec mapping when
    [mmap_stall_on_exec] is set and MAP_EXECUTABLE is requested or when
    [mmap_stall_on_ldso] is set, and for a misc mapping when
    [mmap_stall_misc] is set; every other mapping is enqueued, exec mappings
    on the normal queue and misc mappings on the low-priority queue. *)
Theorem mmap_policy
        {K : dynsec_h} {T : dynsec_hook_h}
        (e : hook_env) (s : Part_000.mmap_settings) (file : option Z)
        (prot flags : Z) (in_execve : bool) :
  0 < DYNSEC_REPORT_STALL < 2 ^ 16 ->
  Z.land DYNSEC_REPORT_AUDIT DYNSEC_REPORT_STALL = 0 ->
  orig_ret e = 0 ->
  Z.land prot PROT_EXEC <> 0 ->
  stall_tbl_on e = true ->
  in_connected_tgid e = false ->
  alloc_ok e = true -> fill_ok e = true ->
  Part_000.dynsec_mmap_file e s file prot flags in_execve =
  if mmap_unreported s file in_execve then Done 0 []
  else if mmap_stalls s file flags in_execve then
    Done (if wait_rc e =? 0 then wait_response e else 0)
         [AllocEvent DYNSEC_EVENT_TYPE_MMAP DYNSEC_HOOK_TYPE_MMAP
                     (u16 (Z.lor (u16 DYNSEC_REPORT_AUDIT)
                                 DYNSEC_REPORT_STALL));
          FillIn; WaitEvent]
  else
    Done 0
         [AllocEvent DYNSEC_EVENT_TYPE_MMAP DYNSEC_HOOK_TYPE_MMAP
                     (u16 DYNSEC_REPORT_AUDIT);
          FillIn;
          if exec_mapping file in_execve then Enqueue else EnqueueLowPri].
Proof.
  intros Hs Hd Ho Hp Ht Hc Ha Hf.
  unfold Part_000.dynsec_mmap_file, mmap_unreported, mmap_stalls.
  cbv zeta. apply Z.eqb_neq in Hp. rewrite Ho, Hp, Ht. cbn [negb Z.eqb].
  cbv iota.
  fold (exec_mapping file in_execve).
  unfold Part_000.build_unchecked, Part_000.self_clears_stall.
  rewrite Hc, Ha, Hf. cbn [negb]. cbv iota.
  rewrite <- (Z.land_assoc flags).
  change (Z.land (Z.lor MAP_DENYWRITE MAP_EXECUTABLE) MAP_EXECUTABLE)
    with MAP_EXECUTABLE.
  destruct (exec_mapping file in_execve); cbn [negb andb].
  - destruct (Part_000.mmap_stall_on_exec s =? 0); cbn [negb andb orb].
    + destruct (Part_000.mmap_stall_on_ldso s =? 0); cbn [negb].
      * rewrite stall_or_enqueue_audits by exact Hd. reflexivity.
      * rewrite stall_or_enqueue_stalls by exact Hs. reflexivity.
    + destruct (Z.land flags MAP_EXECUTABLE =? 0); cbn [negb orb].
      * destruct (Part_000.mmap_stall_on_ldso s =? 0); cbn [negb].
        -- rewrite stall_or_enqueue_audits by exact Hd. reflexivity.
        -- rewrite stall_or_enqueue_stalls by exact Hs. reflexivity.
      * rewrite stall_or_enqueue_stalls by exact Hs. reflexivity.
  - destruct (Part_000.mmap_stall_misc s =? 0); cbn [negb andb].
    + destruct (Part_000.mmap_report_misc s =? 0); cbn [negb].
      * reflexivity.
      * rewrite stall_or_enqueue_audits by exact Hd. reflexivity.
    + rewrite stall_or_enqueue_stalls by exact Hs. reflexivity.
Qed.

(** X21.  The two revisions of the exec, unlink, rmdir and rename adapters
    agree whenever the hook is enabled in [lsm_hooks_enabled] and the queue
    accepted the event (the enqueue returned a nonzero size): part_000 only
    adds the hook mask test and drops the free after a rejected enqueue. *)
Theorem revisions_agree
        {K : dynsec_h} {T : dynsec_hook_h} (e : hook_env) :
  u32 (enqueue_size e) <> 0 ->
  (forall b,
     Part_000.hook_off e DYNSEC_HOOK_TYPE_EXEC = false ->
     Part_000.dynsec_bprm_set_creds e b = Hooks_c.dynsec_bprm_set_creds e b) /\
  (forall d,
     Part_000.hook_off e DYNSEC_HOOK_TYPE_UNLINK = false ->
     Part_000.dynsec_inode_unlink e d = Hooks_c.dynsec_inode_unlink e d) /\
  (forall d,
     Part_000.hook_off e DYNSEC_HOOK_TYPE_RMDIR = false ->
     Part_000.dynsec_inode_rmdir e d = Hooks_c.dynsec_inode_rmdir e d) /\
  (forall d,
     Part_000.hook_off e DYNSEC_HOOK_TYPE_RENAME = false ->
     Part_000.dynsec_inode_rename e d = Hooks_c.dynsec_inode_rename e d).
Proof.
  intros Hq. apply Z.eqb_neq in Hq.
  repeat split; intros; unfold_adapters;
    unfold Hooks_c.dynsec_inode_unlink, Hooks_c.dynsec_inode_rmdir,
      Hooks_c.dynsec_inode_rename, Hooks_c.dynsec_bprm_set_creds,
      Hooks_c.unlink_like, Hooks_c.build, Hooks_c.self_or_stall,
      Part_000.self_or_stall;
    unfold_builders; cbv zeta;
    cbn [alloc_dynsec_event report_flags];
    match goal with H : Part_000.hook_off _ _ = false |- _ => rewrite H end;
    rewrite Hq; split_options;
    destruct (orig_ret e =? 0); destruct (stall_tbl_on e);
    destruct (in_connected_tgid e); destruct (alloc_ok e);
    destruct (fill_ok e); cbn [negb];
    split_simple_ifs; reflexivity.
Qed.

(** X22.  An operation of a task outside the agent that passes the
    adapter's filters is stalled: exec, unlink/rmdir/rename of a symlink,
    regular file or directory, a setattr that changes something,
    mkdir/create/link/symlink and the open of a regular file each allocate
    one event, wait on it and return the verdict of the wait. *)
Theorem other_tasks_are_stalled
        {K : dynsec_h} {T : dynsec_hook_h} (e : hook_env) :
  0 < DYNSEC_REPORT_STALL < 2 ^ 16 ->
  stalls_for e ->
  (Part_000.hook_off e DYNSEC_HOOK_TYPE_EXEC = false ->
   exists flags,
     Part_000.dynsec_bprm_set_creds e true =
     Done (verdict_of e)
          [AllocEvent DYNSEC_EVENT_TYPE_EXEC DYNSEC_HOOK_TYPE_EXEC flags;
           FillIn; WaitEvent]) /\
  (forall et ht ino,
     Part_000.hook_off e ht = false -> reportable ino = true ->
     exists flags,
       Part_000.unlink_like e et ht (Some ino) =
       Done (verdict_of e) [AllocEvent et ht flags; FillIn; WaitEvent]) /\
  (forall ino attr,
     Part_000.hook_off e DYNSEC_HOOK_TYPE_SETATTR = false ->
     changes_inode ino attr = true ->
     exists flags,
       Part_000.dynsec_inode_setattr e (Some (Some ino)) (Some attr) =
       Done (verdict_of e)
            [AllocEvent DYNSEC_EVENT_TYPE_SETATTR DYNSEC_HOOK_TYPE_SETATTR
                        flags; FillIn; WaitEvent]) /\
  (forall et ht,
     Part_000.hook_off e ht = false ->
     exists flags,
       Part_000.create_like e et ht =
       Done (verdict_of e) [AllocEvent et ht flags; FillIn; WaitEvent]) /\
  (forall m ino,
     Part_000.hook_off e DYNSEC_HOOK_TYPE_OPEN = false ->
     S_ISREG (i_mode ino) = true ->
     exists flags,
       Part_000.dynsec_file_open e m (Some ino) =
       Done (verdict_of e)
            [AllocEvent DYNSEC_EVENT_TYPE_OPEN DYNSEC_HOOK_TYPE_OPEN flags;
             FillIn; WaitEvent]).
Proof.
  intros Hs [Ho [Ht [Hc [Ha Hf]]]].
  assert (Hchk : forall et ht x,
             Part_000.build_checked e 0 et ht
               (u16 (Z.lor x DYNSEC_REPORT_STALL)) =
             Done (verdict_of e)
                  [AllocEvent et ht (u16 (Z.lor x DYNSEC_REPORT_STALL));
                   FillIn; WaitEvent]).
  { intros. unfold Part_000.build_checked. rewrite Ha, Hf. cbn [negb].
    rewrite stall_or_enqueue_stalls by exact Hs. reflexivity. }
  assert (Hun : forall et ht x enq,
             Part_000.build_unchecked e 0 et ht
               (u16 (Z.lor x DYNSEC_REPORT_STALL)) enq =
             Done (verdict_of e)
                  [AllocEvent et ht (u16 (Z.lor x DYNSEC_REPORT_STALL));
                   FillIn; WaitEvent]).
  { intros. unfold Part_000.build_unchecked. rewrite Ha, Hf. cbn [negb].
    rewrite stall_or_enqueue_stalls by exact Hs. reflexivity. }
  split; [|split; [|split; [|split]]].
  - intros Hh. eexists. unfold Part_000.dynsec_bprm_set_creds. cbv zeta.
    unfold Part_000.self_or_stall. rewrite Ho, Hh, Ht, Hc. cbn [negb Z.eqb].
    apply Hchk.
  - intros et ht ino Hh Hr. eexists. unfold Part_000.unlink_like. cbv zeta.
    unfold Part_000.self_or_stall. unfold reportable in Hr.
    rewrite Ho, Hh, Ht, Hc, Hr. cbn [negb Z.eqb]. apply Hchk.
  - intros ino attr Hh Hch. eexists.
    assert (Hmask : (Part_000.setattr_mask ino attr =? 0) = false).
    { destruct (setattr_mask_cases ino attr)
        as [m [Hm [H1 [H2 [H3 [H4 ->]]]]]].
      rewrite drop_redundant_changes by exact Hm.
      rewrite H1, H2, H3, H4. fold (changes_inode ino attr).
      rewrite Hch. reflexivity. }
    unfold Part_000.dynsec_inode_setattr. cbv zeta.
    unfold Part_000.self_or_stall.
    rewrite Ho, Hh, Ht, Hc, Hmask. cbn [negb Z.eqb]. apply Hun.
  - intros et ht Hh. eexists. unfold Part_000.create_like. cbv zeta.
    unfold Part_000.self_or_stall. rewrite Ho, Hh, Ht, Hc. cbn [negb Z.eqb].
    apply Hun.
  - intros m ino Hh Hr. eexists. unfold Part_000.dynsec_file_open. cbv zeta.
    unfold Part_000.file_open_flags, Part_000.self_clears_stall. cbv zeta.
    rewrite Ho, Hh, Ht, Hc, Hr. cbn [negb Z.eqb].
    change (u16 DYNSEC_REPORT_STALL)
      with (u16 (Z.lor 0 DYNSEC_REPORT_STALL)).
    apply Hun.
Qed.

(** * Runs of the further properties *)



Lemma answer_after_continues_witness :
  exists pre,
    count_waits pre = 1 /\ count_removes pre = 0 /\
    dynsec_wait_event_timeout (K := run_dynsec_h) one_jiffy_per_ms
      (Some stalling_event) (Some 7) true false 4096
      (fresh_entry (K := run_dynsec_h) false) 1000 continue_then_deny =
    Some {| w_ret := 0; w_response := Some (- EPERM);
            w_trace := Insert :: (pre ++ [Wait 2000; Rearm; RemoveEntry])
                              ++ [KfreeEntry] |}.
Proof.
  assert (H1 : ignorable (K := run_dynsec_h) stalling_event false = false)
    by reflexivity.
  assert (H2 : inserted 4096 = true) by reflexivity.
  assert (H3 : (1 < 256)%nat) by lia.
  assert (H4 : forall j, (j < 1)%nat ->
                 continue_round (K := run_dynsec_h) (continue_then_deny j)).
  { intros j Hj. assert (j = 0%nat) as -> by lia.
    unfold continue_round. simpl. repeat split; reflexivity. }
  assert (H5 : gates_open (continue_then_deny 1) = true) by reflexivity.
  assert (H6 : 0 < int_of_long (wait_ret (continue_then_deny 1)))
    by reflexivity.
  assert (H7 : response (entry_now (continue_then_deny 1)) <>
               @DYNSEC_RESPONSE_CONTINUE run_dynsec_h)
    by (simpl; lia).
  exact (@answer_after_continues run_dynsec_h one_jiffy_per_ms
           stalling_event 7 false 4096 (fresh_entry (K := run_dynsec_h) false)
           1000 continue_then_deny 1%nat H1 H2 H3 H4 H5 H6 H7).
Defined.

Lemma quiet_after_continues_witness :
  exists pre,
    count_waits pre = 1 /\ count_removes pre = 0 /\
    dynsec_wait_event_timeout (K := run_dynsec_h) one_jiffy_per_ms
      (Some stalling_event) (Some 7) true false 4096
      (fresh_entry (K := run_dynsec_h) true) 1000 continue_then_silence =
    Some {| w_ret := 0; w_response := Some (- EPERM);
            w_trace := Insert :: (pre ++ [Wait 2000; RemoveEntry])
                              ++ [KfreeEntry] |}.
Proof.
  assert (H1 : ignorable (K := run_dynsec_h) stalling_event false = false)
    by reflexivity.
  assert (H2 : inserted 4096 = true) by reflexivity.
  assert (H3 : (1 < 256)%nat) by lia.
  assert (H4 : forall j, (j < 1)%nat ->
                 continue_round (K := run_dynsec_h) (continue_then_silence j)).
  { intros j Hj. assert (j = 0%nat) as -> by lia.
    unfold continue_round. simpl. repeat split; reflexivity. }
  assert (H5 : gates_open (continue_then_silence 1) = true) by reflexivity.
  assert (H6 : int_of_long (wait_ret (continue_then_silence 1)) <= 0)
    by (vm_compute; discriminate).
  exact (@quiet_after_continues run_dynsec_h one_jiffy_per_ms
           stalling_event 7 false 4096 (fresh_entry (K := run_dynsec_h) true)
           1000 continue_then_silence 1%nat H1 H2 H3 H4 H5 H6).
Defined.

Lemma gate_after_continues_witness :
  exists r pre,
    do_stall_interruptible (K := run_dynsec_h) one_jiffy_per_ms
      (fresh_entry (K := run_dynsec_h) true) 1000 continue_then_bypass 0 =
    Some r /\
    ret r = - ECHILD /\ trace r = pre /\
    count_waits pre = 1 /\ count_removes pre = 0 /\
    dynsec_wait_event_timeout (K := run_dynsec_h) one_jiffy_per_ms
      (Some stalling_event) (Some 7) true false 4096
      (fresh_entry (K := run_dynsec_h) true) 1000 continue_then_bypass =
    Some {| w_ret := 0; w_response := Some 0;
            w_trace := Insert :: pre ++ [KfreeEntry] |}.
Proof.
  assert (H1 : ignorable (K := run_dynsec_h) stalling_event false = false)
    by reflexivity.
  assert (H2 : inserted 4096 = true) by reflexivity.
  assert (H3 : (1 < 256)%nat) by lia.
  assert (H4 : forall j, (j < 1)%nat ->
                 continue_round (K := run_dynsec_h) (continue_then_bypass j)).
  { intros j Hj. assert (j = 0%nat) as -> by lia.
    unfold continue_round. simpl. repeat split; reflexivity. }
  assert (H5 : gates_open (continue_then_bypass 1) = false) by reflexivity.
  exact (@gate_after_continues run_dynsec_h one_jiffy_per_ms
           stalling_event 7 false 4096 (fresh_entry (K := run_dynsec_h) true)
           1000 continue_then_bypass 1%nat H1 H2 H3 H4 H5).
Defined.

Lemma event_freed_iff_error_witness :
  0 <= 2 ^ 64 - 12 < 2 ^ 64 /\
  exists w,
    dynsec_wait_event_timeout (K := run_dynsec_h) one_jiffy_per_ms
      (Some stalling_event) (Some 7) true false (2 ^ 64 - 12)
      (fresh_entry (K := run_dynsec_h) true) 1000
      (never_answered (K := run_dynsec_h)) = Some w /\
    (existsb is_free_event (w_trace w) = true <-> w_ret w <> 0) /\
    (existsb is_kfree (w_trace w) = true <->
     w_ret w = 0 /\ 2 ^ 64 - 12 <> 0).
Proof.
  assert (H1 : 0 <= 2 ^ 64 - 12 < 2 ^ 64) by lia.
  split; [assumption|].
  exact (@event_freed_iff_error run_dynsec_h one_jiffy_per_ms
           (Some stalling_event) 7 true false (2 ^ 64 - 12)
           (fresh_entry (K := run_dynsec_h) true) 1000
           (never_answered (K := run_dynsec_h)) H1).
Defined.

Lemma unrecognized_bits_ignored_witness :
  Z.land (Hdr.flags (with_flags 16 raise_default_timeout))
         (recognized_flags (K := run_dynsec_h)) = 0 /\
  handle_stall_ioc (K := run_dynsec_h) (C := run_config_h)
    mode_reader deny_reader (Some (with_flags 16 raise_default_timeout))
    true cfg_before =
  {| ioc_ret := - EINVAL; ioc_config := cfg_before; ioc_trace := [] |}.
Proof.
  assert (H1 : Z.land (Hdr.flags (with_flags 16 raise_default_timeout))
                      (recognized_flags (K := run_dynsec_h)) = 0)
    by reflexivity.
  split; [assumption|].
  exact (proj1 (proj2 (@unrecognized_bits_ignored run_dynsec_h run_config_h
                         mode_reader deny_reader
                         (with_flags 16 raise_default_timeout) true
                         cfg_before)) H1).
Defined.

Lemma default_timeout_clamped_witness :
  @MIN_WAIT_TIMEOUT_MS run_config_h <= @MAX_WAIT_TIMEOUT_MS run_config_h /\
  selected (Z.land (Hdr.flags both_timeouts)
                   (recognized_flags (K := run_dynsec_h)))
           (@DYNSEC_STALL_DEFAULT_TIMEOUT run_dynsec_h) = true /\
  Cfg.stall_timeout
    (ioc_config (handle_stall_ioc (K := run_dynsec_h) (C := run_config_h)
                   mode_reader deny_reader (Some both_timeouts) true
                   cfg_before)) = 1000.
Proof.
  assert (H1 : @MIN_WAIT_TIMEOUT_MS run_config_h
               <= @MAX_WAIT_TIMEOUT_MS run_config_h) by (simpl; lia).
  assert (H2 : selected (Z.land (Hdr.flags both_timeouts)
                                (recognized_flags (K := run_dynsec_h)))
                        (@DYNSEC_STALL_DEFAULT_TIMEOUT run_dynsec_h) = true)
    by reflexivity.
  assert (H3 : Hdr.stall_timeout both_timeouts
               < @MIN_WAIT_TIMEOUT_MS run_config_h) by (simpl; lia).
  repeat (split; [assumption|]).
  exact (proj1 (proj2 (proj2 (@default_timeout_clamped run_dynsec_h
                                run_config_h mode_reader deny_reader
                                both_timeouts cfg_before H1 H2))) H3).
Defined.

Lemma continue_timeout_restores_order_witness :
  @MIN_WAIT_TIMEOUT_MS run_config_h <= @MAX_WAIT_TIMEOUT_MS run_config_h
    <= @MAX_EXTENDED_TIMEOUT_MS run_config_h /\
  selected (Z.land (Hdr.flags both_timeouts)
                   (recognized_flags (K := run_dynsec_h)))
           (@DYNSEC_STALL_CONTINUE_TIMEOUT run_dynsec_h) = true /\
  timeouts_in_range (C := run_config_h)
    (ioc_config (handle_stall_ioc (K := run_dynsec_h) (C := run_config_h)
                   mode_reader deny_reader (Some both_timeouts) true
                   cfg_before)).
Proof.
  assert (H1 : @MIN_WAIT_TIMEOUT_MS run_config_h
               <= @MAX_WAIT_TIMEOUT_MS run_config_h
               <= @MAX_EXTENDED_TIMEOUT_MS run_config_h) by (simpl; lia).
  assert (H2 : selected (Z.land (Hdr.flags both_timeouts)
                                (recognized_flags (K := run_dynsec_h)))
                        (@DYNSEC_STALL_CONTINUE_TIMEOUT run_dynsec_h) = true)
    by reflexivity.
  assert (H3 : selected (Z.land (Hdr.flags both_timeouts)
                                (recognized_flags (K := run_dynsec_h)))
                        (@DYNSEC_STALL_DEFAULT_TIMEOUT run_dynsec_h) = true \/
               @MIN_WAIT_TIMEOUT_MS run_config_h
               <= Cfg.stall_timeout cfg_before
               <= @MAX_WAIT_TIMEOUT_MS run_config_h)
    by (left; reflexivity).
  repeat (split; [assumption|]).
  exact (proj2 (@continue_timeout_restores_order run_dynsec_h run_config_h
                  mode_reader deny_reader both_timeouts cfg_before
                  H1 H2 H3)).
Defined.

Lemma caches_cleared_iff_mode_switched_witness :
  Z.land (Hdr.flags disable_stalling)
         (recognized_flags (K := run_dynsec_h)) <> 0 /\
  mode_toggled (K := run_dynsec_h) (C := run_config_h) mode_reader
               disable_stalling cfg_before = true /\
  ioc_trace (handle_stall_ioc (K := run_dynsec_h) (C := run_config_h)
               mode_reader deny_reader (Some disable_stalling) true
               cfg_before) =
    [LockConfig; TaskCacheClear; InodeCacheClear; UnlockConfig] /\
  Cfg.stall_mode
    (ioc_config (handle_stall_ioc (K := run_dynsec_h) (C := run_config_h)
                   mode_reader deny_reader (Some disable_stalling) true
                   cfg_before)) =
    (if mode_reader cfg_before then @DEFAULT_DISABLED run_config_h
     else @DEFAULT_ENABLED run_config_h).
Proof.
  assert (H1 : Z.land (Hdr.flags disable_stalling)
                      (recognized_flags (K := run_dynsec_h)) <> 0)
    by (vm_compute; discriminate).
  assert (H2 : mode_toggled (K := run_dynsec_h) (C := run_config_h)
                            mode_reader disable_stalling cfg_before = true)
    by reflexivity.
  repeat (split; [assumption|]).
  exact (proj1 (@caches_cleared_iff_mode_switched run_dynsec_h run_config_h
                  mode_reader deny_reader disable_stalling cfg_before H1)
               H2).
Defined.

Lemma timeouts_idempotent_witness :
  Z.land (Hdr.flags both_timeouts)
         (recognized_flags (K := run_dynsec_h)) <> 0 /\
  Cfg.stall_timeout
    (ioc_config
       (handle_stall_ioc (K := run_dynsec_h) (C := run_config_h)
          mode_reader deny_reader (Some both_timeouts) true
          (ioc_config
             (handle_stall_ioc (K := run_dynsec_h) (C := run_config_h)
                mode_reader deny_reader (Some both_timeouts) true
                cfg_before)))) =
  Cfg.stall_timeout
    (ioc_config
       (handle_stall_ioc (K := run_dynsec_h) (C := run_config_h)
          mode_reader deny_reader (Some both_timeouts) true cfg_before)).
Proof.
  assert (H1 : Z.land (Hdr.flags both_timeouts)
                      (recognized_flags (K := run_dynsec_h)) <> 0)
    by (vm_compute; discriminate).
  split; [assumption|].
  exact (proj1 (@timeouts_idempotent run_dynsec_h run_config_h
                  mode_reader deny_reader both_timeouts cfg_before H1)).
Defined.

Lemma unselected_settings_kept_witness :
  Z.land (Hdr.flags both_timeouts)
         (recognized_flags (K := run_dynsec_h)) <> 0 /\
  selected (Z.land (Hdr.flags both_timeouts)
                   (recognized_flags (K := run_dynsec_h)))
           (@DYNSEC_STALL_MODE_SET run_dynsec_h) = false /\
  Cfg.stall_mode
    (ioc_config (handle_stall_ioc (K := run_dynsec_h) (C := run_config_h)
                   mode_reader deny_reader (Some both_timeouts) true
                   cfg_before)) = Cfg.stall_mode cfg_before.
Proof.
  assert (H1 : Z.land (Hdr.flags both_timeouts)
                      (recognized_flags (K := run_dynsec_h)) <> 0)
    by (vm_compute; discriminate).
  assert (H2 : selected (Z.land (Hdr.flags both_timeouts)
                                (recognized_flags (K := run_dynsec_h)))
                        (@DYNSEC_STALL_MODE_SET run_dynsec_h) = false)
    by reflexivity.
  repeat (split; [assumption|]).
  exact (proj1 (@unselected_settings_kept run_dynsec_h run_config_h
                  mode_reader deny_reader both_timeouts cfg_before H1) H2).
Defined.

Lemma agent_is_never_stalled_witness :
  in_connected_tgid agent_exec_queue_full = true /\
  Z.land (@DYNSEC_REPORT_AUDIT run_dynsec_h)
         (@DYNSEC_REPORT_STALL run_dynsec_h) = 0 /\
  Z.land (@DYNSEC_REPORT_SELF run_dynsec_h)
         (@DYNSEC_REPORT_STALL run_dynsec_h) = 0 /\
  waited (outcome_trace
            (Part_000.dynsec_bprm_set_creds (K := run_dynsec_h)
               (T := run_dynsec_hook_h) agent_exec_queue_full true)) = false.
Proof.
  assert (H1 : in_connected_tgid agent_exec_queue_full = true) by reflexivity.
  assert (H2 : Z.land (@DYNSEC_REPORT_AUDIT run_dynsec_h)
                      (@DYNSEC_REPORT_STALL run_dynsec_h) = 0) by reflexivity.
  assert (H3 : Z.land (@DYNSEC_REPORT_SELF run_dynsec_h)
                      (@DYNSEC_REPORT_STALL run_dynsec_h) = 0) by reflexivity.
  repeat (split; [assumption|]).
  exact (proj1 (@agent_is_never_stalled run_dynsec_h run_dynsec_hook_h
                  agent_exec_queue_full H1 H2 H3) true).
Defined.

Lemma disabled_table_silences_adapters_witness :
  stall_tbl_on other_task_table_off = false /\
  Part_000.dynsec_bprm_set_creds (K := run_dynsec_h) (T := run_dynsec_hook_h)
    other_task_table_off true = Done (orig_ret other_task_table_off) [].
Proof.
  assert (H1 : stall_tbl_on other_task_table_off = false) by reflexivity.
  split; [assumption|].
  exact (proj1 (@disabled_table_silences_adapters run_dynsec_h
                  run_dynsec_hook_h other_task_table_off H1) true).
Defined.

Lemma file_open_ignores_f_mode_witness :
  negb (Z.land FMODE_STREAM FMODE_STREAM =? 0) = true /\
  Part_000.dynsec_file_free_security (K := run_dynsec_h)
    (T := run_dynsec_hook_h) other_task FMODE_STREAM (Some regular_file) = [].
Proof.
  assert (H1 : negb (Z.land FMODE_STREAM FMODE_STREAM =? 0) = true)
    by reflexivity.
  split; [assumption|].
  exact (proj2 (@file_open_ignores_f_mode run_dynsec_h run_dynsec_hook_h
                  other_task FMODE_STREAM 0 (Some regular_file)) H1).
Defined.

Lemma setattr_event_iff_change_witness :
  orig_ret other_task = 0 /\
  Part_000.hook_off other_task
    (@DYNSEC_HOOK_TYPE_SETATTR run_dynsec_hook_h) = false /\
  stall_tbl_on other_task = true /\
  changes_inode regular_file chmod_new_mode = true /\
  exists rest,
    outcome_trace
      (Part_000.dynsec_inode_setattr (K := run_dynsec_h)
         (T := run_dynsec_hook_h) other_task (Some (Some regular_file))
         (Some chmod_new_mode)) =
    AllocEvent DYNSEC_EVENT_TYPE_SETATTR
               (@DYNSEC_HOOK_TYPE_SETATTR run_dynsec_hook_h)
               (Part_000.self_or_stall (K := run_dynsec_h) other_task
                  (u16 (@DYNSEC_REPORT_AUDIT run_dynsec_h)))
    :: FillIn :: rest.
Proof.
  assert (H1 : orig_ret other_task = 0) by reflexivity.
  assert (H2 : Part_000.hook_off other_task
                 (@DYNSEC_HOOK_TYPE_SETATTR run_dynsec_hook_h) = false)
    by reflexivity.
  assert (H3 : stall_tbl_on other_task = true) by reflexivity.
  assert (H4 : changes_inode regular_file chmod_new_mode = true)
    by reflexivity.
  repeat (split; [assumption|]).
  exact (proj2 (@setattr_event_iff_change run_dynsec_h run_dynsec_hook_h
                  other_task regular_file chmod_new_mode H1 H2 H3) H4).
Defined.

Lemma mmap_policy_witness :
  0 < @DYNSEC_REPORT_STALL run_dynsec_h < 2 ^ 16 /\
  Z.land (@DYNSEC_REPORT_AUDIT run_dynsec_h)
         (@DYNSEC_REPORT_STALL run_dynsec_h) = 0 /\
  orig_ret other_task = 0 /\
  Z.land PROT_EXEC PROT_EXEC <> 0 /\
  stall_tbl_on other_task = true /\
  in_connected_tgid other_task = false /\
  alloc_ok other_task = true /\ fill_ok other_task = true /\
  Part_000.dynsec_mmap_file (K := run_dynsec_h) (T := run_dynsec_hook_h)
    other_task initial_mmap_settings None PROT_EXEC 0 false =
  Done 0 [AllocEvent DYNSEC_EVENT_TYPE_MMAP 8192 2; FillIn; EnqueueLowPri].
Proof.
  assert (H1 : 0 < @DYNSEC_REPORT_STALL run_dynsec_h < 2 ^ 16)
    by (simpl; lia).
  assert (H2 : Z.land (@DYNSEC_REPORT_AUDIT run_dynsec_h)
                      (@DYNSEC_REPORT_STALL run_dynsec_h) = 0) by reflexivity.
  assert (H3 : orig_ret other_task = 0) by reflexivity.
  assert (H4 : Z.land PROT_EXEC PROT_EXEC <> 0) by (vm_compute; discriminate).
  assert (H5 : stall_tbl_on other_task = true) by reflexivity.
  assert (H6 : in_connected_tgid other_task = false) by reflexivity.
  assert (H7 : alloc_ok other_task = true) by reflexivity.
  assert (H8 : fill_ok other_task = true) by reflexivity.
  repeat (split; [assumption|]).
  exact (@mmap_policy run_dynsec_h run_dynsec_hook_h other_task
           initial_mmap_settings None PROT_EXEC 0 false
           H1 H2 H3 H4 H5 H6 H7 H8).
Defined.

Lemma revisions_agree_witness :
  u32 (enqueue_size other_task) <> 0 /\
  Part_000.hook_off other_task (@DYNSEC_HOOK_TYPE_EXEC run_dynsec_hook_h)
  = false /\
  Part_000.dynsec_bprm_set_creds (K := run_dynsec_h) (T := run_dynsec_hook_h)
    other_task true =
  Hooks_c.dynsec_bprm_set_creds (K := run_dynsec_h) (T := run_dynsec_hook_h)
    other_task true.
Proof.
  assert (H1 : u32 (enqueue_size other_task) <> 0)
    by (vm_compute; discriminate).
  assert (H2 : Part_000.hook_off other_task
                 (@DYNSEC_HOOK_TYPE_EXEC run_dynsec_hook_h) = false)
    by reflexivity.
  repeat (split; [assumption|]).
  exact (proj1 (@revisions_agree run_dynsec_h run_dynsec_hook_h other_task H1)
               true H2).
Defined.

Lemma other_tasks_are_stalled_witness :
  0 < @DYNSEC_REPORT_STALL run_dynsec_h < 2 ^ 16 /\
  stalls_for other_task /\
  Part_000.hook_off other_task (@DYNSEC_HOOK_TYPE_EXEC run_dynsec_hook_h)
  = false /\
  exists flags,
    Part_000.dynsec_bprm_set_creds (K := run_dynsec_h)
      (T := run_dynsec_hook_h) other_task true =
    Done (verdict_of other_task)
         [AllocEvent DYNSEC_EVENT_TYPE_EXEC
                     (@DYNSEC_HOOK_TYPE_EXEC run_dynsec_hook_h) flags;
          FillIn; WaitEvent].
Proof.
  assert (H1 : 0 < @DYNSEC_REPORT_STALL run_dynsec_h < 2 ^ 16)
    by (simpl; lia).
  assert (H2 : stalls_for other_task)
    by (unfold stalls_for; repeat split; reflexivity).
  assert (H3 : Part_000.hook_off other_task
                 (@DYNSEC_HOOK_TYPE_EXEC run_dynsec_hook_h) = false)
    by reflexivity.
  repeat (split; [assumption|]).
  exact (proj1 (@other_tasks_are_stalled run_dynsec_h run_dynsec_hook_h
                  other_task H1 H2) H3).
Defined.

Lemma long_wake_up_read_as_interrupt_witness :
  exists pre,
    count_waits pre = 1 /\ count_removes pre = 0 /\
    dynsec_wait_event_timeout (K := run_dynsec_h) saturating_jiffies
      (Some stalling_event) (Some 7) true false 4096
      (fresh_entry (K := run_dynsec_h) false) 1000 deny_with_jiffies_left =
    Some {| w_ret := 0; w_response := Some 0;
            w_trace := Insert :: (pre ++ [Wait MAX_JIFFY_OFFSET; RemoveEntry])
                              ++ [KfreeEntry] |}.
Proof.
  assert (H1 : ignorable (K := run_dynsec_h) stalling_event false = false)
    by reflexivity.
  assert (H2 : inserted 4096 = true) by reflexivity.
  assert (H3 : (1 < 256)%nat) by lia.
  assert (H4 : forall j, (j < 1)%nat ->
                 continue_round (K := run_dynsec_h)
                                (deny_with_jiffies_left j)).
  { intros j Hj. assert (j = 0%nat) as -> by lia.
    unfold continue_round. repeat split; reflexivity. }
  assert (H5 : gates_open (deny_with_jiffies_left 1) = true) by reflexivity.
  assert (H6 : 0 < wait_ret (deny_with_jiffies_left 1)) by reflexivity.
  assert (H7 : 2 ^ 31 <= wait_ret (deny_with_jiffies_left 1) mod 2 ^ 32)
    by (vm_compute; discriminate).
  exact (@long_wake_up_read_as_interrupt run_dynsec_h saturating_jiffies
           stalling_event 7 false 4096 (fresh_entry (K := run_dynsec_h) false)
           1000 deny_with_jiffies_left 1%nat H1 H2 H3 H4 H5 H6 H7).
Defined.
